(** * Desktop DeepZoom image converter: batch conversion pipeline

    A shallow embedding of [converter_v7.py] and [converter_v8.py]: the path
    classifier [_is_unc], the worker-count selector [_auto_workers], the
    format normaliser [_ensure_rgb], the file-name sanitiser inlined in
    [save_jpeg.worker], the two batch drivers [save_jpeg] and
    [create_deepzoom], and the module-level statements of the two scripts
    as far as they bind and look up names, followed by the properties of
    the written specification that concern them.

    Conventions.
    - A Python [str] is a list of Unicode code points ([char := N]).
    - A Python [int] is a [Z]; [//] is [Z.div], which floors as Python does
      for a positive divisor.
    - Library calls ([os.path], [os.cpu_count], [PIL.Image], [deepzoom]) are
      the fields of interfaces; the repository's own functions are
      definitions over those interfaces.
    - A call that may raise returns a [result]; code that both raises and
      mutates runs in the state-and-exception monad [M].
    - Elapsed times ([time.perf_counter] differences, floating point) are
      left out of log lines and dialogs. *)

From Stdlib Require Import String Ascii.
From Stdlib Require Import List ZArith NArith Lia Bool Permutation.
Import ListNotations.

Set Implicit Arguments.

(** ** Python strings *)

Module Py.

Definition char := N.
Definition str := list char.

(** A literal: the code points of an ASCII string. *)
Definition lit (s : string) : str := map N_of_ascii (list_ascii_of_string s).

Definition chr_eqb (a b : char) : bool := N.eqb a b.

Fixpoint str_eqb (a b : str) : bool :=
  match a, b with
  | [], [] => true
  | x :: a', y :: b' => chr_eqb x y && str_eqb a' b'
  | _, _ => false
  end.

(** [c in chars] for a one-character [c]. *)
Definition char_in (c : char) (chars : str) : bool := existsb (chr_eqb c) chars.

(** [len(s)] *)
Definition len {A} (s : list A) : Z := Z.of_nat (length s).

(** [s[i:j]] for [0 <= i]. *)
Definition slice {A} (s : list A) (i j : Z) : list A :=
  firstn (Z.to_nat (j - i)) (skipn (Z.to_nat i) s).

(** [s[i:]] for [0 <= i]. *)
Definition slice_from {A} (s : list A) (i : Z) : list A := skipn (Z.to_nat i) s.

(** [s[:j]] for [0 <= j]. *)
Definition slice_to {A} (s : list A) (j : Z) : list A := firstn (Z.to_nat j) s.

Fixpoint rfind_from (c : char) (s : str) (i acc : Z) : Z :=
  match s with
  | [] => acc
  | x :: t => rfind_from c t (i + 1) (if chr_eqb x c then i else acc)
  end.

(** [s.rfind(c)] for a one-character [c]: the last index of [c], or -1. *)
Definition rfind (s : str) (c : char) : Z := rfind_from c s 0 (-1).

Fixpoint find_from (c : char) (s : str) (i : Z) : Z :=
  match s with
  | [] => -1
  | x :: t => if chr_eqb x c then i else find_from c t (i + 1)
  end.

(** [s.find(c, start)] for a one-character [c] and [0 <= start]. *)
Definition find (s : str) (c : char) (start : Z) : Z :=
  find_from c (slice_from s start) start.

Fixpoint startswith (s prefix : str) : bool :=
  match prefix, s with
  | [], _ => true
  | p :: prefix', x :: s' => chr_eqb x p && startswith s' prefix'
  | _ :: _, [] => false
  end.

Fixpoint lstrip (chars s : str) : str :=
  match s with
  | [] => []
  | c :: t => if char_in c chars then lstrip chars t else s
  end.

(** [s.rstrip(chars)]: drop the longest suffix made of characters of [chars]. *)
Definition rstrip (chars s : str) : str := rev (lstrip chars (rev s)).

(** [s.replace(a, b)] for one-character [a] and [b]. *)
Definition replace (s : str) (a b : char) : str :=
  map (fun c => if chr_eqb c a then b else c) s.

(** [sep.join(parts)] with the empty separator. *)
Definition join_empty (parts : list str) : str := concat parts.

(** The code points below U+00A0 for which [str.isalnum] holds: the ASCII
    digits and letters.  U+0000..U+001F and U+007F..U+009F are the control
    characters (category Cc); the rest of ASCII is punctuation, symbols and
    the space. *)
Definition ascii_alnum (c : char) : bool :=
  ((48 <=? c) && (c <=? 57) || (65 <=? c) && (c <=? 90) || (97 <=? c) && (c <=? 122))%N.

(** The Unicode character database, consulted for code points from U+00A0
    upwards. *)
Class Unicode := { ucd_alnum : char -> bool }.

(** [c.isalnum()] *)
Definition isalnum `{Unicode} (c : char) : bool :=
  if (c <? 160)%N then ascii_alnum c else ucd_alnum c.

(** Control characters: category Cc, U+0000..U+001F and U+007F..U+009F. *)
Definition is_control (c : char) : bool :=
  ((c <? 32) || (127 <=? c) && (c <=? 159))%N.

End Py.
Import Py.

(** ** Exceptions *)

(** The exception classes the modelled library calls and the interpreter
    raise; every one of them derives from [Exception]. *)
Inductive exn : Type :=
| ValueError (msg : string)
| OSError (msg : string)
| TypeError (msg : string)
| IndexError (msg : string)
| NameError (msg : string).

Inductive result (A : Type) : Type :=
| Ok (a : A)
| Raise (e : exn).
Arguments Ok {A} a.
Arguments Raise {A} e.

Definition result_bind {A B} (r : result A) (k : A -> result B) : result B :=
  match r with
  | Ok a => k a
  | Raise e => Raise e
  end.

Notation "x <- r ;; k" := (result_bind r (fun x => k))
  (at level 61, r at next level, right associativity).

(** [xs[-1]] *)
Definition subscript_last {A} (xs : list A) : result A :=
  match rev xs with
  | x :: _ => Ok x
  | [] => Raise (IndexError "tuple index out of range")
  end.

(** ** [os.path] *)

(** The name-splitting half of [os.path], in the flavour the interpreter
    loaded: [ntpath] on Windows, [posixpath] elsewhere. *)
Class OsPath := {
  os_path_basename : str -> str;
  os_path_splitext : str -> str * str
}.

(** The rest of what the converter asks of [os]: [os.path.join] (two
    arguments), [os.path.abspath], which consults the working directory
    and, on Windows, the operating system, and raises on input it cannot
    resolve, [os.cpu_count()], which is [None] when the count cannot be
    determined, and the two URI helpers [urllib.parse.quote] and
    [pathlib.Path(p).as_uri()]. *)
Class Os := {
  os_path_join : str -> str -> str;
  os_path_abspath : str -> result str;
  os_cpu_count : option Z;
  quote : str -> str;
  Path_as_uri : str -> result str
}.

Module genericpath.

(** [genericpath._splitext(p, sep, altsep, extsep)] *)
Definition _splitext (p : str) (sep : char) (altsep : option char) (extsep : char)
  : str * str :=
  let sepIndex := rfind p sep in
  let sepIndex :=
    match altsep with
    | Some a => Z.max sepIndex (rfind p a)
    | None => sepIndex
    end in
  let dotIndex := rfind p extsep in
  if (sepIndex <? dotIndex)%Z
     && existsb (fun c => negb (chr_eqb c extsep)) (slice p (sepIndex + 1) dotIndex)
  then (slice_to p dotIndex, slice_from p dotIndex)
  else (p, []).

End genericpath.

Module posixpath.

(** [posixpath.basename(p)] *)
Definition basename (p : str) : str :=
  let i := (rfind p 47%N + 1)%Z in
  slice_from p i.

(** [posixpath.splitext(p)] *)
Definition splitext (p : str) : str * str :=
  genericpath._splitext p 47%N None 46%N.

(** [posixpath.join(a, b)] for two arguments. *)
Definition join (a b : str) : str :=
  if startswith b (lit "/") then b
  else if str_eqb a [] || str_eqb (slice_from a (len a - 1)) (lit "/") then a ++ b
  else a ++ lit "/" ++ b.

Definition os_path : OsPath :=
  {| os_path_basename := basename; os_path_splitext := splitext |}.

End posixpath.

Module ntpath.

Definition sep : char := 92%N.
Definition altsep : char := 47%N.
Definition colon : char := 58%N.
Definition seps : str := [sep; altsep].

(** [str.upper] on the ASCII letters; the comparison below is with an
    ASCII prefix of the same length, which no other character maps onto. *)
Definition upper (c : char) : char :=
  if ((97 <=? c) && (c <=? 122))%N then (c - 32)%N else c.

(** [ntpath.splitroot(p)] (Python 3.12): drive, root, rest. *)
Definition splitroot (p : str) : str * str * str :=
  let normp := replace p altsep sep in
  if str_eqb (slice_to normp 1) [sep] then
    if str_eqb (slice normp 1 2) [sep] then
      let start :=
        if str_eqb (map upper (slice_to normp 8)) (lit "\\?\UNC\") then 8%Z else 2%Z in
      let index := find normp sep start in
      if (index =? -1)%Z then (p, [], []) else
      let index2 := find normp sep (index + 1) in
      if (index2 =? -1)%Z then (p, [], []) else
      (slice_to p index2, slice p index2 (index2 + 1), slice_from p (index2 + 1))
    else ([], slice_to p 1, slice_from p 1)
  else if str_eqb (slice normp 1 2) [colon] then
    if str_eqb (slice normp 2 3) [sep]
    then (slice_to p 2, slice p 2 3, slice_from p 3)
    else (slice_to p 2, [], slice_from p 2)
  else ([], [], p).

(** The loop [while i and p[i-1] not in seps: i -= 1] of [ntpath.split],
    run on the reversed string: the separator-free tail and what is left. *)
Fixpoint last_component (r : str) : str * str :=
  match r with
  | [] => ([], [])
  | c :: t =>
      if char_in c seps then ([], r)
      else let '(tail, head) := last_component t in (c :: tail, head)
  end.

(** [ntpath.split(p)] *)
Definition split (p : str) : str * str :=
  let '(d, r, rest) := splitroot p in
  let '(tail, head) := last_component (rev rest) in
  (d ++ r ++ rstrip seps (rev head), rev tail).

(** [ntpath.basename(p)] *)
Definition basename (p : str) : str := snd (split p).

(** [ntpath.splitext(p)] *)
Definition splitext (p : str) : str * str :=
  genericpath._splitext p sep (Some altsep) 46%N.

Definition os_path : OsPath :=
  {| os_path_basename := basename; os_path_splitext := splitext |}.

End ntpath.

(** ** [PIL.Image] *)

Module Image.

(** A decoded image: its mode tag, its size (width, height), the band
    tuple of each pixel as [getpixel((x, y))] returns it, and the palette
    of an indexed image ([getpalette()]). *)
Record Image := {
  mode : string;
  size : Z * Z;
  getpixel : Z -> Z -> list Z;
  palette : list Z
}.

(** [im.convert(mode)] uses the decoder's colour-space conversion and may
    raise (a truncated file is read when its pixels are first needed). *)
Class Convert := { convert : Image -> string -> result Image }.

Definition size_eqb (a b : Z * Z) : bool :=
  (fst a =? fst b)%Z && (snd a =? snd b)%Z.

(** Is [(x, y)] inside an image of the given size? *)
Definition inside (sz : Z * Z) (x y : Z) : bool :=
  (0 <=? x)%Z && (x <? fst sz)%Z && (0 <=? y)%Z && (y <? snd sz)%Z.

(** [im.getbands()] *)
Definition getbands (m : string) : list string :=
  if (m =? "RGBA")%string then ["R"; "G"; "B"; "A"]%string
  else if (m =? "RGBa")%string then ["R"; "G"; "B"; "a"]%string
  else if (m =? "RGBX")%string then ["R"; "G"; "B"; "X"]%string
  else if (m =? "CMYK")%string then ["C"; "M"; "Y"; "K"]%string
  else if (m =? "RGB")%string then ["R"; "G"; "B"]%string
  else if (m =? "YCbCr")%string then ["Y"; "Cb"; "Cr"]%string
  else if (m =? "LAB")%string then ["L"; "A"; "B"]%string
  else if (m =? "HSV")%string then ["H"; "S"; "V"]%string
  else if (m =? "LA")%string then ["L"; "A"]%string
  else if (m =? "La")%string then ["L"; "a"]%string
  else if (m =? "PA")%string then ["P"; "A"]%string
  else [m].

(** [Image.new(mode, size, color)] *)
Definition new (m : string) (sz : Z * Z) (color : list Z) : result Image :=
  if (fst sz <? 0)%Z || (snd sz <? 0)%Z
  then Raise (ValueError "Width and height must be >= 0")
  else Ok {| mode := m; size := sz; getpixel := fun _ _ => color; palette := [] |}.

(** [im.split()]: one single-band image per band. *)
Definition split (im : Image) : list Image :=
  map (fun i =>
         {| mode := "L"; size := size im;
            getpixel := fun x y => [nth i (getpixel im x y) 0%Z];
            palette := [] |})
      (seq 0 (length (getbands (mode im)))).

(** The macro [DIV255(a, tmp)] of Pillow's [ImagingUtils.h]. *)
Definition DIV255 (a : Z) : Z :=
  let tmp := (a + 128)%Z in
  Z.shiftr (Z.shiftr tmp 8 + tmp) 8.

(** The macro [BLEND(mask, in1, in2, tmp1)], stored into a [UINT8]. *)
Definition BLEND (mask in1 in2 : Z) : Z :=
  (DIV255 (in1 * (255 - mask) + in2 * mask) mod 256)%Z.

(** The macro [PREBLEND(mask, in1, in2, tmp1)], stored into a [UINT8]. *)
Definition PREBLEND (mask in1 in2 : Z) : Z :=
  ((DIV255 (in1 * (255 - mask)) + in2) mod 256)%Z.

(** Band [i] of a pixel. *)
Definition band (i : nat) (p : list Z) : Z := nth i p 0%Z.

(** The first three bytes of a pixel as the imaging core stores it: an
    [LA] pixel is stored as (L, L, L, A). *)
Definition rgb_bytes (m : string) (p : list Z) : list Z :=
  if (m =? "LA")%string || (m =? "La")%string
  then [band 0 p; band 0 p; band 0 p]
  else [band 0 p; band 1 p; band 2 p].

(** The mask modes [ImagingPaste] accepts. *)
Definition mask_supported (mask_mode : string) : bool :=
  (mask_mode =? "1")%string || (mask_mode =? "L")%string
  || (mask_mode =? "LA")%string || (mask_mode =? "RGBA")%string
  || (mask_mode =? "RGBa")%string.

(** How a mask pixel mixes the pasted value [src] into the present value
    [out], by the mode of the mask ([paste_mask_1], [paste_mask_L],
    [paste_mask_RGBA], [paste_mask_RGBa] of Pillow's [Paste.c]). *)
Definition mix (mask_mode : string) (mask_px : list Z) (out src : Z) : Z :=
  if (mask_mode =? "1")%string then
    if (band 0 mask_px =? 0)%Z then out else src
  else if (mask_mode =? "L")%string then BLEND (band 0 mask_px) out src
  else if (mask_mode =? "LA")%string then BLEND (band 1 mask_px) out src
  else if (mask_mode =? "RGBA")%string then BLEND (band 3 mask_px) out src
  else PREBLEND (band 3 mask_px) out src.

(** [self.paste(im, mask=mask)] for an [RGB] destination and no box: the
    upper left corners coincide and [self] is updated where [im] covers
    it.  An image pasted into an [RGB] one is converted first unless its
    mode is [LA], [RGBA] or [RGBa]. *)
Definition paste `{Convert} (self im mask : Image) : result Image :=
  im' <- (if (mode im =? "RGB")%string || (mode im =? "LA")%string
             || (mode im =? "RGBA")%string || (mode im =? "RGBa")%string
          then Ok im else convert im "RGB") ;;
  if negb (size_eqb (size im') (size mask))
  then Raise (ValueError "images do not match")
  else if negb (mask_supported (mode mask))
  then Raise (ValueError "bad transparency mask")
  else
    Ok {| mode := mode self; size := size self;
          getpixel := fun x y =>
            if inside (size im') x y then
              map (fun '(out, src) => mix (mode mask) (getpixel mask x y) out src)
                  (combine (getpixel self x y)
                           (rgb_bytes (mode im') (getpixel im' x y)))
            else getpixel self x y;
          palette := palette self |}.

End Image.

(** ** What the program shows, prints, schedules and submits *)

(** A printed line; the elapsed times that some lines end with are left
    out.  The two revisions word their lines differently, the content is
    the same. *)
Inductive line : Type :=
| AutoWorkersLine (w : Z) (unc : bool) (cpu : option Z)
    (* "[Auto Workers] Using {w} worker(s) (UNC=.., CPU=..)" *)
| JpegSkipped (src : str)        (* "[Save JPEG] Skipped (not found): {src}" *)
| JpegDebugSaving (out_path : str)          (* "[DEBUG] Saving: {out_path}" *)
| JpegSaved (out_path : str)            (* "[Save JPEG] Saved: {out_path}" *)
| JpegError (src : str) (e : exn)  (* "[Save JPEG] Error converting {src}" *)
| JpegDone (converted errors : Z)
    (* "[Save JPEG] Done. Converted: {converted}, Errors: {errors}" *)
| DzSettings                                   (* "[DeepZoom] Settings: .." *)
| DzWorkers (workers : Z)         (* "[DeepZoom] Workers (auto): {workers}" *)
| DzCreated (info : str)                   (* "[DeepZoom] Created: {info}" *)
| DzSkipped (src : str)         (* "[DeepZoom] Skipped (not found): {src}" *)
| DzError (src info : str)          (* "[DeepZoom] Error: {src} -> {info}" *)
| DzDone (created skipped errors : Z)
    (* "[DeepZoom] Done. Created: .., Skipped: .., Errors: .." *)
| DziDone (success : Z).              (* "[DZI] Done. Created: {success}" *)

(** The value of a Tk string variable. *)
Inductive text : Type :=
| Blank                                                          (* "" *)
| LastRunElapsed                              (* "Last run elapsed: .." *)
| SavedJpegs (converted : Z)              (* "Saved {converted} JPEG(s)" *)
| CreatedDzis (created : Z).              (* "Created {created} DZI(s)" *)

(** A message box. *)
Inductive dialog : Type :=
| showerror (title message : string)
| showinfo_jpeg (converted errors : Z)
    (* "Converted {converted} file(s) to JPEG. Errors: {errors}" *)
| showinfo_deepzoom (created skipped errors : Z)
    (* "Created: {created} Skipped: {skipped} Errors: {errors}" *)
| showinfo_dzi (success : Z).                  (* "Created: {success}" *)

(** A callback handed to [root.after(0, ...)]. *)
Inductive callback : Type :=
| progress_var_set (val : Z)          (* lambda val=i: progress_var.set(val) *)
| elapsed_total_set                       (* lambda: elapsed_total.set(..) *)
| set_busy_cb (b : bool)                            (* lambda: _set_busy(b) *)
| messagebox (d : dialog).              (* lambda: messagebox.showinfo(..) *)

(** A callable submitted to a thread pool. *)
Inductive task : Type :=
| jpeg_worker                                        (* [save_jpeg.worker] *)
| dz_run_parallel (workers : Z)    (* [create_deepzoom.run_parallel], v7 *)
| dz_job (src : str)                                   (* [job(src)], v7 *)
| dz_worker.                              (* [create_deepzoom.worker], v8 *)

(** [ThreadPoolExecutor(max_workers=..)] and the tasks submitted to it, in
    submission order. *)
Record executor : Type := {
  max_workers : Z;
  submitted : list task
}.

(** A pool with one slot that was given the one task [t]. *)
Definition one_slot (t : task) : executor :=
  {| max_workers := 1; submitted := [t] |}.

(** [ImageCreator(tile_size=.., ..)]; [image_quality] is a float, kept as
    a fraction. *)
Record ImageCreator : Type := {
  tile_size : Z;
  tile_overlap : Z;
  tile_format : string;
  image_quality : Z * Z;
  resize_filter : string
}.

(** The keyword arguments of [im.save(out_path, "JPEG", ..)]. *)
Record SaveOptions : Type := {
  quality : Z;
  optimize : bool;
  progressive : bool;
  subsampling : Z
}.

(** The calls that read or change the world outside the process.  Each
    takes the world and returns the world it leaves, with its result or the
    exception it raised. *)
Class Platform (World : Type) := {
  os_path_exists : str -> World -> bool;
  os_makedirs : str -> World -> World * result unit;
  (* [Image.open(src)], followed by [im.seek(0)] with its errors ignored *)
  Image_open : str -> World -> World * result Image.Image;
  Image_save : Image.Image -> str -> SaveOptions -> World -> World * result unit;
  (* was [from deepzoom import ImageCreator] successful; whether the
     script gets as far as its window when it was not is the matter of
     [Script.load] below *)
  HAS_DEEPZOOM : bool;
  ImageCreator_create : ImageCreator -> str -> str -> World -> World * result unit;
  (* v8: [open(get_log_file_path(), "w")] and the write of the transcript *)
  write_log : list line -> World -> World * result unit
}.

(** The state of the process: the outside world, the module's globals and
    Tk variables, and what the program has shown, printed, scheduled and
    submitted so far. *)
Record App (World : Type) : Type := {
  world : World;
    (* the file system and whatever else the libraries touch *)
  input_files : list str;
    (* the global [input_files] *)
  output_dir : str;
    (* [output_dir.get()] *)
  progress_var : Z;
    (* [progress_var]: the completed count *)
  progress_max : Z;
    (* [progress_max]: the maximum *)
  prog_maximum : Z;
    (* the [maximum] option of the progress bar [prog] *)
  elapsed_total : text;
    (* [elapsed_total] *)
  status_jpeg : text;
    (* [status_jpeg] *)
  status_dz : text;
    (* [status_dz] *)
  busy : bool;
    (* are the buttons disabled ([_set_busy]) *)
  stdout : list line;
    (* the lines printed, oldest first *)
  dialogs : list dialog;
    (* the message boxes shown, oldest first *)
  after_queue : list callback;
    (* [root.after(0, ...)] callbacks not yet run, oldest first *)
  executors : list executor
    (* the thread pools created, and what each was given *)
}.

Section Setters.
Context {World : Type}.
Implicit Type s : App World.

Definition set_world (v : World) s : App World :=
  Build_App
    v (input_files s) (output_dir s) (progress_var s) (progress_max s)
    (prog_maximum s) (elapsed_total s) (status_jpeg s) (status_dz s) (busy
    s) (stdout s) (dialogs s) (after_queue s) (executors s).

Definition set_progress_var (v : Z) s : App World :=
  Build_App
    (world s) (input_files s) (output_dir s) v (progress_max s)
    (prog_maximum s) (elapsed_total s) (status_jpeg s) (status_dz s) (busy
    s) (stdout s) (dialogs s) (after_queue s) (executors s).

Definition set_progress_max (v : Z) s : App World :=
  Build_App
    (world s) (input_files s) (output_dir s) (progress_var s) v
    (prog_maximum s) (elapsed_total s) (status_jpeg s) (status_dz s) (busy
    s) (stdout s) (dialogs s) (after_queue s) (executors s).

Definition set_prog_maximum (v : Z) s : App World :=
  Build_App
    (world s) (input_files s) (output_dir s) (progress_var s) (progress_max
    s) v (elapsed_total s) (status_jpeg s) (status_dz s) (busy s) (stdout s)
    (dialogs s) (after_queue s) (executors s).

Definition set_elapsed_total (v : text) s : App World :=
  Build_App
    (world s) (input_files s) (output_dir s) (progress_var s) (progress_max
    s) (prog_maximum s) v (status_jpeg s) (status_dz s) (busy s) (stdout s)
    (dialogs s) (after_queue s) (executors s).

Definition set_status_jpeg (v : text) s : App World :=
  Build_App
    (world s) (input_files s) (output_dir s) (progress_var s) (progress_max
    s) (prog_maximum s) (elapsed_total s) v (status_dz s) (busy s) (stdout
    s) (dialogs s) (after_queue s) (executors s).

Definition set_status_dz (v : text) s : App World :=
  Build_App
    (world s) (input_files s) (output_dir s) (progress_var s) (progress_max
    s) (prog_maximum s) (elapsed_total s) (status_jpeg s) v (busy s) (stdout
    s) (dialogs s) (after_queue s) (executors s).

Definition set_busy (v : bool) s : App World :=
  Build_App
    (world s) (input_files s) (output_dir s) (progress_var s) (progress_max
    s) (prog_maximum s) (elapsed_total s) (status_jpeg s) (status_dz s) v
    (stdout s) (dialogs s) (after_queue s) (executors s).

Definition set_stdout (v : list line) s : App World :=
  Build_App
    (world s) (input_files s) (output_dir s) (progress_var s) (progress_max
    s) (prog_maximum s) (elapsed_total s) (status_jpeg s) (status_dz s)
    (busy s) v (dialogs s) (after_queue s) (executors s).

Definition set_dialogs (v : list dialog) s : App World :=
  Build_App
    (world s) (input_files s) (output_dir s) (progress_var s) (progress_max
    s) (prog_maximum s) (elapsed_total s) (status_jpeg s) (status_dz s)
    (busy s) (stdout s) v (after_queue s) (executors s).

Definition set_after_queue (v : list callback) s : App World :=
  Build_App
    (world s) (input_files s) (output_dir s) (progress_var s) (progress_max
    s) (prog_maximum s) (elapsed_total s) (status_jpeg s) (status_dz s)
    (busy s) (stdout s) (dialogs s) v (executors s).

Definition set_executors (v : list executor) s : App World :=
  Build_App
    (world s) (input_files s) (output_dir s) (progress_var s) (progress_max
    s) (prog_maximum s) (elapsed_total s) (status_jpeg s) (status_dz s)
    (busy s) (stdout s) (dialogs s) (after_queue s) v.

(** The state after a stretch of work that left the world as [w], printed
    [lines] and scheduled [cbs]. *)
Definition advance (w : World) (lines : list line) (cbs : list callback) s
  : App World :=
  Build_App
    w (input_files s) (output_dir s) (progress_var s) (progress_max s)
    (prog_maximum s) (elapsed_total s) (status_jpeg s) (status_dz s) (busy s)
    (stdout s ++ lines) (dialogs s) (after_queue s ++ cbs) (executors s).

End Setters.

(** Counting the lines of a transcript by what they report. *)
Definition reports_ok (l : line) : bool :=
  match l with JpegSaved _ | DzCreated _ => true | _ => false end.
Definition reports_skipped (l : line) : bool :=
  match l with JpegSkipped _ | DzSkipped _ => true | _ => false end.
Definition reports_error (l : line) : bool :=
  match l with JpegError _ _ | DzError _ _ => true | _ => false end.
Definition tally (f : line -> bool) (lines : list line) : Z :=
  len (filter f lines).

(** Does the line tell how one file fared? *)
Definition is_outcome (l : line) : bool :=
  reports_ok l || reports_skipped l || reports_error l.

(** ** Helpers of the converter *)

Section Helpers.
Context `{OsPath} `{Os} `{Unicode}.

(** [_basename_no_ext(path)] *)
Definition _basename_no_ext (path : str) : str :=
  fst (os_path_splitext (os_path_basename path)).

(** [base = _basename_no_ext(src).rstrip(". ")] in [save_jpeg.worker]. *)
Definition base (src : str) : str :=
  rstrip (lit ". ") (_basename_no_ext src).

(** [safe = "".join(c if c.isalnum() or c in "._- " else "_" for c in base)] *)
Definition safe (src : str) : str :=
  join_empty
    (map (fun c => if isalnum c || char_in c (lit "._- ") then [c] else lit "_")
         (base src)).

(** [_is_unc(p)]; the handler catches every [Exception]. *)
Definition _is_unc (p : str) : result bool :=
  match os_path_abspath p with
  | Ok a => Ok (startswith a (lit "\\"))
  | Raise _ => Ok false
  end.

(** [path_to_file_uri(p)] *)
Definition path_to_file_uri (p : str) : result str :=
  p_abs <- os_path_abspath p ;;
  if startswith p_abs (lit "\\")
  then Ok (lit "file://" ++ quote (replace (slice_from p_abs 2) 92%N 47%N))
  else Path_as_uri p_abs.

(** [cores = os.cpu_count() or 4] *)
Definition cores : Z :=
  match os_cpu_count with
  | Some c => if (c =? 0)%Z then 4%Z else c
  | None => 4%Z
  end.

(** [_is_unc(out_dir) or any(_is_unc(f) for f in files)]; [_is_unc] never
    raises, so the test is a boolean. *)
Definition is_unc_bool (p : str) : bool :=
  match _is_unc p with
  | Ok b => b
  | Raise _ => false
  end.

Definition any_unc (files : list str) (out_dir : str) : bool :=
  is_unc_bool out_dir || existsb is_unc_bool files.

End Helpers.

(** A host that differs from [O] in what the worker-count selector looks
    at: the core count and the resolution of paths. *)
Definition with_selector_inputs (cpu : option Z) (resolve : str -> result str)
  (O : Os) : Os :=
  {| os_path_join := @os_path_join O;
     os_path_abspath := resolve;
     os_cpu_count := cpu;
     quote := @quote O;
     Path_as_uri := @Path_as_uri O |}.

(** Is [l] the line with which a JPEG loop that writes to [out_dir] tells
    how the file [src] fared? *)
Definition jpeg_report `{OsPath} `{Os} `{Unicode} (out_dir src : str) (l : line)
  : Prop :=
  match l with
  | JpegSaved out_path => out_path = os_path_join out_dir (safe src ++ lit ".jpg")
  | JpegSkipped x | JpegError x _ => x = src
  | _ => False
  end.

(** Is [l] the line with which the v8 DeepZoom loop tells how the file
    [src] fared? *)
Definition dzi_report `{OsPath} (src : str) (l : line) : Prop :=
  match l with
  | DzCreated info => info = _basename_no_ext src ++ lit ".dzi"
  | DzError x _ => x = src
  | _ => False
  end.

(** ** The state-and-exception monad *)

Section Monad.
Context {World : Type}.

(** A computation reads and changes the state, and returns or raises; what
    it changed before raising stays changed. *)
Definition M (A : Type) : Type := App World -> result A * App World.

Definition ret {A} (a : A) : M A := fun s => (Ok a, s).

Definition bind {A B} (m : M A) (k : A -> M B) : M B :=
  fun s =>
    match m s with
    | (Ok a, s') => k a s'
    | (Raise e, s') => (Raise e, s')
    end.

(** [try: body / except Exception as e: handler(e)] *)
Definition try_except {A} (body : M A) (handler : exn -> M A) : M A :=
  fun s =>
    match body s with
    | (Ok a, s') => (Ok a, s')
    | (Raise e, s') => handler e s'
    end.

Definition lift {A} (r : result A) : M A := fun s => (r, s).

Definition gets {A} (f : App World -> A) : M A := fun s => (Ok (f s), s).

Definition modify (f : App World -> App World) : M unit := fun s => (Ok tt, f s).

(** A library call on the outside world. *)
Definition syscall {A} (op : World -> World * result A) : M A :=
  fun s => let '(w, r) := op (world s) in (r, set_world w s).

(** [for x in xs: body], the loop's local variables passed along. *)
Fixpoint for_each {X L} (xs : list X) (body : X -> L -> M L) (locals : L) : M L :=
  match xs with
  | [] => ret locals
  | x :: rest => bind (body x locals) (for_each rest body)
  end.

(** [enumerate(xs, start)] *)
Fixpoint enumerate {X} (xs : list X) (start : Z) : list (Z * X) :=
  match xs with
  | [] => []
  | x :: rest => (start, x) :: enumerate rest (start + 1)
  end.

(** The turns of a loop taken one after the other: [body x] for each [x]
    of [xs] in the order of the list, every turn starting from the locals
    and the state the turn before left, and every turn returning. *)
Inductive in_turn {X L} (body : X -> L -> M L)
  : list X -> L -> App World -> L -> App World -> Prop :=
| in_turn_nil l s : in_turn body [] l s l s
| in_turn_cons x xs l s l1 s1 l2 s2 :
    body x l s = (Ok l1, s1) ->
    in_turn body xs l1 s1 l2 s2 ->
    in_turn body (x :: xs) l s l2 s2.

(** [print(..)] *)
Definition print (l : line) : M unit := modify (fun s => set_stdout (stdout s ++ [l]) s).

(** [root.after(0, cb)] *)
Definition root_after (cb : callback) : M unit :=
  modify (fun s => set_after_queue (after_queue s ++ [cb]) s).

(** [messagebox.showerror(title, message)] *)
Definition messagebox_showerror (title message : string) : M unit :=
  modify (fun s => set_dialogs (dialogs s ++ [showerror title message]) s).

(** [ThreadPoolExecutor(max_workers=n)] with [tasks] submitted in order. *)
Definition ThreadPoolExecutor_submit (n : Z) (tasks : list task) : M unit :=
  modify (fun s =>
            set_executors
              (executors s ++ [{| max_workers := n; submitted := tasks |}]) s).

(** What a callback does when the event loop runs it. *)
Definition run_callback (cb : callback) (s : App World) : App World :=
  match cb with
  | progress_var_set val => set_progress_var val s
  | elapsed_total_set => set_elapsed_total LastRunElapsed s
  | set_busy_cb b => set_busy b s
  | messagebox d => set_dialogs (dialogs s ++ [d]) s
  end.

(** [root.mainloop()] running the callbacks that are due, oldest first. *)
Definition mainloop (s : App World) : App World :=
  fold_left (fun s cb => run_callback cb s) (after_queue s) (set_after_queue [] s).

(** The values the due callbacks write to [progress_var], in order. *)
Definition progress_writes (cbs : list callback) : list Z :=
  flat_map (fun cb => match cb with progress_var_set val => [val] | _ => [] end) cbs.

(** The tasks of the thread pools created between two states. *)
Definition submitted_since (s0 s1 : App World) : list task :=
  flat_map submitted (skipn (length (executors s0)) (executors s1)).

End Monad.

Arguments M World A : clear implicits.

Notation "'let*' x ':=' m 'in' k" := (bind m (fun x => k))
  (at level 10, x name, m at level 100, k at level 200).
Notation "'let*' ' p ':=' m 'in' k" := (bind m (fun x => match x with p => k end))
  (at level 10, p pattern, m at level 100, k at level 200).
Notation "m ';;;' k" := (bind m (fun _ => k))
  (at level 100, k at level 200, right associativity).

(** [start, start + 1, ..], [n] numbers in all. *)
Fixpoint upto (start : Z) (n : nat) : list Z :=
  match n with
  | O => []
  | S m => start :: upto (start + 1) m
  end.

(** The message boxes the due callbacks open, in order. *)
Definition boxes (cbs : list callback) : list dialog :=
  flat_map (fun cb => match cb with messagebox d => [d] | _ => [] end) cbs.

(** Python truthiness of a sequence. *)
Definition truthy {A} (xs : list A) : bool :=
  match xs with [] => false | _ => true end.

(** [str(e)] *)
Definition exn_str (e : exn) : str :=
  match e with
  | ValueError msg | OSError msg | TypeError msg | IndexError msg
  | NameError msg => lit msg
  end.

(** Results of [job(src)] / [_dz_convert_one] in v7: status, source and
    info (the elapsed time is left out). *)
Definition outcome : Type := string * str * str.

(** ** The program, revision 7 ([converter_v7.py]) *)

Module V7.
Section Program.
Context {World : Type} `{OsPath} `{Os} `{Unicode} `{Image.Convert} `{Platform World}.
Import Image.
Local Abbreviation M := (M World).

(** [_ensure_rgb(img)] *)
Definition _ensure_rgb (img : Image) : result Image :=
  if (mode img =? "RGBA")%string || (mode img =? "LA")%string then
    bg <- new "RGB" (size img) [255; 255; 255]%Z ;;
    mask <- subscript_last (split img) ;;
    bg <- paste bg img mask ;;
    Ok bg
  else if (mode img =? "P")%string then convert img "RGB"
  else if negb (mode img =? "RGB")%string then convert img "RGB"
  else Ok img.

(** [_set_busy(busy)] *)
Definition _set_busy (b : bool) : M unit := modify (set_busy b).

(** [_auto_workers(files, out_dir)] *)
Definition _auto_workers (files : list str) (out_dir : str) : M Z :=
  if negb (truthy files) then ret 1%Z
  else
    let w :=
      if any_unc files out_dir then 1%Z
      else
        let w := Z.max 1 (cores / 2) in
        Z.min w (len files) in
    print (AutoWorkersLine w (any_unc files out_dir) os_cpu_count) ;;;
    ret w.

(** [os.path.exists(src)] *)
Definition exists_ (src : str) : M bool :=
  gets (fun s => os_path_exists src (world s)).

(** [progress_max.set(v)]; the trace [_sync_prog_max] copies the value to
    the progress bar. *)
Definition progress_max_set (v : Z) : M unit :=
  modify (fun s => set_prog_maximum v (set_progress_max v s)).

Definition jpeg_options : SaveOptions :=
  {| quality := 95; optimize := true; progressive := true; subsampling := 0 |}.

(** One turn of the loop of [save_jpeg.worker], for the pair [(i, src)] of
    [enumerate(input_files, 1)] and the locals [(converted, errors)]. *)
Definition worker_turn (i_src : Z * str) (locals : Z * Z) : M (Z * Z) :=
  let '(i, src) := i_src in
  let '(converted, errors) := locals in
  let* locals :=
    try_except
      (let* found := exists_ src in
       if negb found then
         print (JpegSkipped src) ;;;
         ret (converted, errors + 1)%Z
       else
         let* out_dir := gets (@output_dir World) in
         let out_path := os_path_join out_dir (safe src ++ lit ".jpg") in
         print (JpegDebugSaving out_path) ;;;
         let* im := syscall (Image_open src) in
         let* im := lift (_ensure_rgb im) in
         syscall (Image_save im out_path jpeg_options) ;;;
         print (JpegSaved out_path) ;;;
         ret (converted + 1, errors)%Z)
      (fun e =>
         print (JpegError src e) ;;;
         ret (converted, errors + 1)%Z) in
  root_after (progress_var_set i) ;;;
  ret locals.

(** [save_jpeg.worker] *)
Definition worker : M unit :=
  let* files := gets (@input_files World) in
  let* '(converted, errors) := for_each (enumerate files 1) worker_turn (0, 0)%Z in
  print (JpegDone converted errors) ;;;
  modify (set_status_jpeg (SavedJpegs converted)) ;;;
  root_after elapsed_total_set ;;;
  root_after (set_busy_cb false) ;;;
  root_after (messagebox (showinfo_jpeg converted errors)).

(** [save_jpeg()] *)
Definition save_jpeg : M unit :=
  let* files := gets (@input_files World) in
  let* out_dir := gets (@output_dir World) in
  if negb (truthy files) || negb (truthy out_dir) then
    messagebox_showerror "Missing input"
      "Select input image(s) and an output folder first."
  else
    syscall (os_makedirs out_dir) ;;;
    let total := len files in
    progress_max_set total ;;;
    modify (set_progress_var 0) ;;;
    modify (set_elapsed_total Blank) ;;;
    _set_busy true ;;;
    ThreadPoolExecutor_submit 1 [jpeg_worker].

Definition DZ_TILE_SIZE : Z := 256.
Definition DZ_OVERLAP : Z := 1.
Definition DZ_IMAGE_QUALITY : Z * Z := (9, 10)%Z.
Definition DZ_FILTER : string := "LANCZOS".

(** [_dz_make_creator()] *)
Definition _dz_make_creator : ImageCreator :=
  {| tile_size := DZ_TILE_SIZE; tile_overlap := DZ_OVERLAP; tile_format := "jpg";
     image_quality := DZ_IMAGE_QUALITY; resize_filter := DZ_FILTER |}.

(** [_dz_convert_one(src, outdir, creator)] *)
Definition _dz_convert_one (src outdir : str) (creator : ImageCreator) : M outcome :=
  let* found := exists_ src in
  if negb found then ret ("skip"%string, src, lit "not found")
  else
    let base := _basename_no_ext src in
    let dzi_path := os_path_join outdir (base ++ lit ".dzi") in
    let* src_uri := lift (path_to_file_uri src) in
    syscall (ImageCreator_create creator src_uri dzi_path) ;;;
    ret ("ok"%string, src, dzi_path).

(** [job(src)] inside [run_parallel] *)
Definition job (src : str) : M outcome :=
  try_except
    (let creator := _dz_make_creator in
     let* out_dir := gets (@output_dir World) in
     _dz_convert_one src out_dir creator)
    (fun e => ret ("err"%string, src, exn_str e)).

(** The body of [for fut in as_completed(futures)], for the future of
    [job(src)] and the locals [(created, skipped, errors, done_count)].
    The job is taken to run where its future completes. *)
Definition completed_turn (src : str) (locals : Z * Z * Z * Z) : M (Z * Z * Z * Z) :=
  let '(created, skipped, errors, done_count) := locals in
  let* '(status, src, info) := job src in
  let done_count := (done_count + 1)%Z in
  let* '(created, skipped, errors) :=
    (if (status =? "ok")%string then
       print (DzCreated info) ;;; ret (created + 1, skipped, errors)%Z
     else if (status =? "skip")%string then
       print (DzSkipped src) ;;; ret (created, skipped + 1, errors)%Z
     else
       print (DzError src info) ;;; ret (created, skipped, errors + 1)%Z) in
  root_after (progress_var_set done_count) ;;;
  ret (created, skipped, errors, done_count).

(** [create_deepzoom.run_parallel], with [workers] captured from the
    enclosing call.  [completion] is the order in which the futures
    complete: some arrangement of the submitted files. *)
Definition run_parallel (workers : Z) (completion : list str) : M unit :=
  print DzSettings ;;;
  print (DzWorkers workers) ;;;
  let* files := gets (@input_files World) in
  ThreadPoolExecutor_submit workers (map dz_job files) ;;;
  let* '(created, skipped, errors, _) :=
    for_each completion completed_turn (0, 0, 0, 0)%Z in
  print (DzDone created skipped errors) ;;;
  modify (set_status_dz (CreatedDzis created)) ;;;
  root_after elapsed_total_set ;;;
  root_after (set_busy_cb false) ;;;
  root_after (messagebox (showinfo_deepzoom created skipped errors)).

(** [create_deepzoom()] *)
Definition create_deepzoom : M unit :=
  if negb HAS_DEEPZOOM then
    messagebox_showerror "DeepZoom not available"
      "Install 'deepzoom' to enable DeepZoom conversion."
  else
    let* files := gets (@input_files World) in
    let* out_dir := gets (@output_dir World) in
    if negb (truthy files) || negb (truthy out_dir) then
      messagebox_showerror "Missing input"
        "Select input image(s) and an output folder first."
    else
      syscall (os_makedirs out_dir) ;;;
      let total := len files in
      progress_max_set total ;;;
      modify (set_progress_var 0) ;;;
      modify (set_elapsed_total Blank) ;;;
      _set_busy true ;;;
      let* workers := _auto_workers files out_dir in
      ThreadPoolExecutor_submit 1 [dz_run_parallel workers].

(** Running a submitted task. *)
Definition run_task (completion : list str) (t : task) : M unit :=
  match t with
  | jpeg_worker => worker
  | dz_run_parallel workers => run_parallel workers completion
  | dz_job _ | dz_worker => ret tt
  end.

(** A button press and all that follows from it, up to the event loop: the
    handler on the main thread, then the tasks it submitted. *)
Definition press (handler : M unit) (completion : list str) : M unit :=
  let* s0 := gets (fun s => s) in
  handler ;;;
  let* s1 := gets (fun s => s) in
  for_each (submitted_since s0 s1) (fun t _ => run_task completion t) tt.

End Program.
End V7.

(** ** The program, revision 8 ([converter_v8.py]) *)

Module V8.
Section Program.
Context {World : Type} `{OsPath} `{Os} `{Unicode} `{Image.Convert} `{Platform World}.
Import Image.
Local Abbreviation M := (M World).

(** [_ensure_rgb(img)] *)
Definition _ensure_rgb (img : Image) : result Image :=
  if (mode img =? "RGBA")%string || (mode img =? "LA")%string then
    bg <- new "RGB" (size img) [255; 255; 255]%Z ;;
    mask <- subscript_last (split img) ;;
    bg <- paste bg img mask ;;
    Ok bg
  else if (mode img =? "P")%string || negb (mode img =? "RGB")%string
  then convert img "RGB"
  else Ok img.

(** [_auto_workers(files, out_dir)] *)
Definition _auto_workers (files : list str) (out_dir : str) : Z :=
  if negb (truthy files) then 1%Z
  else if any_unc files out_dir then 1%Z
  else Z.max 1 (Z.min (len files) (cores / 2)).

(** [os.path.exists(src)] *)
Definition exists_ (src : str) : M bool :=
  gets (fun s => os_path_exists src (world s)).

Definition jpeg_options : SaveOptions :=
  {| quality := 95; optimize := true; progressive := true; subsampling := 0 |}.

(** One turn of the loop of [save_jpeg.worker].  The boolean tells whether
    the turn ran to its end ([true]) or left through [continue]. *)
Definition worker_turn (i_src : Z * str) (locals : Z * Z) : M (Z * Z) :=
  let '(i, src) := i_src in
  let '(converted, errors) := locals in
  let* '(locals, to_end) :=
    try_except
      (let* found := exists_ src in
       if negb found then
         print (JpegSkipped src) ;;;
         ret ((converted, errors + 1)%Z, false)
       else
         let* out_dir := gets (@output_dir World) in
         let out_path := os_path_join out_dir (safe src ++ lit ".jpg") in
         let* im := syscall (Image_open src) in
         let* im := lift (_ensure_rgb im) in
         syscall (Image_save im out_path jpeg_options) ;;;
         print (JpegSaved out_path) ;;;
         ret ((converted + 1, errors)%Z, true))
      (fun e =>
         print (JpegError src e) ;;;
         ret ((converted, errors + 1)%Z, true)) in
  if to_end then root_after (progress_var_set i) ;;; ret locals
  else ret locals.

(** [save_jpeg.worker] *)
Definition worker : M unit :=
  let* files := gets (@input_files World) in
  let* '(converted, errors) := for_each (enumerate files 1) worker_turn (0, 0)%Z in
  print (JpegDone converted errors) ;;;
  let* transcript := gets (@stdout World) in
  syscall (write_log transcript) ;;;
  root_after (messagebox (showinfo_jpeg converted errors)).

(** [save_jpeg()] *)
Definition save_jpeg : M unit :=
  let* files := gets (@input_files World) in
  let* out_dir := gets (@output_dir World) in
  if negb (truthy files) || negb (truthy out_dir) then
    messagebox_showerror "Missing input" "Select image(s) and output folder first."
  else
    syscall (os_makedirs out_dir) ;;;
    modify (set_progress_max (len files)) ;;;
    modify (set_progress_var 0) ;;;
    modify (set_prog_maximum (len files)) ;;;
    modify (set_elapsed_total Blank) ;;;
    ThreadPoolExecutor_submit 1 [jpeg_worker].

Definition DZ_TILE_SIZE : Z := 256.
Definition DZ_OVERLAP : Z := 1.
Definition DZ_IMAGE_QUALITY : Z * Z := (9, 10)%Z.
Definition DZ_FILTER : string := "LANCZOS".

(** [_dz_make_creator()] *)
Definition _dz_make_creator : ImageCreator :=
  {| tile_size := DZ_TILE_SIZE; tile_overlap := DZ_OVERLAP; tile_format := "jpg";
     image_quality := DZ_IMAGE_QUALITY; resize_filter := DZ_FILTER |}.

(** [_dz_convert_one(src, outdir, creator)]; of the pair it returns only
    the source is kept. *)
Definition _dz_convert_one (src outdir : str) (creator : ImageCreator) : M str :=
  let base := _basename_no_ext src in
  let* src_uri := lift (path_to_file_uri src) in
  let dzi_path := os_path_join outdir (base ++ lit ".dzi") in
  syscall (ImageCreator_create creator src_uri dzi_path) ;;;
  ret src.

(** One turn of the loop of [create_deepzoom.worker], with the local
    [success]. *)
Definition dz_worker_turn (creator : ImageCreator) (i_src : Z * str) (success : Z)
  : M Z :=
  let '(i, src) := i_src in
  let* success :=
    try_except
      (let* out_dir := gets (@output_dir World) in
       _dz_convert_one src out_dir creator ;;;
       print (DzCreated (_basename_no_ext src ++ lit ".dzi")) ;;;
       ret (success + 1)%Z)
      (fun e =>
         print (DzError src (exn_str e)) ;;;
         ret success) in
  root_after (progress_var_set i) ;;;
  ret success.

(** [create_deepzoom.worker] *)
Definition create_deepzoom_worker : M unit :=
  let creator := _dz_make_creator in
  let* files := gets (@input_files World) in
  let* success := for_each (enumerate files 1) (dz_worker_turn creator) 0%Z in
  print (DziDone success) ;;;
  let* transcript := gets (@stdout World) in
  syscall (write_log transcript) ;;;
  root_after (messagebox (showinfo_dzi success)).

(** [create_deepzoom()] *)
Definition create_deepzoom : M unit :=
  if negb HAS_DEEPZOOM then
    messagebox_showerror "Missing" "Install 'deepzoom' package"
  else
    let* files := gets (@input_files World) in
    let* out_dir := gets (@output_dir World) in
    if negb (truthy files) || negb (truthy out_dir) then
      messagebox_showerror "Missing input" "Select files and output folder."
    else
      syscall (os_makedirs out_dir) ;;;
      modify (set_progress_max (len files)) ;;;
      modify (set_progress_var 0) ;;;
      modify (set_prog_maximum (len files)) ;;;
      ThreadPoolExecutor_submit 1 [dz_worker].

(** Running a submitted task. *)
Definition run_task (t : task) : M unit :=
  match t with
  | jpeg_worker => worker
  | dz_worker => create_deepzoom_worker
  | dz_run_parallel _ | dz_job _ => ret tt
  end.

(** A button press and all that follows from it, up to the event loop: the
    handler on the main thread, then the tasks it submitted. *)
Definition press (handler : M unit) : M unit :=
  let* s0 := gets (fun s => s) in
  handler ;;;
  let* s1 := gets (fun s => s) in
  for_each (submitted_since s0 s1) (fun t _ => run_task t) tt.

End Program.
End V8.

(** ** The two files as scripts

    Each file is run from its first line to [root.mainloop()] at its end;
    the buttons can be pressed once that is reached.  Of a statement at
    module level the model keeps the global names it looks up and the ones
    it binds.  Statements of the layout that only look up names bound well
    before them (labels, entries, grid calls, the banner) are left out. *)

Module Script.

(** When the annotations of a [def] are evaluated: as the [def] statement
    runs (Python up to 3.13; neither file has
    [from __future__ import annotations]), or only when asked for (Python
    3.14). *)
Inductive annotation_time : Type := AtDefinition | OnRequest.

Inductive stmt : Type :=
| simple (reads binds : list string)
    (* an import, an assignment, a class or a call: looks up the global
       names [reads], then binds [binds] *)
| try_import_deepzoom
    (* [try: from deepzoom import ImageCreator; HAS_DEEPZOOM = True]
       [except Exception: HAS_DEEPZOOM = False] *)
| def (name : string) (annotations : list string).
    (* [def name(.., p: A, ..) -> R: ..]; [annotations] lists the names the
       annotations look up *)

(** The names bound so far, builtins included. *)
Definition namespace : Type := list string.

(** The builtins the two files name at module level. *)
Definition builtins : namespace := ["str"; "bool"; "int"]%string.

Definition bound (x : string) (g : namespace) : bool := existsb (String.eqb x) g.

(** Looking up the names [xs], in order. *)
Fixpoint look_up (xs : list string) (g : namespace) : result unit :=
  match xs with
  | [] => Ok tt
  | x :: rest =>
      if bound x g then look_up rest g
      else Raise (NameError ("name '" ++ x ++ "' is not defined"))
  end.

(** One statement; [installed] tells whether the [deepzoom] package can
    be imported. *)
Definition exec (t : annotation_time) (installed : bool) (st : stmt)
  (g : namespace) : result namespace :=
  match st with
  | simple reads binds => _ <- look_up reads g ;; Ok (binds ++ g)
  | try_import_deepzoom =>
      if installed then Ok ("HAS_DEEPZOOM" :: "ImageCreator" :: g)%string
      else Ok ("HAS_DEEPZOOM"%string :: g)
  | def name annotations =>
      match t with
      | AtDefinition => _ <- look_up annotations g ;; Ok (name :: g)
      | OnRequest => Ok (name :: g)
      end
  end.

(** The statements in order, up to the first that raises: the names bound
    by then, and how the run ended. *)
Fixpoint load_from (t : annotation_time) (installed : bool) (prog : list stmt)
  (g : namespace) : namespace * result unit :=
  match prog with
  | [] => (g, Ok tt)
  | st :: rest =>
      match exec t installed st g with
      | Ok g' => load_from t installed rest g'
      | Raise e => (g, Raise e)
      end
  end.

Definition load (t : annotation_time) (installed : bool) (prog : list stmt)
  : namespace * result unit :=
  load_from t installed prog builtins.

(** [converter_v7.py] *)
Definition converter_v7 : list stmt :=
  [ simple [] ["os"; "sys"; "time"; "tk"; "filedialog"; "messagebox";
               "scrolledtext"; "ttk"; "Path"; "quote"; "ThreadPoolExecutor";
               "as_completed"; "Image"];
    simple ["Image"] [];                       (* Image.MAX_IMAGE_PIXELS = .. *)
    try_import_deepzoom;
    simple ["tk"] ["root"];
    simple ["tk"] ["input_files"; "input_summary"; "output_dir"; "status_jpeg";
                   "status_dz"; "elapsed_total"; "progress_var"; "progress_max"];
    simple [] ["ConsoleRedirect"];
    def "path_to_file_uri" ["str"; "str"];
    def "_basename_no_ext" [];
    def "_summarize_file_selection" [];
    def "_ensure_rgb" ["Image"; "Image"];
    def "_set_busy" ["bool"];
    def "_is_unc" ["str"; "bool"];
    def "_auto_workers" ["int"];
    def "choose_input" [];
    def "choose_output" [];
    def "save_jpeg" [];
    simple ["Image"] ["DZ_TILE_SIZE"; "DZ_OVERLAP"; "DZ_IMAGE_QUALITY"; "DZ_FILTER"];
    def "_dz_make_creator" [];
    def "_dz_convert_one" ["ImageCreator"];
    def "create_deepzoom" [];
    simple ["tk"; "root"; "choose_input"] ["btn_in"];
    simple ["tk"; "root"; "choose_output"] ["btn_out"];
    simple ["tk"; "root"; "save_jpeg"] ["btn_jpeg"];
    simple ["tk"; "root"; "create_deepzoom"] ["btn_dz"];
    simple ["ttk"; "root"; "progress_max"; "progress_var"] ["prog"];
    def "_sync_prog_max" [];
    simple ["progress_max"; "_sync_prog_max"] [];
    simple ["scrolledtext"; "root"] ["console_box"];
    simple ["sys"; "ConsoleRedirect"; "console_box"] [];
    simple ["root"] []                                  (* root.mainloop() *)
  ]%string.

(** [converter_v8.py] *)
Definition converter_v8 : list stmt :=
  [ simple [] ["os"; "sys"; "time"; "tk"; "filedialog"; "messagebox";
               "scrolledtext"; "ttk"; "Path"; "quote"; "ThreadPoolExecutor";
               "as_completed"; "Image"; "datetime"; "io"];
    simple ["Image"] [];
    try_import_deepzoom;
    simple ["tk"] ["root"];
    simple ["tk"] ["input_files"; "input_summary"; "output_dir"; "status_jpeg";
                   "status_dz"; "elapsed_total"; "progress_var"; "progress_max"];
    simple ["io"] ["log_file_stream"];
    def "get_log_file_path" [];
    simple [] ["ConsoleRedirect"];
    def "path_to_file_uri" ["str"; "str"];
    def "_basename_no_ext" [];
    def "_ensure_rgb" ["Image"; "Image"];
    def "_is_unc" ["str"; "bool"];
    def "_auto_workers" [];
    def "choose_input" [];
    def "choose_output" [];
    def "save_jpeg" [];
    simple ["Image"] ["DZ_TILE_SIZE"; "DZ_OVERLAP"; "DZ_IMAGE_QUALITY"; "DZ_FILTER"];
    def "_dz_make_creator" [];
    def "_dz_convert_one" ["ImageCreator"];
    def "create_deepzoom" [];
    simple ["tk"; "root"; "choose_input"] [];
    simple ["tk"; "root"; "choose_output"] [];
    simple ["tk"; "root"; "save_jpeg"] [];
    simple ["tk"; "root"; "create_deepzoom"] [];
    simple ["ttk"; "root"; "progress_var"] ["prog"];
    simple ["scrolledtext"; "root"] ["console"];
    simple ["sys"; "ConsoleRedirect"; "console"] [];
    simple ["ConsoleRedirect"; "console"] ["redir"];
    simple ["sys"; "redir"] [];
    simple ["root"] []                                  (* root.mainloop() *)
  ]%string.

End Script.

(** The program from its start: the script is loaded on a host where the
    import of [deepzoom] went as [HAS_DEEPZOOM] says, and once the window
    is up the user does [session]. *)
Definition start {World} `{Platform World} (t : Script.annotation_time)
  (prog : list Script.stmt) (session : M World unit) : M World unit :=
  fun s =>
    match snd (Script.load t HAS_DEEPZOOM prog) with
    | Ok _ => session s
    | Raise e => (Raise e, s)
    end.

(** ** A sample host

    A small concrete world to run the program on: a disk on which some
    paths exist and some of those hold data that cannot be decoded, an
    absolute-path resolver in the Windows style, and stand-ins for the
    imaging libraries. *)

Module Sample.

Record Disk : Type := {
  present : list str;      (* the paths that exist *)
  corrupt : list str;      (* of those, the files no decoder accepts *)
  written : list str       (* what the run has written, newest first *)
}.

Definition mem (p : str) (ps : list str) : bool := existsb (str_eqb p) ps.

(** A 2 x 1 [RGBA] picture: a fully transparent red pixel, then an opaque
    blue one. *)
Definition picture : Image.Image :=
  {| Image.mode := "RGBA"; Image.size := (2, 1)%Z;
     Image.getpixel := fun x _ =>
       if (x =? 0)%Z then [200; 10; 10; 0]%Z else [0; 0; 255; 255]%Z;
     Image.palette := [] |}.

Definition unicode : Unicode := {| ucd_alnum := fun _ => false |}.

(** Paths that name a share or a drive are taken as absolute, others are
    put under [C:\work]; a path with a NUL character is refused. *)
Definition os (cpu : option Z) : Os :=
  {| os_path_join := fun a b => a ++ lit "\" ++ b;
     os_path_abspath := fun p =>
       if char_in 0%N p then Raise (ValueError "embedded null character in path")
       else if startswith p (lit "\\") || str_eqb (slice p 1 2) (lit ":") then Ok p
       else Ok (lit "C:\work\" ++ p);
     os_cpu_count := cpu;
     quote := fun p => p;
     Path_as_uri := fun p => Ok (lit "file:///" ++ replace p 92%N 47%N) |}.

Definition pillow : Image.Convert :=
  {| Image.convert := fun im m =>
       Ok {| Image.mode := m; Image.size := Image.size im;
             Image.getpixel := fun x y => Image.rgb_bytes (Image.mode im) (Image.getpixel im x y);
             Image.palette := [] |} |}.

Definition platform (has_deepzoom : bool) : Platform Disk :=
  {| os_path_exists := fun p w => mem p (present w);
     os_makedirs := fun _ w => (w, Ok tt);
     Image_open := fun p w =>
       if mem p (corrupt w) then (w, Raise (OSError "cannot identify image file"))
       else (w, Ok picture);
     Image_save := fun _ p _ w =>
       ({| present := present w; corrupt := corrupt w; written := p :: written w |}, Ok tt);
     HAS_DEEPZOOM := has_deepzoom;
     ImageCreator_create := fun _ uri p w =>
       if mem (lit "C:\scans\bad.tif") (corrupt w) && str_eqb uri (lit "file:///C:/scans/bad.tif")
       then (w, Raise (OSError "cannot identify image file"))
       else ({| present := present w; corrupt := corrupt w; written := p :: written w |}, Ok tt);
     write_log := fun _ w => (w, Ok tt) |}.

(** Three files are selected; [missing.tif] is not on the disk and
    [bad.tif] cannot be decoded. *)
Definition files : list str :=
  [lit "C:\scans\a.tif"; lit "C:\scans\missing.tif"; lit "C:\scans\bad.tif"].

Definition disk : Disk :=
  {| present := [lit "C:\scans\a.tif"; lit "C:\scans\bad.tif"];
     corrupt := [lit "C:\scans\bad.tif"];
     written := [] |}.

(** The program as it is after start-up, with a selection made. *)
Definition app (input : list str) (out : str) : App Disk :=
  {| world := disk; input_files := input; output_dir := out;
     progress_var := 0; progress_max := 100; prog_maximum := 100;
     elapsed_total := Blank; status_jpeg := Blank; status_dz := Blank;
     busy := false; stdout := []; dialogs := []; after_queue := [];
     executors := [] |}.

End Sample.

(** ** The name sanitiser, as the specification words it *)

(** Strip trailing characters of [chars], by recursion from the right end. *)
Fixpoint strip_trailing (chars s : str) : str :=
  match s with
  | [] => []
  | c :: t =>
      match strip_trailing chars t with
      | [] => if char_in c chars then [] else [c]
      | r => c :: r
      end
  end.

(** The characters the sanitiser keeps: alphanumeric, ['.'], ['_'], ['-']
    and the space. *)
Definition kept `{Unicode} (c : char) : bool :=
  isalnum c || chr_eqb c 46%N || chr_eqb c 95%N || chr_eqb c 45%N || chr_eqb c 32%N.

(** Does the string hold none of the characters [seps]? *)
Definition free_of (seps s : str) : bool :=
  forallb (fun c => negb (char_in c seps)) s.

(** What follows the last separator of a path; the path itself when it
    holds none. *)
Fixpoint after_last_separator (seps path : str) : str :=
  match path with
  | [] => []
  | c :: t =>
      if negb (free_of seps t) then after_last_separator seps t
      else if char_in c seps then t
      else path
  end.

(** The two ways of writing a path the program can meet, and the flavour
    of [os.path] the interpreter loads for each. *)
Inductive flavour : Type := Posix | Windows.

Definition os_path_of (f : flavour) : OsPath :=
  match f with
  | Posix => posixpath.os_path
  | Windows => ntpath.os_path
  end.

(** The file name of a path: what follows its last separator, the slash
    on a Posix system, the backslash or the slash on Windows.  On Windows
    the drive or share a path starts with ([C:], [\\server\share]) is no
    part of a file name; [ntpath.splitroot] tells where it ends. *)
Definition filename (f : flavour) (path : str) : str :=
  match f with
  | Posix => after_last_separator (lit "/") path
  | Windows =>
      let '(_, _, rest) := ntpath.splitroot path in
      after_last_separator ntpath.seps rest
  end.

(** Does the path start with two separators, as the Windows paths of
    network shares and devices do? *)
Definition network_path (p : str) : bool :=
  match p with
  | a :: b :: _ => char_in a ntpath.seps && char_in b ntpath.seps
  | _ => false
  end.

(** What stands before the last period of a name, if it has one. *)
Fixpoint before_last_period (name : str) : option str :=
  match name with
  | [] => None
  | c :: t =>
      match before_last_period t with
      | Some front => Some (c :: front)
      | None => if chr_eqb c 46%N then Some [] else None
      end
  end.

(** A file name without its extension.  The extension starts at the last
    period of the name; a name whose last period has nothing but periods
    before it ([.profile], [..]) has no extension. *)
Definition without_extension (name : str) : str :=
  match before_last_period name with
  | Some front =>
      if existsb (fun c => negb (chr_eqb c 46%N)) front then front else name
  | None => name
  end.

(** The second and third of the written steps: trailing periods and
    spaces stripped, every character that is not kept replaced by ['_']. *)
Definition tidy `{Unicode} (name : str) : str :=
  map (fun c => if kept c then c else 95%N) (strip_trailing [46; 32]%N name).

(** Modelled on the written steps: the file name without its extension,
    trailing periods and spaces stripped, every character that is not kept
    replaced by ['_']. *)
Definition sanitize (f : flavour) `{Unicode} (path : str) : str :=
  tidy (without_extension (filename f path)).

(** A character allowed in no output: a path separator or a control
    character. *)
Definition forbidden (c : char) : bool :=
  chr_eqb c 47%N || chr_eqb c 92%N || is_control c.

(** ** The format normaliser, as the specification words it *)

Module Normaliser.
Import Image.

(** The modes the normaliser treats as having an alpha channel. *)
Definition has_alpha (m : string) : bool :=
  (m =? "RGBA")%string || (m =? "LA")%string.

(** The alpha value of a pixel: its last band. *)
Definition alpha (m : string) (px : list Z) : Z :=
  if (m =? "LA")%string then band 1 px else band 3 px.

(** A pixel laid over white, its alpha value the blend mask. *)
Definition over_white (m : string) (px : list Z) : list Z :=
  map (BLEND (alpha m px) 255) (rgb_bytes m px).

(** The policy table: [r] is what the normaliser is to return for [img]. *)
Definition normalised `{Convert} (img : Image) (r : result Image) : Prop :=
  if has_alpha (mode img) then
    exists bg,
      r = Ok bg /\ mode bg = "RGB"%string /\ size bg = size img /\
      forall x y, inside (size img) x y = true ->
                  getpixel bg x y = over_white (mode img) (getpixel img x y)
  else if (mode img =? "P")%string then r = convert img "RGB"
  else if negb (mode img =? "RGB")%string then r = convert img "RGB"
  else r = Ok img.

End Normaliser.

(* ===================================================================== *)
(** * Properties *)

(** ** The name sanitiser *)

Lemma lstrip_snoc chars l c :
  lstrip chars (l ++ [c]) =
  match lstrip chars l with
  | [] => if char_in c chars then [] else [c]
  | r => r ++ [c]
  end.
Proof.
  induction l as [|x l IH]; simpl.
  - reflexivity.
  - destruct (char_in x chars); [exact IH | reflexivity].
Qed.

Lemma rstrip_strip_trailing chars s : rstrip chars s = strip_trailing chars s.
Proof.
  unfold rstrip. induction s as [|c t IH]; simpl; [reflexivity|].
  rewrite lstrip_snoc, <- IH.
  destruct (lstrip chars (rev t)) as [|y r] eqn:E; simpl.
  - destruct (char_in c chars); reflexivity.
  - rewrite rev_app_distr. simpl.
    destruct (rev r ++ [y]) eqn:E'; [destruct (rev r); discriminate | reflexivity].
Qed.

Lemma strip_trailing_nil chars s :
  strip_trailing chars s = [] <-> forallb (fun c => char_in c chars) s = true.
Proof.
  induction s as [|c t IH]; simpl; [tauto|].
  destruct (strip_trailing chars t) as [|y r].
  - destruct (char_in c chars); simpl.
    + split; [intros _; apply IH; reflexivity | reflexivity].
    + split; discriminate.
  - split; [discriminate|]. rewrite andb_true_iff. intros [_ Ht].
    apply IH in Ht. discriminate.
Qed.

Lemma kept_char_in `{Unicode} c :
  isalnum c || char_in c (lit "._- ") = kept c.
Proof.
  unfold kept, char_in. simpl. rewrite orb_false_r, !orb_assoc. reflexivity.
Qed.

Lemma join_singletons (keep : char -> bool) (d : char) (l : str) :
  join_empty (map (fun c => if keep c then [c] else [d]) l) =
  map (fun c => if keep c then c else d) l.
Proof.
  unfold join_empty.
  induction l as [|c l IH]; simpl; [reflexivity|].
  rewrite IH. destruct (keep c); reflexivity.
Qed.

Lemma safe_tidy `{OsPath} `{Unicode} (src : str) :
  safe src = tidy (_basename_no_ext src).
Proof.
  unfold safe, tidy, base.
  change (lit ". ") with [46; 32]%N. change (lit "_") with [95%N].
  rewrite rstrip_strip_trailing, join_singletons.
  apply map_ext. intros c. rewrite kept_char_in. reflexivity.
Qed.

Lemma kept_not_forbidden `{Unicode} c : kept c = true -> forbidden c = false.
Proof.
  unfold kept, forbidden, is_control, chr_eqb. intros Hk.
  assert (Hc : (48 <= c <= 57 \/ 65 <= c <= 90 \/ 97 <= c <= 122 \/ 160 <= c
                \/ c = 46 \/ c = 95 \/ c = 45 \/ c = 32)%N).
  { rewrite !orb_true_iff in Hk. unfold isalnum, ascii_alnum in Hk.
    destruct Hk as [[[[Hk|Hk]|Hk]|Hk]|Hk]; try (apply N.eqb_eq in Hk; lia).
    destruct (N.ltb_spec c 160); [|lia].
    rewrite !orb_true_iff, !andb_true_iff, !N.leb_le in Hk. lia. }
  rewrite !orb_false_iff, andb_false_iff, N.ltb_ge, !N.eqb_neq, !N.leb_gt.
  lia.
Qed.

Lemma tidy_clean `{Unicode} (name : str) :
  existsb forbidden (tidy name) = false.
Proof.
  unfold tidy.
  induction (strip_trailing [46; 32]%N name) as [|c l IH];
    simpl; [reflexivity|].
  rewrite IH, orb_false_r.
  destruct (kept c) eqn:K; [apply kept_not_forbidden; exact K | reflexivity].
Qed.

Lemma tidy_nil_iff `{Unicode} (name : str) :
  tidy name = [] <->
  forallb (fun c => char_in c (lit ". ")) name = true.
Proof.
  unfold tidy. rewrite <- strip_trailing_nil.
  change (lit ". ") with [46; 32]%N.
  destruct (strip_trailing [46; 32]%N name); simpl;
    split; congruence.
Qed.

(** A name made of a space and an extension has a non-empty basename and
    an empty stem, under either flavour of [os.path] and whatever the
    Unicode tables say. *)
Lemma blank_name_posix (U : Unicode) :
  @safe posixpath.os_path U (lit "/scans/ .tif") = [].
Proof. reflexivity. Qed.

Lemma blank_name_nt (U : Unicode) :
  @os_path_basename ntpath.os_path (lit "C:\scans\ .tif") = lit " .tif" /\
  @safe ntpath.os_path U (lit "C:\scans\ .tif") = [].
Proof. split; reflexivity. Qed.

(** C8, as first stated, fails: the basename [" .tif"] is not empty, its
    stem is. *)
Lemma stem_empty_for_blank_name :
  @os_path_basename posixpath.os_path (lit "/scans/ .tif") = lit " .tif" /\
  @safe posixpath.os_path Sample.unicode (lit "/scans/ .tif") = [].
Proof. split; reflexivity. Qed.

(** C8, amended.  When the file name without its extension holds a
    character other than a period and a space, the stem is not empty; and
    the stem depends on the path alone. *)
Theorem stem_nonempty_when_name_has_content `{OsPath} `{Unicode} (src src' : str)
  (Hcontent :
     existsb (fun c => negb (char_in c (lit ". "))) (_basename_no_ext src) = true)
  (Hsame : src' = src) :
  safe src <> [] /\ safe src' = safe src.
Proof.
  split; [|subst; reflexivity].
  rewrite safe_tidy. intros E. apply tidy_nil_iff in E.
  apply existsb_exists in Hcontent. destruct Hcontent as (c & Hin & Hc).
  rewrite forallb_forall in E. rewrite (E c Hin) in Hc. discriminate.
Qed.

Lemma stem_nonempty_when_name_has_content_witness :
  @safe posixpath.os_path Sample.unicode (lit "/scans/cell 7.tif") <> [] /\
  @safe posixpath.os_path Sample.unicode (lit "/scans/cell 7.tif") =
  @safe posixpath.os_path Sample.unicode (lit "/scans/cell 7.tif").
Proof.
  apply (@stem_nonempty_when_name_has_content posixpath.os_path Sample.unicode
           (lit "/scans/cell 7.tif") (lit "/scans/cell 7.tif"));
    reflexivity.
Defined.

(** ** The path classifier *)

(** C9.  [_is_unc] returns for every string, and returns [False] whenever
    [os.path.abspath] raises. *)
Theorem is_unc_total `{Os} (p : str) :
  (exists b, _is_unc p = Ok b) /\
  (forall e, os_path_abspath p = Raise e -> _is_unc p = Ok false).
Proof.
  unfold _is_unc. destruct (os_path_abspath p) as [a|e'].
  - split; [eexists; reflexivity | discriminate].
  - split; [eexists; reflexivity | reflexivity].
Qed.

Lemma is_unc_total_witness :
  @os_path_abspath (Sample.os None) [99; 0; 100]%N
    = Raise (ValueError "embedded null character in path") /\
  @_is_unc (Sample.os None) [99; 0; 100]%N = Ok false.
Proof.
  split; [reflexivity|].
  exact (proj2 (@is_unc_total (Sample.os None) [99; 0; 100]%N) _ eq_refl).
Defined.

(** ** The worker-count selector *)

Lemma len_cons_pos {A} (x : A) (xs : list A) : (1 <= len (x :: xs))%Z.
Proof. unfold len. simpl length. lia. Qed.

(** The two revisions order [max] and [min] differently and agree. *)
Lemma auto_workers_v7_v8 {World} `{Os} (files : list str) (out_dir : str)
  (s : App World) :
  fst (V7._auto_workers files out_dir s) = Ok (V8._auto_workers files out_dir).
Proof.
  unfold V7._auto_workers, V8._auto_workers.
  destruct files as [|f files]; [reflexivity|].
  cbn [truthy negb]. unfold bind, print, modify, ret. cbn [fst].
  destruct (any_unc (f :: files) out_dir); [reflexivity|].
  f_equal. pose proof (len_cons_pos f files). lia.
Qed.

Lemma auto_workers_bounds `{Os} (files : list str) (out_dir : str) :
  (1 <= V8._auto_workers files out_dir)%Z /\
  (files <> [] -> V8._auto_workers files out_dir <= len files)%Z.
Proof.
  unfold V8._auto_workers.
  destruct files as [|f files]; cbn [truthy negb].
  - split; [lia | congruence].
  - pose proof (len_cons_pos f files).
    destruct (any_unc (f :: files) out_dir); split; intros; lia.
Qed.

(** C2.  With [c] logical cores reported, the selector returns 1 for an
    empty list, 1 when the output directory or an input file is a network
    path, and [max(1, min(len(files), c // 2))] otherwise; the result is at
    least 1 and, for a non-empty list, at most [len(files)].  Both
    revisions return the same value. *)
Theorem auto_workers_spec {World} `{Os} (files : list str) (out_dir : str)
  (s : App World) (c : Z) (Hcpu : os_cpu_count = Some c) (Hc : (0 < c)%Z) :
  let w := V8._auto_workers files out_dir in
  fst (V7._auto_workers files out_dir s) = Ok w /\
  (files = [] -> w = 1%Z) /\
  (any_unc files out_dir = true -> w = 1%Z) /\
  (files <> [] -> any_unc files out_dir = false ->
   w = Z.max 1 (Z.min (len files) (c / 2))) /\
  (1 <= w)%Z /\
  (files <> [] -> (w <= len files)%Z).
Proof.
  intros w. split; [apply auto_workers_v7_v8|].
  pose proof (auto_workers_bounds files out_dir) as [Hlo Hhi].
  repeat split; try assumption.
  - intros ->. reflexivity.
  - intros Hunc. subst w. unfold V8._auto_workers.
    destruct files; cbn [truthy negb]; [reflexivity | rewrite Hunc; reflexivity].
  - intros Hne Hloc. subst w. unfold V8._auto_workers, cores.
    destruct files; [congruence|]. cbn [truthy negb]. rewrite Hloc, Hcpu.
    destruct (Z.eqb_spec c 0); [lia | reflexivity].
Qed.

Lemma auto_workers_spec_witness :
  @V8._auto_workers (Sample.os (Some 8%Z)) Sample.files (lit "D:\out") = 3%Z /\
  fst (@V7._auto_workers Sample.Disk (Sample.os (Some 8%Z)) Sample.files
         (lit "D:\out") (Sample.app Sample.files (lit "D:\out"))) = Ok 3%Z /\
  @V8._auto_workers (Sample.os (Some 8%Z)) Sample.files (lit "\\nas\out") = 1%Z.
Proof.
  pose proof (@auto_workers_spec Sample.Disk (Sample.os (Some 8%Z)) Sample.files
                (lit "D:\out") (Sample.app Sample.files (lit "D:\out")) 8%Z
                eq_refl eq_refl) as (H7 & _ & _ & Hloc & _).
  pose proof (@auto_workers_spec Sample.Disk (Sample.os (Some 8%Z)) Sample.files
                (lit "\\nas\out") (Sample.app Sample.files (lit "\\nas\out")) 8%Z
                eq_refl eq_refl) as (_ & _ & Hunc & _).
  split; [|split].
  - rewrite Hloc; [reflexivity | discriminate | reflexivity].
  - rewrite H7, Hloc; [reflexivity | discriminate | reflexivity].
  - apply Hunc. reflexivity.
Defined.

(** C10.  When [os.cpu_count()] is [None] the selector works with 4 cores:
    for a non-empty list without network paths it returns
    [max(1, min(len(files), 2))], in both revisions. *)
Theorem auto_workers_without_cpu_count {World} `{Os} (files : list str)
  (out_dir : str) (s : App World)
  (Hcpu : os_cpu_count = None) (Hne : files <> [])
  (Hlocal : any_unc files out_dir = false) :
  cores = 4%Z /\
  V8._auto_workers files out_dir = Z.max 1 (Z.min (len files) 2) /\
  fst (V7._auto_workers files out_dir s) = Ok (Z.max 1 (Z.min (len files) 2)).
Proof.
  assert (Hcores : cores = 4%Z) by (unfold cores; rewrite Hcpu; reflexivity).
  assert (H8 : V8._auto_workers files out_dir = Z.max 1 (Z.min (len files) 2)).
  { unfold V8._auto_workers. destruct files; [congruence|].
    cbn [truthy negb]. rewrite Hlocal, Hcores. reflexivity. }
  split; [assumption|]. split; [assumption|].
  rewrite auto_workers_v7_v8, H8. reflexivity.
Qed.

Lemma auto_workers_without_cpu_count_witness :
  @cores (Sample.os None) = 4%Z /\
  @V8._auto_workers (Sample.os None) Sample.files (lit "D:\out") = 2%Z /\
  fst (@V7._auto_workers Sample.Disk (Sample.os None) Sample.files (lit "D:\out")
         (Sample.app Sample.files (lit "D:\out"))) = Ok 2%Z.
Proof.
  apply (@auto_workers_without_cpu_count Sample.Disk (Sample.os None) Sample.files
           (lit "D:\out") (Sample.app Sample.files (lit "D:\out")));
    [reflexivity | discriminate | reflexivity].
Defined.

(** ** The format normaliser *)

Section NormaliserFacts.
Import Image Normaliser.
Context `{Convert}.

Lemma size_eqb_refl (sz : Z * Z) : size_eqb sz sz = true.
Proof. unfold size_eqb. rewrite !Z.eqb_refl. reflexivity. Qed.

(** A fully transparent pixel comes out white. *)
Lemma over_white_transparent (m : string) (px : list Z) :
  alpha m px = 0%Z -> over_white m px = [255; 255; 255]%Z.
Proof.
  intros Ha. unfold over_white, rgb_bytes. rewrite Ha.
  assert (B : forall v, BLEND 0 255 v = 255%Z).
  { intros v. unfold BLEND. rewrite Z.mul_0_r. reflexivity. }
  destruct ((m =? "LA")%string || (m =? "La")%string); simpl; rewrite !B; reflexivity.
Qed.

(** What the alpha branch, common to both revisions, builds. *)
Lemma composite_alpha (img : Image)
  (Hw : (0 <= fst (size img))%Z) (Hh : (0 <= snd (size img))%Z)
  (Ha : has_alpha (mode img) = true) :
  exists bg,
    (bg0 <- new "RGB" (size img) [255; 255; 255]%Z ;;
     mask <- subscript_last (split img) ;;
     bg1 <- paste bg0 img mask ;;
     Ok bg1) = Ok bg /\
    mode bg = "RGB"%string /\ size bg = size img /\
    forall x y, inside (size img) x y = true ->
                getpixel bg x y = over_white (mode img) (getpixel img x y).
Proof.
  destruct img as [m sz gp pal]. cbn [mode size getpixel] in *.
  unfold new.
  replace ((fst sz <? 0)%Z || (snd sz <? 0)%Z) with false
    by (symmetry; apply orb_false_iff; split; apply Z.ltb_ge; assumption).
  unfold has_alpha in Ha. apply orb_true_iff in Ha.
  destruct Ha as [E|E]; apply String.eqb_eq in E; subst m;
    cbn -[size_eqb inside BLEND]; rewrite size_eqb_refl; cbn -[inside BLEND];
    (eexists; split; [reflexivity|]);
    cbn -[inside BLEND]; (split; [reflexivity|]); (split; [reflexivity|]);
    intros x y Hin; rewrite Hin; reflexivity.
Qed.

Lemma ensure_rgb_v7_normalised (img : Image)
  (Hw : (0 <= fst (size img))%Z) (Hh : (0 <= snd (size img))%Z) :
  normalised img (V7._ensure_rgb img).
Proof.
  unfold normalised, V7._ensure_rgb.
  fold (has_alpha (mode img)).
  destruct (has_alpha (mode img)) eqn:Ha.
  - destruct (composite_alpha img Hw Hh Ha) as (bg & E & Hm & Hs & Hpx).
    exists bg. rewrite E. auto.
  - destruct (mode img =? "P")%string; [reflexivity|].
    destruct (mode img =? "RGB")%string; reflexivity.
Qed.

Lemma ensure_rgb_v8_normalised (img : Image)
  (Hw : (0 <= fst (size img))%Z) (Hh : (0 <= snd (size img))%Z) :
  normalised img (V8._ensure_rgb img).
Proof.
  unfold normalised, V8._ensure_rgb.
  fold (has_alpha (mode img)).
  destruct (has_alpha (mode img)) eqn:Ha.
  - destruct (composite_alpha img Hw Hh Ha) as (bg & E & Hm & Hs & Hpx).
    exists bg. rewrite E. auto.
  - destruct (mode img =? "P")%string; [reflexivity|].
    destruct (mode img =? "RGB")%string; reflexivity.
Qed.

End NormaliserFacts.

(** C6.  For a decoded image, [_ensure_rgb] follows the policy table in
    both revisions: an [RGBA] or [LA] image is laid over a white [RGB]
    canvas of the same size with its alpha band as the mask, so that a
    fully transparent pixel comes out white; a palette image and any other
    image that is not [RGB] go through [convert("RGB")]; an [RGB] image is
    returned as it is. *)
Theorem ensure_rgb_follows_policy `{Image.Convert} (img : Image.Image)
  (Hw : (0 <= fst (Image.size img))%Z) (Hh : (0 <= snd (Image.size img))%Z) :
  Normaliser.normalised img (V7._ensure_rgb img) /\
  Normaliser.normalised img (V8._ensure_rgb img) /\
  (forall px, Normaliser.alpha (Image.mode img) px = 0%Z ->
              Normaliser.over_white (Image.mode img) px = [255; 255; 255]%Z).
Proof.
  split; [apply ensure_rgb_v7_normalised; assumption|].
  split; [apply ensure_rgb_v8_normalised; assumption|].
  intros px. apply over_white_transparent.
Qed.

Lemma ensure_rgb_follows_policy_witness :
  exists bg,
    @V7._ensure_rgb Sample.pillow Sample.picture = Ok bg /\
    Image.mode bg = "RGB"%string /\ Image.size bg = (2, 1)%Z /\
    Image.getpixel bg 0 0 = [255; 255; 255]%Z /\
    Image.getpixel bg 1 0 = [0; 0; 255]%Z.
Proof.
  destruct (@ensure_rgb_follows_policy Sample.pillow Sample.picture
              ltac:(discriminate) ltac:(discriminate)) as (N7 & _ & _).
  destruct N7 as (bg & E & Hm & Hs & Hpx).
  exists bg. split; [exact E|]. split; [exact Hm|]. split; [exact Hs|].
  split; [rewrite (Hpx 0%Z 0%Z eq_refl) | rewrite (Hpx 1%Z 0%Z eq_refl)];
    reflexivity.
Defined.

(** ** The batch drivers *)

Section Steps.
Context {World : Type}.
Implicit Type s : App World.

Lemma bind_modify {A} f (k : unit -> M World A) s : bind (modify f) k s = k tt (f s).
Proof. reflexivity. Qed.

Lemma bind_print {A} l (k : unit -> M World A) s :
  bind (print l) k s = k tt (set_stdout (stdout s ++ [l]) s).
Proof. reflexivity. Qed.

Lemma bind_root_after {A} cb (k : unit -> M World A) s :
  bind (root_after cb) k s = k tt (set_after_queue (after_queue s ++ [cb]) s).
Proof. reflexivity. Qed.

Lemma bind_gets {A B} (f : App World -> A) (k : A -> M World B) s :
  bind (gets f) k s = k (f s) s.
Proof. reflexivity. Qed.

End Steps.

(** ** Further fixtures and yardsticks *)

Module Fixtures.

(** The sample platform on a disk where no folder can be made. *)
Definition readonly (has_deepzoom : bool) : Platform Sample.Disk :=
  {| os_path_exists := @os_path_exists _ (Sample.platform has_deepzoom);
     os_makedirs := fun _ w => (w, Raise (OSError "read-only file system"));
     Image_open := @Image_open _ (Sample.platform has_deepzoom);
     Image_save := @Image_save _ (Sample.platform has_deepzoom);
     HAS_DEEPZOOM := has_deepzoom;
     ImageCreator_create := @ImageCreator_create _ (Sample.platform has_deepzoom);
     write_log := @write_log _ (Sample.platform has_deepzoom) |}.

End Fixtures.

(** Does the string end in a period or a space? *)
Definition ends_in_period_or_space (s : str) : bool :=
  match rev s with
  | c :: _ => char_in c (lit ". ")
  | [] => false
  end.

(** The value [v] laid over white with weight [a] of 255, as the nearest
    integer to [(255 * (255 - a) + v * a) / 255]. *)
Definition over_white_exact (a v : Z) : Z :=
  ((255 * (255 - a) + v * a + 127) / 255)%Z.

(** Is every band of the pixel a byte? *)
Definition bytes (px : list Z) : bool :=
  forallb (fun v => (0 <=? v)%Z && (v <=? 255)%Z) px.

(** The progress update a v8 JPEG turn for [(i, src)] schedules in the
    state [s]: none when the file is missing. *)
Definition v8_update {World} `{Platform World} (i : Z) (src : str) (s : App World)
  : list Z :=
  if os_path_exists src (world s) then [i] else [].

(** The state with one more message box shown. *)
Definition shown {World} (d : dialog) (s : App World) : App World :=
  set_dialogs (dialogs s ++ [d]) s.

(** Bring a state that is a setter applied to an explicit state into
    explicit form. *)
Ltac read_state :=
  unfold set_world, set_progress_var, set_progress_max, set_prog_maximum,
    set_elapsed_total, set_status_jpeg, set_status_dz, set_busy, set_stdout,
    set_dialogs, set_after_queue, set_executors, advance;
  cbn [world input_files output_dir progress_var progress_max prog_maximum
       elapsed_total status_jpeg status_dz busy stdout dialogs after_queue
       executors].

(** Run the state-passing primitives that head the goal, up to the first
    step that is none. *)
Ltac run_binds :=
  unfold V7.progress_max_set, V7._set_busy, ThreadPoolExecutor_submit,
    messagebox_showerror;
  cbv beta iota; read_state;
  repeat (first [rewrite bind_print | rewrite bind_modify
                | rewrite bind_root_after | rewrite bind_gets];
          cbv beta iota; read_state).

(** The same, to the end of a computation made of such steps only. *)
Ltac run_state :=
  run_binds; unfold root_after, print, modify; read_state.

Section EngineFacts.
Context {World : Type} `{OsPath} `{Os} `{Unicode} `{Image.Convert} `{Platform World}.
Implicit Type s : App World.

Lemma advance_advance w1 l1 c1 w2 l2 c2 s :
  advance w2 l2 c2 (advance w1 l1 c1 s) = advance w2 (l1 ++ l2) (c1 ++ c2) s.
Proof. unfold advance. cbn. rewrite !app_assoc. reflexivity. Qed.

Lemma tally_app f l1 l2 : tally f (l1 ++ l2) = (tally f l1 + tally f l2)%Z.
Proof. unfold tally, len. rewrite filter_app, length_app. lia. Qed.

(** One turn of the v7 JPEG loop: it returns, prints lines that report one
    outcome, schedules one progress update, and counts the outcome. *)
Lemma v7_worker_turn_spec (i : Z) (src : str) (converted errors : Z) s :
  exists w lines converted' errors',
    V7.worker_turn (i, src) (converted, errors) s =
      (Ok (converted', errors'), advance w lines [progress_var_set i] s) /\
    converted' = (converted + tally reports_ok lines)%Z /\
    errors' = (errors + tally reports_skipped lines + tally reports_error lines)%Z /\
    (tally reports_ok lines + tally reports_skipped lines
     + tally reports_error lines = 1)%Z /\
    (os_path_exists src (world s) = false ->
     w = world s /\ lines = [JpegSkipped src]).
Proof.
  unfold V7.worker_turn, try_except, bind, V7.exists_, gets, print, modify, ret,
    syscall, lift, root_after.
  destruct (os_path_exists src (world s)) eqn:Ex; cbn [negb].
  - cbn -[safe V7._ensure_rgb].
    destruct (Image_open src (world s)) as [w1 [im|e]] eqn:Eo; cbn -[safe V7._ensure_rgb].
    + destruct (V7._ensure_rgb im) as [im'|e] eqn:En; cbn -[safe V7._ensure_rgb].
      * destruct (Image_save im' _ V7.jpeg_options w1) as [w2 [[]|e]] eqn:Es;
          cbn -[safe V7._ensure_rgb].
        -- exists w2. eexists. exists (converted + 1)%Z, errors.
           split; [unfold advance; cbn; rewrite <- !app_assoc; reflexivity|].
           cbn. repeat split; try lia; discriminate.
        -- exists w2. eexists. exists converted, (errors + 1)%Z.
           split; [unfold advance; cbn; rewrite <- !app_assoc; reflexivity|].
           cbn. repeat split; try lia; discriminate.
      * exists w1. eexists. exists converted, (errors + 1)%Z.
        split; [unfold advance; cbn; rewrite <- !app_assoc; reflexivity|].
        cbn. repeat split; try lia; discriminate.
    + exists w1. eexists. exists converted, (errors + 1)%Z.
      split; [unfold advance; cbn; rewrite <- !app_assoc; reflexivity|].
      cbn. repeat split; try lia; discriminate.
  - exists (world s), [JpegSkipped src], converted, (errors + 1)%Z.
    split; [reflexivity|]. cbn. repeat split; lia.
Qed.

Lemma advance_nil s : advance (world s) [] [] s = s.
Proof. destruct s. unfold advance. cbn. rewrite !app_nil_r. reflexivity. Qed.

(** The whole v7 JPEG loop, started at index [k]. *)
Lemma v7_worker_loop_spec (files : list str) :
  forall (k converted errors : Z) s,
  exists w lines converted' errors',
    for_each (enumerate files k) V7.worker_turn (converted, errors) s =
      (Ok (converted', errors'),
       advance w lines (map progress_var_set (upto k (length files))) s) /\
    converted' = (converted + tally reports_ok lines)%Z /\
    errors' = (errors + tally reports_skipped lines + tally reports_error lines)%Z /\
    (tally reports_ok lines + tally reports_skipped lines
     + tally reports_error lines = len files)%Z.
Proof.
  induction files as [|src files IH]; intros k converted errors s.
  - exists (world s), [], converted, errors. cbn [enumerate for_each length upto map].
    unfold ret. rewrite advance_nil. cbn. repeat split; lia.
  - cbn [enumerate for_each length upto map]. unfold bind at 1.
    destruct (v7_worker_turn_spec k src converted errors s)
      as (w1 & l1 & c1 & e1 & E1 & Hc1 & He1 & Hone & _).
    rewrite E1.
    destruct (IH (k + 1)%Z c1 e1 (advance w1 l1 [progress_var_set k] s))
      as (w2 & l2 & c2 & e2 & E2 & Hc2 & He2 & Hall).
    rewrite E2, advance_advance.
    exists w2, (l1 ++ l2), c2, e2. split; [reflexivity|].
    rewrite !tally_app. unfold len in *. cbn [length]. repeat split; lia.
Qed.

(** One turn of the v8 JPEG loop; a missing file leaves the turn through
    [continue], before the progress update. *)
Lemma v8_worker_turn_spec (i : Z) (src : str) (converted errors : Z) s :
  exists w lines cbs converted' errors',
    V8.worker_turn (i, src) (converted, errors) s =
      (Ok (converted', errors'), advance w lines cbs s) /\
    converted' = (converted + tally reports_ok lines)%Z /\
    errors' = (errors + tally reports_skipped lines + tally reports_error lines)%Z /\
    (tally reports_ok lines + tally reports_skipped lines
     + tally reports_error lines = 1)%Z /\
    (os_path_exists src (world s) = false ->
     w = world s /\ lines = [JpegSkipped src] /\ cbs = []) /\
    (os_path_exists src (world s) = true -> cbs = [progress_var_set i]).
Proof.
  unfold V8.worker_turn, try_except, bind, V8.exists_, gets, print, modify, ret,
    syscall, lift, root_after.
  destruct (os_path_exists src (world s)) eqn:Ex; cbn [negb].
  - cbn -[safe V8._ensure_rgb].
    destruct (Image_open src (world s)) as [w1 [im|e]] eqn:Eo; cbn -[safe V8._ensure_rgb].
    + destruct (V8._ensure_rgb im) as [im'|e] eqn:En; cbn -[safe V8._ensure_rgb].
      * destruct (Image_save im' _ V8.jpeg_options w1) as [w2 [[]|e]] eqn:Es;
          cbn -[safe V8._ensure_rgb].
        -- exists w2. eexists. eexists. exists (converted + 1)%Z, errors.
           split; [unfold advance; cbn; rewrite <- ?app_assoc; reflexivity|].
           cbn. repeat split; try lia; discriminate.
        -- exists w2. eexists. eexists. exists converted, (errors + 1)%Z.
           split; [unfold advance; cbn; rewrite <- ?app_assoc; reflexivity|].
           cbn. repeat split; try lia; discriminate.
      * exists w1. eexists. eexists. exists converted, (errors + 1)%Z.
        split; [unfold advance; cbn; rewrite <- ?app_assoc; reflexivity|].
        cbn. repeat split; try lia; discriminate.
    + exists w1. eexists. eexists. exists converted, (errors + 1)%Z.
      split; [unfold advance; cbn; rewrite <- ?app_assoc; reflexivity|].
      cbn. repeat split; try lia; discriminate.
  - exists (world s), [JpegSkipped src], [], converted, (errors + 1)%Z.
    split; [unfold advance; cbn; rewrite app_nil_r; destruct s; reflexivity|].
    cbn. repeat split; try lia; discriminate.
Qed.

Lemma v8_worker_loop_spec (files : list str) :
  forall (k converted errors : Z) s,
  exists w lines cbs converted' errors',
    for_each (enumerate files k) V8.worker_turn (converted, errors) s =
      (Ok (converted', errors'), advance w lines cbs s) /\
    converted' = (converted + tally reports_ok lines)%Z /\
    errors' = (errors + tally reports_skipped lines + tally reports_error lines)%Z /\
    (tally reports_ok lines + tally reports_skipped lines
     + tally reports_error lines = len files)%Z.
Proof.
  induction files as [|src files IH]; intros k converted errors s.
  - exists (world s), [], [], converted, errors. cbn [enumerate for_each].
    unfold ret. rewrite advance_nil. cbn. repeat split; lia.
  - cbn [enumerate for_each]. unfold bind at 1.
    destruct (v8_worker_turn_spec k src converted errors s)
      as (w1 & l1 & q1 & c1 & e1 & E1 & Hc1 & He1 & Hone & _).
    rewrite E1.
    destruct (IH (k + 1)%Z c1 e1 (advance w1 l1 q1 s))
      as (w2 & l2 & q2 & c2 & e2 & E2 & Hc2 & He2 & Hall).
    rewrite E2, advance_advance.
    exists w2, (l1 ++ l2), (q1 ++ q2), c2, e2. split; [reflexivity|].
    rewrite !tally_app. unfold len in *. cbn [length]. repeat split; lia.
Qed.

(** One turn of the v7 loop over completed futures. *)
Lemma v7_completed_turn_spec (src : str) (created skipped errors done_count : Z) s :
  exists w lines created' skipped' errors',
    V7.completed_turn src (created, skipped, errors, done_count) s =
      (Ok (created', skipped', errors', done_count + 1)%Z,
       advance w lines [progress_var_set (done_count + 1)] s) /\
    created' = (created + tally reports_ok lines)%Z /\
    skipped' = (skipped + tally reports_skipped lines)%Z /\
    errors' = (errors + tally reports_error lines)%Z /\
    (tally reports_ok lines + tally reports_skipped lines
     + tally reports_error lines = 1)%Z /\
    (os_path_exists src (world s) = false ->
     w = world s /\ lines = [DzSkipped src]).
Proof.
  unfold V7.completed_turn, V7.job, V7._dz_convert_one, try_except, bind,
    V7.exists_, gets, print, modify, ret, syscall, lift, root_after.
  destruct (os_path_exists src (world s)) eqn:Ex; cbn [negb].
  - destruct (path_to_file_uri src) as [uri|e] eqn:Eu.
    + destruct (ImageCreator_create V7._dz_make_creator uri
                  (os_path_join (output_dir s) (_basename_no_ext src ++ lit ".dzi"))
                  (world s)) as [w1 [[]|e]] eqn:Ec.
      * exists w1. eexists. exists (created + 1)%Z, skipped, errors.
        split; [unfold advance; cbn; reflexivity|].
        cbn. repeat split; try lia; discriminate.
      * exists w1. eexists. exists created, skipped, (errors + 1)%Z.
        split; [unfold advance; cbn; reflexivity|].
        cbn. repeat split; try lia; discriminate.
    + exists (world s). eexists. exists created, skipped, (errors + 1)%Z.
      split; [unfold advance; cbn; destruct s; reflexivity|].
      cbn. repeat split; try lia; discriminate.
  - exists (world s), [DzSkipped src], created, (skipped + 1)%Z, errors.
    split; [unfold advance; cbn; destruct s; reflexivity|].
    cbn. repeat split; lia.
Qed.

Lemma v7_completed_loop_spec (completion : list str) :
  forall (created skipped errors done_count : Z) s,
  exists w lines created' skipped' errors',
    for_each completion V7.completed_turn (created, skipped, errors, done_count) s =
      (Ok (created', skipped', errors', done_count + len completion)%Z,
       advance w lines
         (map progress_var_set (upto (done_count + 1) (length completion))) s) /\
    created' = (created + tally reports_ok lines)%Z /\
    skipped' = (skipped + tally reports_skipped lines)%Z /\
    errors' = (errors + tally reports_error lines)%Z /\
    (tally reports_ok lines + tally reports_skipped lines
     + tally reports_error lines = len completion)%Z.
Proof.
  induction completion as [|src rest IH]; intros created skipped errors done_count s.
  - exists (world s), [], created, skipped, errors. cbn [for_each length upto map].
    unfold ret. rewrite advance_nil. cbn. rewrite Z.add_0_r. repeat split; lia.
  - cbn [for_each length upto map]. unfold bind at 1.
    destruct (v7_completed_turn_spec src created skipped errors done_count s)
      as (w1 & l1 & c1 & k1 & e1 & E1 & Hc1 & Hk1 & He1 & Hone & _).
    rewrite E1.
    destruct (IH c1 k1 e1 (done_count + 1)%Z
                (advance w1 l1 [progress_var_set (done_count + 1)] s))
      as (w2 & l2 & c2 & k2 & e2 & E2 & Hc2 & Hk2 & He2 & Hall).
    rewrite E2, advance_advance.
    exists w2, (l1 ++ l2), c2, k2, e2.
    split.
    + f_equal. f_equal. unfold len. cbn [length]. f_equal. lia.
    + rewrite !tally_app. unfold len in *. cbn [length]. repeat split; lia.
Qed.

(** [save_jpeg.worker] of v7 returns for every state; [lines] are the
    per-file lines it prints. *)
Lemma v7_worker_spec s :
  exists w lines converted errors,
    V7.worker s =
      (Ok tt,
       Build_App w (input_files s) (output_dir s) (progress_var s) (progress_max s)
         (prog_maximum s) (elapsed_total s) (SavedJpegs converted) (status_dz s)
         (busy s) (stdout s ++ lines ++ [JpegDone converted errors]) (dialogs s)
         (after_queue s
          ++ map progress_var_set (upto 1 (length (input_files s)))
          ++ [elapsed_total_set; set_busy_cb false;
              messagebox (showinfo_jpeg converted errors)])
         (executors s)) /\
    converted = tally reports_ok lines /\
    errors = (tally reports_skipped lines + tally reports_error lines)%Z /\
    (converted + errors = len (input_files s))%Z.
Proof.
  destruct (v7_worker_loop_spec (input_files s) 1 0 0 s)
    as (w & lines & c & e & E & Hc & He & Hall).
  exists w, lines, c, e.
  split; [|repeat split; lia].
  unfold V7.worker, bind at 1, gets. unfold bind at 1. rewrite E.
  run_state. rewrite <- !app_assoc. reflexivity.
Qed.

(** [create_deepzoom.run_parallel] of v7 returns for every state and every
    completion order. *)
Lemma v7_run_parallel_spec (workers : Z) (completion : list str) s :
  exists w lines created skipped errors,
    V7.run_parallel workers completion s =
      (Ok tt,
       Build_App w (input_files s) (output_dir s) (progress_var s) (progress_max s)
         (prog_maximum s) (elapsed_total s) (status_jpeg s) (CreatedDzis created)
         (busy s)
         (stdout s ++ [DzSettings; DzWorkers workers] ++ lines
          ++ [DzDone created skipped errors])
         (dialogs s)
         (after_queue s
          ++ map progress_var_set (upto 1 (length completion))
          ++ [elapsed_total_set; set_busy_cb false;
              messagebox (showinfo_deepzoom created skipped errors)])
         (executors s
          ++ [{| max_workers := workers; submitted := map dz_job (input_files s) |}])) /\
    created = tally reports_ok lines /\
    skipped = tally reports_skipped lines /\
    errors = tally reports_error lines /\
    (created + skipped + errors = len completion)%Z.
Proof.
  set (s1 := Build_App (world s) (input_files s) (output_dir s) (progress_var s)
               (progress_max s) (prog_maximum s) (elapsed_total s) (status_jpeg s)
               (status_dz s) (busy s)
               ((stdout s ++ [DzSettings]) ++ [DzWorkers workers]) (dialogs s)
               (after_queue s)
               (executors s ++ [{| max_workers := workers;
                                   submitted := map dz_job (input_files s) |}])).
  destruct (v7_completed_loop_spec completion 0 0 0 0 s1)
    as (w & lines & c & k & e & E & Hc & Hk & He & Hall).
  exists w, lines, c, k, e.
  split; [|repeat split; lia].
  unfold V7.run_parallel. run_binds. fold s1.
  unfold bind at 1. rewrite E.
  run_state. unfold s1. read_state.
  rewrite <- !app_assoc. reflexivity.
Qed.

Lemma upto_last k n d : last (upto k (S n)) d = (k + Z.of_nat n)%Z.
Proof.
  revert k. induction n as [|n IH]; intros k.
  - cbn. lia.
  - change (upto k (S (S n))) with (k :: upto (k + 1) (S n)).
    change (last (k :: upto (k + 1) (S n)) d) with (last (upto (k + 1) (S n)) d).
    rewrite IH. lia.
Qed.

Lemma upto_bounds k n : Forall (fun v => (k <= v < k + Z.of_nat n)%Z) (upto k n).
Proof.
  revert k. induction n as [|n IH]; intros k; cbn [upto]; constructor.
  - lia.
  - eapply Forall_impl; [|apply IH]. cbn. intros; lia.
Qed.

(** Consecutive entries of [upto] differ by one. *)
Lemma upto_steps k n i :
  (i < n)%nat -> nth i (upto k n) 0%Z = (k + Z.of_nat i)%Z.
Proof.
  revert k i. induction n as [|n IH]; intros k i Hi; [lia|].
  destruct i as [|i]; cbn [upto nth]; [lia|].
  rewrite IH by lia. lia.
Qed.

Lemma progress_writes_app a b :
  progress_writes (a ++ b) = progress_writes a ++ progress_writes b.
Proof. unfold progress_writes. apply flat_map_app. Qed.

Lemma progress_writes_sets l : progress_writes (map progress_var_set l) = l.
Proof. induction l; cbn; [reflexivity | f_equal; assumption]. Qed.

Lemma boxes_app a b : boxes (a ++ b) = boxes a ++ boxes b.
Proof. unfold boxes. apply flat_map_app. Qed.

Lemma boxes_sets l : boxes (map progress_var_set l) = [].
Proof. induction l; cbn; [reflexivity | assumption]. Qed.

Lemma last_cons_default {A} (l : list A) :
  forall z d d', last (z :: l) d = last (z :: l) d'.
Proof.
  induction l as [|y l IH]; intros z d d'; [reflexivity|].
  change (last (y :: l) d = last (y :: l) d'). apply IH.
Qed.

Lemma run_callbacks_spec (cbs : list callback) :
  forall s,
    let s' := fold_left (fun s cb => run_callback cb s) cbs s in
    progress_max s' = progress_max s /\
    progress_var s' = last (progress_writes cbs) (progress_var s) /\
    dialogs s' = dialogs s ++ boxes cbs.
Proof.
  induction cbs as [|cb cbs IH]; intros s; cbn [fold_left].
  - cbn. rewrite app_nil_r. auto.
  - destruct (IH (run_callback cb s)) as (Hm & Hv & Hd).
    cbn zeta. rewrite Hm, Hv, Hd.
    change (cb :: cbs) with ([cb] ++ cbs).
    rewrite progress_writes_app, boxes_app.
    destruct cb; cbn; repeat split; rewrite <- ?app_assoc; try reflexivity.
    destruct (progress_writes cbs); [reflexivity | apply last_cons_default].
Qed.

(** The event loop after a batch that scheduled the progress updates
    [writes], then the elapsed time, the release of the buttons and the
    closing message box [d]. *)
Lemma mainloop_after_batch s (writes : list Z) (tail : list callback) :
  after_queue s = map progress_var_set writes ++ tail ->
  progress_writes tail = [] ->
  progress_max (mainloop s) = progress_max s /\
  progress_var (mainloop s) = last writes (progress_var s) /\
  dialogs (mainloop s) = dialogs s ++ boxes tail.
Proof.
  intros Hq Ht. unfold mainloop.
  destruct (run_callbacks_spec (after_queue s) (set_after_queue [] s))
    as (Hm & Hv & Hd).
  cbn zeta in *. rewrite Hm, Hv, Hd, Hq.
  rewrite progress_writes_app, progress_writes_sets, Ht, app_nil_r.
  rewrite boxes_app, boxes_sets. cbn. auto.
Qed.

Lemma skipn_length_app {A} (l r : list A) : skipn (length l) (l ++ r) = r.
Proof. induction l; cbn; [reflexivity | assumption]. Qed.

Lemma skipn_length {A} (l : list A) : skipn (length l) l = [].
Proof. induction l; cbn; [reflexivity | assumption]. Qed.

Lemma truthy_true {A} (xs : list A) : xs <> [] -> truthy xs = true.
Proof. destruct xs; [congruence | reflexivity]. Qed.

(** [save_jpeg()] of v7 when a selection and an output folder are there
    and the folder can be made. *)
Lemma v7_save_jpeg_starts s :
  input_files s <> [] -> output_dir s <> [] ->
  snd (os_makedirs (output_dir s) (world s)) = Ok tt ->
  V7.save_jpeg s =
    (Ok tt,
     Build_App (fst (os_makedirs (output_dir s) (world s))) (input_files s)
       (output_dir s) 0 (len (input_files s)) (len (input_files s)) Blank
       (status_jpeg s) (status_dz s) true (stdout s) (dialogs s) (after_queue s)
       (executors s ++ [{| max_workers := 1; submitted := [jpeg_worker] |}])).
Proof.
  intros Hf Ho Hmk. unfold V7.save_jpeg.
  unfold bind at 1, gets at 1. unfold bind at 1, gets at 1.
  rewrite (truthy_true Hf), (truthy_true Ho). cbn [negb orb].
  unfold bind at 1, syscall at 1.
  destruct (os_makedirs (output_dir s) (world s)) as [w1 r]. cbn [fst snd] in *.
  subst r. run_state. reflexivity.
Qed.

Lemma v8_save_jpeg_starts s :
  input_files s <> [] -> output_dir s <> [] ->
  snd (os_makedirs (output_dir s) (world s)) = Ok tt ->
  V8.save_jpeg s =
    (Ok tt,
     Build_App (fst (os_makedirs (output_dir s) (world s))) (input_files s)
       (output_dir s) 0 (len (input_files s)) (len (input_files s)) Blank
       (status_jpeg s) (status_dz s) (busy s) (stdout s) (dialogs s)
       (after_queue s)
       (executors s ++ [{| max_workers := 1; submitted := [jpeg_worker] |}])).
Proof.
  intros Hf Ho Hmk. unfold V8.save_jpeg.
  unfold bind at 1, gets at 1. unfold bind at 1, gets at 1.
  rewrite (truthy_true Hf), (truthy_true Ho). cbn [negb orb].
  unfold bind at 1, syscall at 1.
  destruct (os_makedirs (output_dir s) (world s)) as [w1 r]. cbn [fst snd] in *.
  subst r. run_state. reflexivity.
Qed.

Lemma v7_auto_workers_run (files : list str) (out_dir : str) s :
  files <> [] ->
  V7._auto_workers files out_dir s =
    (Ok (V8._auto_workers files out_dir),
     set_stdout
       (stdout s ++ [AutoWorkersLine (V8._auto_workers files out_dir)
                       (any_unc files out_dir) os_cpu_count]) s).
Proof.
  intros Hne. unfold V7._auto_workers, V8._auto_workers.
  destruct files as [|f files]; [congruence|]. cbn [truthy negb].
  pose proof (len_cons_pos f files).
  destruct (any_unc (f :: files) out_dir) eqn:U.
  - unfold bind, print, modify, ret. reflexivity.
  - replace (Z.min (Z.max 1 (cores / 2)) (len (f :: files)))
      with (Z.max 1 (Z.min (len (f :: files)) (cores / 2))) by lia.
    unfold bind, print, modify, ret. reflexivity.
Qed.

(** [create_deepzoom()] of v7 when the backend is there, a selection and
    an output folder are there and the folder can be made. *)
Lemma v7_create_deepzoom_starts s :
  HAS_DEEPZOOM = true ->
  input_files s <> [] -> output_dir s <> [] ->
  snd (os_makedirs (output_dir s) (world s)) = Ok tt ->
  let workers := V8._auto_workers (input_files s) (output_dir s) in
  V7.create_deepzoom s =
    (Ok tt,
     Build_App (fst (os_makedirs (output_dir s) (world s))) (input_files s)
       (output_dir s) 0 (len (input_files s)) (len (input_files s)) Blank
       (status_jpeg s) (status_dz s) true
       (stdout s ++ [AutoWorkersLine workers
                       (any_unc (input_files s) (output_dir s)) os_cpu_count])
       (dialogs s) (after_queue s)
       (executors s
        ++ [{| max_workers := 1; submitted := [dz_run_parallel workers] |}])).
Proof.
  intros Hdz Hf Ho Hmk workers. unfold V7.create_deepzoom. rewrite Hdz. cbn [negb].
  unfold bind at 1, gets at 1. unfold bind at 1, gets at 1.
  rewrite (truthy_true Hf), (truthy_true Ho). cbn [negb orb].
  unfold bind at 1, syscall at 1.
  destruct (os_makedirs (output_dir s) (world s)) as [w1 r]. cbn [fst snd] in *.
  subst r. run_binds.
  unfold bind at 1. rewrite (v7_auto_workers_run _ _ Hf).
  run_state. reflexivity.
Qed.

Lemma v8_create_deepzoom_starts s :
  HAS_DEEPZOOM = true ->
  input_files s <> [] -> output_dir s <> [] ->
  snd (os_makedirs (output_dir s) (world s)) = Ok tt ->
  V8.create_deepzoom s =
    (Ok tt,
     Build_App (fst (os_makedirs (output_dir s) (world s))) (input_files s)
       (output_dir s) 0 (len (input_files s)) (len (input_files s))
       (elapsed_total s) (status_jpeg s) (status_dz s) (busy s) (stdout s)
       (dialogs s) (after_queue s)
       (executors s ++ [{| max_workers := 1; submitted := [dz_worker] |}])).
Proof.
  intros Hdz Hf Ho Hmk. unfold V8.create_deepzoom. rewrite Hdz. cbn [negb].
  unfold bind at 1, gets at 1. unfold bind at 1, gets at 1.
  rewrite (truthy_true Hf), (truthy_true Ho). cbn [negb orb].
  unfold bind at 1, syscall at 1.
  destruct (os_makedirs (output_dir s) (world s)) as [w1 r]. cbn [fst snd] in *.
  subst r. run_state. reflexivity.
Qed.

(** A press whose handler submits one task runs that task. *)
Lemma v7_press_one (handler : M World unit) (completion : list str) s s1 (t : task)
  (n : Z) :
  handler s = (Ok tt, s1) ->
  executors s1 = executors s ++ [{| max_workers := n; submitted := [t] |}] ->
  V7.press handler completion s =
    (let '(r, s2) := V7.run_task completion t s1 in
     match r with Ok _ => (Ok tt, s2) | Raise e => (Raise e, s2) end).
Proof.
  intros Hh He. unfold V7.press.
  unfold bind at 1, gets at 1. unfold bind at 1. rewrite Hh.
  unfold bind at 1, gets at 1.
  unfold submitted_since. rewrite He, skipn_length_app. cbn [flat_map submitted app].
  cbn [for_each]. unfold bind, ret.
  destruct (V7.run_task completion t s1) as [[[]|e] s2]; reflexivity.
Qed.

Lemma v8_press_one (handler : M World unit) s s1 (t : task) (n : Z) :
  handler s = (Ok tt, s1) ->
  executors s1 = executors s ++ [{| max_workers := n; submitted := [t] |}] ->
  V8.press handler s =
    (let '(r, s2) := V8.run_task t s1 in
     match r with Ok _ => (Ok tt, s2) | Raise e => (Raise e, s2) end).
Proof.
  intros Hh He. unfold V8.press.
  unfold bind at 1, gets at 1. unfold bind at 1. rewrite Hh.
  unfold bind at 1, gets at 1.
  unfold submitted_since. rewrite He, skipn_length_app. cbn [flat_map submitted app].
  cbn [for_each]. unfold bind, ret.
  destruct (V8.run_task t s1) as [[[]|e] s2]; reflexivity.
Qed.

(** A press whose handler submits nothing ends with the handler. *)
Lemma v7_press_none (handler : M World unit) (completion : list str) s s1 :
  handler s = (Ok tt, s1) -> executors s1 = executors s ->
  V7.press handler completion s = (Ok tt, s1).
Proof.
  intros Hh He. unfold V7.press.
  unfold bind at 1, gets at 1. unfold bind at 1. rewrite Hh.
  unfold bind at 1, gets at 1.
  unfold submitted_since. rewrite He, skipn_length. reflexivity.
Qed.

Lemma v8_press_none (handler : M World unit) s s1 :
  handler s = (Ok tt, s1) -> executors s1 = executors s ->
  V8.press handler s = (Ok tt, s1).
Proof.
  intros Hh He. unfold V8.press.
  unfold bind at 1, gets at 1. unfold bind at 1. rewrite Hh.
  unfold bind at 1, gets at 1.
  unfold submitted_since. rewrite He, skipn_length. reflexivity.
Qed.

End EngineFacts.

Section BatchClaims.
Context {World : Type} `{OsPath} `{Os} `{Unicode} `{Image.Convert} `{Platform World}.
Implicit Type s : App World.

(** What the guard at the head of [create_deepzoom] does when it is
    reached with the flag off: one error box, and the state is otherwise
    the one before the press. *)
Lemma create_deepzoom_guard s (completion : list str) :
  HAS_DEEPZOOM = false ->
  V7.press V7.create_deepzoom completion s =
    (Ok tt, shown (showerror "DeepZoom not available"
                     "Install 'deepzoom' to enable DeepZoom conversion.") s) /\
  V8.press V8.create_deepzoom s =
    (Ok tt, shown (showerror "Missing" "Install 'deepzoom' package") s).
Proof.
  intros Hmissing. split.
  - apply v7_press_none; [|reflexivity].
    unfold V7.create_deepzoom. rewrite Hmissing. reflexivity.
  - apply v8_press_none; [|reflexivity].
    unfold V8.create_deepzoom. rewrite Hmissing. reflexivity.
Qed.

(** C4.  On a host without the DeepZoom backend, under an interpreter
    that evaluates annotations as a [def] runs, neither script gets as far
    as its window: the [try] around the import sets [HAS_DEEPZOOM] to
    [False], and the [def] of [_dz_convert_one], whose parameter is
    annotated with the name the failed import left unbound, raises
    [NameError].  [create_deepzoom] is not defined by then, so a user who
    wants the DeepZoom batch meets that exception and no message box; the
    state is untouched.  Only where annotations are evaluated on request
    is the guard of [create_deepzoom] reached, and there it shows its one
    box and nothing else happens. *)
Theorem deepzoom_missing_stops_the_script s (completion : list str)
  (Hmissing : HAS_DEEPZOOM = false) :
  let unbound := NameError "name 'ImageCreator' is not defined" in
  start Script.AtDefinition Script.converter_v7
    (V7.press V7.create_deepzoom completion) s = (Raise unbound, s) /\
  start Script.AtDefinition Script.converter_v8
    (V8.press V8.create_deepzoom) s = (Raise unbound, s) /\
  (forall prog, prog = Script.converter_v7 \/ prog = Script.converter_v8 ->
     let names := fst (Script.load Script.AtDefinition HAS_DEEPZOOM prog) in
     Script.bound "HAS_DEEPZOOM" names = true /\
     Script.bound "ImageCreator" names = false /\
     Script.bound "create_deepzoom" names = false) /\
  start Script.OnRequest Script.converter_v7
    (V7.press V7.create_deepzoom completion) s =
    (Ok tt, shown (showerror "DeepZoom not available"
                     "Install 'deepzoom' to enable DeepZoom conversion.") s) /\
  start Script.OnRequest Script.converter_v8 (V8.press V8.create_deepzoom) s =
    (Ok tt, shown (showerror "Missing" "Install 'deepzoom' package") s).
Proof.
  intros unbound.
  destruct (create_deepzoom_guard s completion Hmissing) as [G7 G8].
  unfold start. rewrite Hmissing.
  split; [reflexivity|]. split; [reflexivity|].
  split; [intros prog [->| ->]; repeat split|].
  split; [exact G7 | exact G8].
Qed.

End BatchClaims.

Lemma deepzoom_missing_stops_the_script_witness :
  let s := Sample.app Sample.files (lit "D:\out") in
  let run := @start Sample.Disk (Sample.platform false) Script.AtDefinition
               Script.converter_v7
               (@V7.press Sample.Disk ntpath.os_path (Sample.os (Some 8%Z))
                  Sample.unicode Sample.pillow (Sample.platform false)
                  (@V7.create_deepzoom Sample.Disk (Sample.os (Some 8%Z))
                     (Sample.platform false))
                  Sample.files) s in
  fst run = Raise (NameError "name 'ImageCreator' is not defined") /\
  dialogs (snd run) = [].
Proof.
  intros s run.
  pose proof (@deepzoom_missing_stops_the_script Sample.Disk ntpath.os_path
                (Sample.os (Some 8%Z)) Sample.unicode Sample.pillow
                (Sample.platform false) s Sample.files eq_refl) as (E7 & _).
  unfold run. rewrite E7. split; reflexivity.
Defined.

Section BatchTally.
Context {World : Type} `{OsPath} `{Os} `{Unicode} `{Image.Convert} `{Platform World}.
Implicit Type s : App World.

Lemma upto_last_len {A} (xs : list A) (d : Z) :
  xs <> [] -> last (upto 1 (length xs)) d = len xs.
Proof.
  destruct xs as [|x xs]; [congruence|]. intros _.
  cbn [length]. rewrite upto_last. unfold len. cbn [length]. lia.
Qed.

Lemma upto_within {A} (xs : list A) :
  Forall (fun v => (1 <= v <= len xs)%Z) (upto 1 (length xs)).
Proof.
  eapply Forall_impl; [|apply upto_bounds]. unfold len. cbv beta. intros; lia.
Qed.

(** The v7 JPEG batch from the press of the button to the idle event
    loop. *)
Lemma v7_jpeg_batch s (completion : list str) :
  input_files s <> [] -> output_dir s <> [] ->
  snd (os_makedirs (output_dir s) (world s)) = Ok tt ->
  exists converted errors lines s1,
    V7.press V7.save_jpeg completion s = (Ok tt, s1) /\
    (converted + errors = len (input_files s))%Z /\
    converted = tally reports_ok lines /\
    errors = (tally reports_skipped lines + tally reports_error lines)%Z /\
    stdout s1 = stdout s ++ lines ++ [JpegDone converted errors] /\
    after_queue s1 =
      after_queue s ++ map progress_var_set (upto 1 (length (input_files s)))
      ++ [elapsed_total_set; set_busy_cb false;
          messagebox (showinfo_jpeg converted errors)] /\
    dialogs s1 = dialogs s /\
    progress_var s1 = 0%Z /\ progress_max s1 = len (input_files s) /\
    executors s1 = executors s ++ [{| max_workers := 1; submitted := [jpeg_worker] |}].
Proof.
  intros Hf Ho Hmk.
  pose proof (v7_save_jpeg_starts s Hf Ho Hmk) as Hs.
  match type of Hs with _ = (_, ?st) => set (s0 := st) in * end.
  destruct (v7_worker_spec s0) as (w & lines & c & e & Ew & Hc & He & Hsum).
  exists c, e, lines. eexists. split.
  - rewrite (@v7_press_one _ _ _ _ _ _ V7.save_jpeg completion s s0 jpeg_worker 1%Z
               Hs eq_refl).
    cbn [V7.run_task]. rewrite Ew. reflexivity.
  - cbn [stdout after_queue dialogs progress_var progress_max executors].
    unfold s0 in *. cbn [input_files stdout after_queue dialogs progress_var
                         progress_max executors] in *.
    repeat split; assumption.
Qed.

(** The v7 DeepZoom batch, for a completion order of the futures. *)
Lemma v7_deepzoom_batch s (completion : list str) :
  HAS_DEEPZOOM = true ->
  input_files s <> [] -> output_dir s <> [] ->
  snd (os_makedirs (output_dir s) (world s)) = Ok tt ->
  let workers := V8._auto_workers (input_files s) (output_dir s) in
  exists created skipped errors lines s1,
    V7.press V7.create_deepzoom completion s = (Ok tt, s1) /\
    (created + skipped + errors = len completion)%Z /\
    created = tally reports_ok lines /\
    skipped = tally reports_skipped lines /\
    errors = tally reports_error lines /\
    stdout s1 =
      stdout s
      ++ [AutoWorkersLine workers (any_unc (input_files s) (output_dir s)) os_cpu_count;
          DzSettings; DzWorkers workers]
      ++ lines ++ [DzDone created skipped errors] /\
    after_queue s1 =
      after_queue s ++ map progress_var_set (upto 1 (length completion))
      ++ [elapsed_total_set; set_busy_cb false;
          messagebox (showinfo_deepzoom created skipped errors)] /\
    dialogs s1 = dialogs s /\
    progress_var s1 = 0%Z /\ progress_max s1 = len (input_files s) /\
    executors s1 =
      executors s
      ++ [{| max_workers := 1; submitted := [dz_run_parallel workers] |};
          {| max_workers := workers; submitted := map dz_job (input_files s) |}].
Proof.
  intros Hdz Hf Ho Hmk workers.
  pose proof (v7_create_deepzoom_starts s Hdz Hf Ho Hmk) as Hs. cbn zeta in Hs.
  fold workers in Hs.
  match type of Hs with _ = (_, ?st) => set (s0 := st) in * end.
  destruct (v7_run_parallel_spec workers completion s0)
    as (w & lines & c & k & e & Ew & Hc & Hk & He & Hsum).
  exists c, k, e, lines. eexists. split.
  - rewrite (@v7_press_one _ _ _ _ _ _ V7.create_deepzoom completion s s0
               (dz_run_parallel workers) 1%Z Hs eq_refl).
    cbn [V7.run_task]. rewrite Ew. reflexivity.
  - cbn [stdout after_queue dialogs progress_var progress_max executors].
    unfold s0 in *. cbn [input_files stdout after_queue dialogs progress_var
                         progress_max executors] in *.
    rewrite <- !app_assoc. cbn [app].
    repeat split; assumption.
Qed.

(** C1.  A v7 batch over [n] submitted files, from the press of the button
    (a selection and an output folder are there, the folder can be made,
    and the event loop has nothing pending) to the idle event loop: the
    closing tally adds up to [n] (converted + errors for JPEG, where
    skipped files are counted as errors; created + skipped + errors for
    DeepZoom, whatever the order in which the futures complete); the
    progress count starts at 0, is written once per finished file with the
    values 1, 2, .., n, none above the maximum [n], and is [n] when the run
    has ended. *)
Theorem batch_tally_and_progress s (completion : list str)
  (Hfiles : input_files s <> []) (Hout : output_dir s <> [])
  (Hmk : snd (os_makedirs (output_dir s) (world s)) = Ok tt)
  (Hidle : after_queue s = []) :
  let n := len (input_files s) in
  (exists converted errors s1,
     V7.press V7.save_jpeg completion s = (Ok tt, s1) /\
     (converted + errors = n)%Z /\
     dialogs (mainloop s1) = dialogs s ++ [showinfo_jpeg converted errors] /\
     progress_var s1 = 0%Z /\ progress_max s1 = n /\
     progress_writes (after_queue s1) = upto 1 (length (input_files s)) /\
     Forall (fun v => (1 <= v <= progress_max s1)%Z) (progress_writes (after_queue s1)) /\
     progress_var (mainloop s1) = n /\ progress_max (mainloop s1) = n) /\
  (HAS_DEEPZOOM = true -> Permutation (input_files s) completion ->
   exists created skipped errors s1,
     V7.press V7.create_deepzoom completion s = (Ok tt, s1) /\
     (created + skipped + errors = n)%Z /\
     dialogs (mainloop s1) = dialogs s ++ [showinfo_deepzoom created skipped errors] /\
     progress_var s1 = 0%Z /\ progress_max s1 = n /\
     progress_writes (after_queue s1) = upto 1 (length (input_files s)) /\
     Forall (fun v => (1 <= v <= progress_max s1)%Z) (progress_writes (after_queue s1)) /\
     progress_var (mainloop s1) = n /\ progress_max (mainloop s1) = n).
Proof.
  intros n. split.
  - destruct (v7_jpeg_batch s completion Hfiles Hout Hmk)
      as (c & e & lines & s1 & Ep & Hsum & _ & _ & _ & Hq & Hd & Hv & Hm & _).
    rewrite Hidle in Hq. cbn [app] in Hq.
    destruct (mainloop_after_batch s1 _ _ Hq eq_refl) as (Lm & Lv & Ld).
    assert (Hw : progress_writes (after_queue s1) = upto 1 (length (input_files s))).
    { rewrite Hq, progress_writes_app, progress_writes_sets. apply app_nil_r. }
    exists c, e, s1. repeat split; try assumption.
    + rewrite Ld, Hd. reflexivity.
    + rewrite Hw, Hm. apply upto_within.
    + rewrite Lv. apply upto_last_len. assumption.
    + rewrite Lm. assumption.
  - intros Hdz Hperm.
    destruct (v7_deepzoom_batch s completion Hdz Hfiles Hout Hmk)
      as (c & k & e & lines & s1 & Ep & Hsum & _ & _ & _ & _ & Hq & Hd & Hv & Hm & _).
    assert (Hlen : length completion = length (input_files s))
      by (symmetry; apply Permutation_length; assumption).
    rewrite Hidle, Hlen in Hq. cbn [app] in Hq.
    destruct (mainloop_after_batch s1 _ _ Hq eq_refl) as (Lm & Lv & Ld).
    assert (Hw : progress_writes (after_queue s1) = upto 1 (length (input_files s))).
    { rewrite Hq, progress_writes_app, progress_writes_sets. apply app_nil_r. }
    exists c, k, e, s1. repeat split; try assumption.
    + unfold n, len. rewrite <- Hlen. exact Hsum.
    + rewrite Ld, Hd. reflexivity.
    + rewrite Hw, Hm. apply upto_within.
    + rewrite Lv. apply upto_last_len. assumption.
    + rewrite Lm. assumption.
Qed.

End BatchTally.

Lemma batch_tally_and_progress_witness :
  let s := Sample.app Sample.files (lit "D:\out") in
  (exists converted errors s1,
     @V7.press Sample.Disk ntpath.os_path (Sample.os (Some 8%Z)) Sample.unicode
       Sample.pillow (Sample.platform true)
       (@V7.save_jpeg Sample.Disk (Sample.platform true)) (rev Sample.files) s
     = (Ok tt, s1) /\
     (converted + errors = 3)%Z /\ progress_var (mainloop s1) = 3%Z) /\
  (exists created skipped errors s1,
     @V7.press Sample.Disk ntpath.os_path (Sample.os (Some 8%Z)) Sample.unicode
       Sample.pillow (Sample.platform true)
       (@V7.create_deepzoom Sample.Disk (Sample.os (Some 8%Z)) (Sample.platform true))
       (rev Sample.files) s
     = (Ok tt, s1) /\
     (created + skipped + errors = 3)%Z /\ progress_var (mainloop s1) = 3%Z).
Proof.
  intros s.
  destruct (@batch_tally_and_progress Sample.Disk ntpath.os_path
              (Sample.os (Some 8%Z)) Sample.unicode Sample.pillow
              (Sample.platform true) s (rev Sample.files)
              ltac:(discriminate) ltac:(discriminate) eq_refl eq_refl)
    as [J D].
  split.
  - destruct J as (c & e & s1 & E & Hsum & _ & _ & _ & _ & _ & Hv & _).
    exists c, e, s1. repeat split; assumption.
  - destruct (D eq_refl (Permutation_rev Sample.files))
      as (c & k & e & s1 & E & Hsum & _ & _ & _ & _ & _ & Hv & _).
    exists c, k, e, s1. repeat split; assumption.
Defined.

Section MissingFiles.
Context {World : Type} `{OsPath} `{Os} `{Unicode} `{Image.Convert} `{Platform World}.
Implicit Type s : App World.


End MissingFiles.


Section Pools.
Context {World : Type} `{OsPath} `{Os} `{Unicode} `{Image.Convert} `{Platform World}.
Implicit Type s : App World.

(** One turn of the v8 DeepZoom loop returns and leaves the thread pools
    alone. *)
Lemma v8_dz_worker_turn_spec (creator : ImageCreator) (i : Z) (src : str)
  (success : Z) s :
  exists w lines success',
    V8.dz_worker_turn creator (i, src) success s =
      (Ok success', advance w lines [progress_var_set i] s).
Proof.
  unfold V8.dz_worker_turn, V8._dz_convert_one, try_except, bind, gets, print,
    modify, ret, syscall, lift, root_after.
  destruct (path_to_file_uri src) as [uri|e] eqn:Eu.
  - destruct (ImageCreator_create creator uri
                (os_path_join (output_dir s) (_basename_no_ext src ++ lit ".dzi"))
                (world s)) as [w1 [[]|e]] eqn:Ec.
    + exists w1. eexists. eexists. unfold advance. cbn. reflexivity.
    + exists w1. eexists. eexists. unfold advance. cbn. reflexivity.
  - exists (world s). eexists. eexists. unfold advance. cbn. destruct s. reflexivity.
Qed.

Lemma v8_dz_worker_loop_spec (creator : ImageCreator) (files : list str) :
  forall (k success : Z) s,
  exists w lines success',
    for_each (enumerate files k) (V8.dz_worker_turn creator) success s =
      (Ok success',
       advance w lines (map progress_var_set (upto k (length files))) s).
Proof.
  induction files as [|src files IH]; intros k success s.
  - exists (world s), [], success. cbn [enumerate for_each length upto map].
    unfold ret. rewrite advance_nil. reflexivity.
  - cbn [enumerate for_each length upto map]. unfold bind at 1.
    destruct (v8_dz_worker_turn_spec creator k src success s) as (w1 & l1 & n1 & E1).
    rewrite E1.
    destruct (IH (k + 1)%Z n1 (advance w1 l1 [progress_var_set k] s))
      as (w2 & l2 & n2 & E2).
    rewrite E2, advance_advance. exists w2, (l1 ++ l2), n2. reflexivity.
Qed.

Lemma v8_worker_executors s : executors (snd (V8.worker s)) = executors s.
Proof.
  unfold V8.worker. unfold bind at 1, gets at 1. unfold bind at 1.
  destruct (v8_worker_loop_spec (input_files s) 1 0 0 s)
    as (w & l & q & c & e & E & _).
  rewrite E.
  unfold bind at 1, print at 1, modify at 1.
  unfold bind at 1, gets at 1.
  unfold bind at 1, syscall at 1.
  match goal with |- context [write_log ?t ?w0] => destruct (write_log t w0) as [w1 [[]|x]] end;
    reflexivity.
Qed.

Lemma v8_create_deepzoom_worker_executors s :
  executors (snd (V8.create_deepzoom_worker s)) = executors s.
Proof.
  unfold V8.create_deepzoom_worker. unfold bind at 1, gets at 1. unfold bind at 1.
  destruct (v8_dz_worker_loop_spec V8._dz_make_creator (input_files s) 1 0 s)
    as (w & l & n & E).
  rewrite E.
  unfold bind at 1, print at 1, modify at 1.
  unfold bind at 1, gets at 1.
  unfold bind at 1, syscall at 1.
  match goal with |- context [write_log ?t ?w0] => destruct (write_log t w0) as [w1 [[]|x]] end;
    reflexivity.
Qed.

(** One turn of the v7 JPEG loop prints one line that tells how its file
    fared. *)
Lemma v7_worker_turn_report (i : Z) (src : str) (locals : Z * Z) s :
  exists locals' w lines l,
    V7.worker_turn (i, src) locals s =
      (Ok locals', advance w lines [progress_var_set i] s) /\
    filter is_outcome lines = [l] /\ jpeg_report (output_dir s) src l.
Proof.
  destruct locals as [converted errors].
  unfold V7.worker_turn, try_except, bind, V7.exists_, gets, print, modify, ret,
    syscall, lift, root_after.
  destruct (os_path_exists src (world s)) eqn:Ex; cbn [negb].
  - cbn -[safe V7._ensure_rgb].
    destruct (Image_open src (world s)) as [w1 [im|e]] eqn:Eo; cbn -[safe V7._ensure_rgb].
    + destruct (V7._ensure_rgb im) as [im'|e] eqn:En; cbn -[safe V7._ensure_rgb].
      * destruct (Image_save im' _ V7.jpeg_options w1) as [w2 [[]|e]] eqn:Es;
          cbn -[safe V7._ensure_rgb].
        -- eexists. exists w2. eexists. eexists.
           split; [unfold advance; cbn; rewrite <- !app_assoc; reflexivity|].
           split; reflexivity.
        -- eexists. exists w2. eexists. eexists.
           split; [unfold advance; cbn; rewrite <- !app_assoc; reflexivity|].
           split; reflexivity.
      * eexists. exists w1. eexists. eexists.
        split; [unfold advance; cbn; rewrite <- !app_assoc; reflexivity|].
        split; reflexivity.
    + eexists. exists w1. eexists. eexists.
      split; [unfold advance; cbn; rewrite <- !app_assoc; reflexivity|].
      split; reflexivity.
  - eexists. exists (world s), [JpegSkipped src]. eexists.
    split; [reflexivity|]. split; reflexivity.
Qed.

Lemma v7_worker_loop_report (files : list str) :
  forall (k : Z) (locals : Z * Z) s,
  exists locals' w lines cbs,
    for_each (enumerate files k) V7.worker_turn locals s =
      (Ok locals', advance w lines cbs s) /\
    Forall2 (jpeg_report (output_dir s)) files (filter is_outcome lines).
Proof.
  induction files as [|src files IH]; intros k locals s.
  - exists locals, (world s), [], []. cbn [enumerate for_each].
    unfold ret. rewrite advance_nil. split; [reflexivity | constructor].
  - cbn [enumerate for_each]. unfold bind at 1.
    destruct (v7_worker_turn_report k src locals s) as (l1 & w1 & n1 & r1 & E1 & F1 & R1).
    rewrite E1.
    destruct (IH (k + 1)%Z l1 (advance w1 n1 [progress_var_set k] s))
      as (l2 & w2 & n2 & c2 & E2 & F2).
    rewrite E2, advance_advance.
    exists l2, w2, (n1 ++ n2), ([progress_var_set k] ++ c2).
    split; [reflexivity|]. rewrite filter_app, F1.
    constructor; [exact R1 | exact F2].
Qed.

(** A loop that returns has taken its turns one after the other. *)
Lemma for_each_in_turn {X L} (body : X -> L -> M World L) (xs : list X) :
  forall l s l' s',
    for_each xs body l s = (Ok l', s') -> in_turn body xs l s l' s'.
Proof.
  induction xs as [|x xs IH]; intros l s l' s'; cbn [for_each].
  - unfold ret. intros E. injection E as <- <-. constructor.
  - unfold bind. destruct (body x l s) as [[l1|e] s1] eqn:Ex; [|discriminate].
    intros E. econstructor; [exact Ex | apply IH; exact E].
Qed.

(** [save_jpeg.worker] of v7 takes the selected files one after the
    other in the order of the selection; the lines it prints on the way
    tell of them one by one, in that order; then it prints its count. *)
Lemma v7_worker_report s :
  exists locals s1 lines,
    in_turn V7.worker_turn (enumerate (input_files s) 1) (0, 0)%Z s locals s1 /\
    stdout s1 = stdout s ++ lines /\
    Forall2 (jpeg_report (output_dir s)) (input_files s) (filter is_outcome lines) /\
    stdout (snd (V7.worker s)) = stdout s1 ++ [JpegDone (fst locals) (snd locals)].
Proof.
  destruct (v7_worker_loop_report (input_files s) 1 (0, 0)%Z s)
    as ([c e] & w & lines & cbs & E & HF).
  exists (c, e), (advance w lines cbs s), lines.
  split; [apply for_each_in_turn; exact E|].
  split; [reflexivity|]. split; [exact HF|].
  unfold V7.worker, bind at 1, gets. unfold bind at 1. rewrite E.
  run_state. reflexivity.
Qed.

Lemma v8_worker_turn_report (i : Z) (src : str) (locals : Z * Z) s :
  exists locals' w lines cbs l,
    V8.worker_turn (i, src) locals s = (Ok locals', advance w lines cbs s) /\
    filter is_outcome lines = [l] /\ jpeg_report (output_dir s) src l.
Proof.
  destruct locals as [converted errors].
  unfold V8.worker_turn, try_except, bind, V8.exists_, gets, print, modify, ret,
    syscall, lift, root_after.
  destruct (os_path_exists src (world s)) eqn:Ex; cbn [negb].
  - cbn -[safe V8._ensure_rgb].
    destruct (Image_open src (world s)) as [w1 [im|e]] eqn:Eo; cbn -[safe V8._ensure_rgb].
    + destruct (V8._ensure_rgb im) as [im'|e] eqn:En; cbn -[safe V8._ensure_rgb].
      * destruct (Image_save im' _ V8.jpeg_options w1) as [w2 [[]|e]] eqn:Es;
          cbn -[safe V8._ensure_rgb].
        -- eexists. exists w2. eexists. eexists. eexists.
           split; [unfold advance; cbn; rewrite <- ?app_assoc; reflexivity|].
           split; reflexivity.
        -- eexists. exists w2. eexists. eexists. eexists.
           split; [unfold advance; cbn; rewrite <- ?app_assoc; reflexivity|].
           split; reflexivity.
      * eexists. exists w1. eexists. eexists. eexists.
        split; [unfold advance; cbn; rewrite <- ?app_assoc; reflexivity|].
        split; reflexivity.
    + eexists. exists w1. eexists. eexists. eexists.
      split; [unfold advance; cbn; rewrite <- ?app_assoc; reflexivity|].
      split; reflexivity.
  - eexists. exists (world s), [JpegSkipped src], []. eexists.
    split; [unfold advance; cbn; rewrite app_nil_r; destruct s; reflexivity|].
    split; reflexivity.
Qed.

Lemma v8_worker_loop_report (files : list str) :
  forall (k : Z) (locals : Z * Z) s,
  exists locals' w lines cbs,
    for_each (enumerate files k) V8.worker_turn locals s =
      (Ok locals', advance w lines cbs s) /\
    Forall2 (jpeg_report (output_dir s)) files (filter is_outcome lines).
Proof.
  induction files as [|src files IH]; intros k locals s.
  - exists locals, (world s), [], []. cbn [enumerate for_each].
    unfold ret. rewrite advance_nil. split; [reflexivity | constructor].
  - cbn [enumerate for_each]. unfold bind at 1.
    destruct (v8_worker_turn_report k src locals s)
      as (l1 & w1 & n1 & c1 & r1 & E1 & F1 & R1).
    rewrite E1.
    destruct (IH (k + 1)%Z l1 (advance w1 n1 c1 s)) as (l2 & w2 & n2 & c2 & E2 & F2).
    rewrite E2, advance_advance.
    exists l2, w2, (n1 ++ n2), (c1 ++ c2).
    split; [reflexivity|]. rewrite filter_app, F1.
    constructor; [exact R1 | exact F2].
Qed.

(** The same for [save_jpeg.worker] of v8, whether or not its transcript
    can be written. *)
Lemma v8_worker_report s :
  exists locals s1 lines,
    in_turn V8.worker_turn (enumerate (input_files s) 1) (0, 0)%Z s locals s1 /\
    stdout s1 = stdout s ++ lines /\
    Forall2 (jpeg_report (output_dir s)) (input_files s) (filter is_outcome lines) /\
    stdout (snd (V8.worker s)) = stdout s1 ++ [JpegDone (fst locals) (snd locals)].
Proof.
  destruct (v8_worker_loop_report (input_files s) 1 (0, 0)%Z s)
    as ([c e] & w & lines & cbs & E & HF).
  exists (c, e), (advance w lines cbs s), lines.
  split; [apply for_each_in_turn; exact E|].
  split; [reflexivity|]. split; [exact HF|].
  unfold V8.worker. unfold bind at 1, gets at 1. unfold bind at 1. rewrite E.
  unfold bind at 1, print at 1, modify at 1.
  unfold bind at 1, gets at 1.
  unfold bind at 1, syscall at 1.
  match goal with |- context [write_log ?t ?w0] =>
    destruct (write_log t w0) as [w1 [[]|x]] end;
    reflexivity.
Qed.

Lemma v8_dz_worker_turn_report (creator : ImageCreator) (i : Z) (src : str)
  (success : Z) s :
  exists success' w l,
    V8.dz_worker_turn creator (i, src) success s =
      (Ok success', advance w [l] [progress_var_set i] s) /\
    is_outcome l = true /\ dzi_report src l.
Proof.
  unfold V8.dz_worker_turn, V8._dz_convert_one, try_except, bind, gets, print,
    modify, ret, syscall, lift, root_after.
  destruct (path_to_file_uri src) as [uri|e] eqn:Eu.
  - destruct (ImageCreator_create creator uri
                (os_path_join (output_dir s) (_basename_no_ext src ++ lit ".dzi"))
                (world s)) as [w1 [[]|e]] eqn:Ec.
    + eexists. exists w1. eexists. unfold advance. cbn.
      split; [reflexivity|]. split; reflexivity.
    + eexists. exists w1. eexists. unfold advance. cbn.
      split; [reflexivity|]. split; reflexivity.
  - eexists. exists (world s). eexists. unfold advance. cbn.
    split; [destruct s; reflexivity|]. split; reflexivity.
Qed.

Lemma v8_dz_worker_loop_report (creator : ImageCreator) (files : list str) :
  forall (k success : Z) s,
  exists success' w lines cbs,
    for_each (enumerate files k) (V8.dz_worker_turn creator) success s =
      (Ok success', advance w lines cbs s) /\
    Forall2 dzi_report files (filter is_outcome lines).
Proof.
  induction files as [|src files IH]; intros k success s.
  - exists success, (world s), [], []. cbn [enumerate for_each].
    unfold ret. rewrite advance_nil. split; [reflexivity | constructor].
  - cbn [enumerate for_each]. unfold bind at 1.
    destruct (v8_dz_worker_turn_report creator k src success s)
      as (n1 & w1 & l1 & E1 & O1 & R1).
    rewrite E1.
    destruct (IH (k + 1)%Z n1 (advance w1 [l1] [progress_var_set k] s))
      as (n2 & w2 & l2 & c2 & E2 & F2).
    rewrite E2, advance_advance.
    exists n2, w2, ([l1] ++ l2), ([progress_var_set k] ++ c2).
    split; [reflexivity|]. cbn [app filter]. rewrite O1.
    constructor; [exact R1 | exact F2].
Qed.

(** [create_deepzoom.worker] of v8 takes the selected files one after the
    other in the order of the selection; the lines it prints on the way
    tell of them one by one, in that order; then it prints its count. *)
Lemma v8_create_deepzoom_worker_report s :
  exists success s1 lines,
    in_turn (V8.dz_worker_turn V8._dz_make_creator) (enumerate (input_files s) 1)
      0%Z s success s1 /\
    stdout s1 = stdout s ++ lines /\
    Forall2 dzi_report (input_files s) (filter is_outcome lines) /\
    stdout (snd (V8.create_deepzoom_worker s)) = stdout s1 ++ [DziDone success].
Proof.
  destruct (v8_dz_worker_loop_report V8._dz_make_creator (input_files s) 1 0 s)
    as (n & w & lines & cbs & E & HF).
  exists n, (advance w lines cbs s), lines.
  split; [apply for_each_in_turn; exact E|].
  split; [reflexivity|]. split; [exact HF|].
  unfold V8.create_deepzoom_worker. unfold bind at 1, gets at 1.
  unfold bind at 1. rewrite E.
  unfold bind at 1, print at 1, modify at 1.
  unfold bind at 1, gets at 1.
  unfold bind at 1, syscall at 1.
  match goal with |- context [write_log ?t ?w0] =>
    destruct (write_log t w0) as [w1 [[]|x]] end;
    reflexivity.
Qed.

End Pools.

Section PoolClaims.
Context {World : Type} {OP : OsPath} {O : Os} {U : Unicode} {C : Image.Convert}
  {P : Platform World}.
Implicit Type s : App World.

Lemma v7_press_save_jpeg_is_worker s (completion : list str) :
  input_files s <> [] -> output_dir s <> [] ->
  snd (os_makedirs (output_dir s) (world s)) = Ok tt ->
  exists s0,
    V7.save_jpeg s = (Ok tt, s0) /\
    executors s0 = executors s ++ [one_slot jpeg_worker] /\
    forall O' : Os,
      @V7.press World OP O' U C P V7.save_jpeg completion s =
      (let '(r, s2) := @V7.worker World OP O' U C P s0 in
       match r with Ok _ => (Ok tt, s2) | Raise e => (Raise e, s2) end).
Proof.
  intros Hf Ho Hmk. eexists. split; [apply v7_save_jpeg_starts; assumption|].
  split; [reflexivity|]. intros O'.
  apply (@v7_press_one World OP O' U C P V7.save_jpeg completion s _ jpeg_worker 1%Z);
    [apply v7_save_jpeg_starts; assumption | reflexivity].
Qed.

Lemma v8_press_save_jpeg_is_worker s :
  input_files s <> [] -> output_dir s <> [] ->
  snd (os_makedirs (output_dir s) (world s)) = Ok tt ->
  exists s0,
    V8.save_jpeg s = (Ok tt, s0) /\
    executors s0 = executors s ++ [one_slot jpeg_worker] /\
    forall O' : Os,
      @V8.press World OP O' U C P V8.save_jpeg s =
      (let '(r, s2) := @V8.worker World OP O' U C P s0 in
       match r with Ok _ => (Ok tt, s2) | Raise e => (Raise e, s2) end).
Proof.
  intros Hf Ho Hmk. eexists. split; [apply v8_save_jpeg_starts; assumption|].
  split; [reflexivity|]. intros O'.
  apply (@v8_press_one World OP O' U C P V8.save_jpeg s _ jpeg_worker 1%Z);
    [apply v8_save_jpeg_starts; assumption | reflexivity].
Qed.

Lemma for_each_ext {X L} (xs : list X) (body body' : X -> L -> M World L) :
  (forall x, In x xs -> forall l s, body x l s = body' x l s) ->
  forall l s, for_each xs body l s = for_each xs body' l s.
Proof.
  induction xs as [|x xs IH]; intros Hb l s; [reflexivity|].
  cbn [for_each]. unfold bind. rewrite Hb by (left; reflexivity).
  destruct (body' x l s) as [[l1|e] s1]; [|reflexivity].
  apply IH. intros y Hy. apply Hb. right. exact Hy.
Qed.

Lemma in_enumerate {X} (xs : list X) :
  forall k i x, In (i, x) (enumerate xs k) -> In x xs.
Proof.
  induction xs as [|y xs IH]; intros k i x; cbn [enumerate In]; [tauto|].
  intros [E|Hin]; [left; congruence | right; apply (IH _ _ _ Hin)].
Qed.

(** The URI of a file is the same on two hosts that resolve it alike. *)
Lemma path_to_file_uri_agree (cpu : option Z) (resolve : str -> result str)
  (src : str) :
  resolve src = os_path_abspath src ->
  @path_to_file_uri (with_selector_inputs cpu resolve O) src = path_to_file_uri src.
Proof.
  intros E. unfold path_to_file_uri.
  cbn [with_selector_inputs os_path_abspath quote Path_as_uri].
  rewrite E. reflexivity.
Qed.

(** [create_deepzoom.worker] of v8 looks at the host's path resolution for
    the URIs of the selected files and at nothing else of what the
    worker-count selector reads. *)
Lemma v8_create_deepzoom_worker_agree (cpu : option Z)
  (resolve : str -> result str) s :
  (forall f, In f (input_files s) -> resolve f = os_path_abspath f) ->
  @V8.create_deepzoom_worker World OP (with_selector_inputs cpu resolve O) P s
  = V8.create_deepzoom_worker s.
Proof.
  intros Hr. unfold V8.create_deepzoom_worker.
  unfold bind at 1 3, gets at 1 3. unfold bind at 1 3.
  rewrite (@for_each_ext _ _ (enumerate (input_files s) 1)
             (@V8.dz_worker_turn World OP (with_selector_inputs cpu resolve O) P
                V8._dz_make_creator)
             (V8.dz_worker_turn V8._dz_make_creator)); [reflexivity|].
  intros [i src] Hin success s'. apply in_enumerate in Hin.
  unfold V8.dz_worker_turn, V8._dz_convert_one.
  rewrite (path_to_file_uri_agree cpu resolve src (Hr src Hin)). reflexivity.
Qed.

(** C5, amended.  After a press that starts a batch:
    - the JPEG batch, in both revisions, has made one thread pool with one
      slot and given it one task, the worker; from the state the handler
      left, the worker takes the selected files one after the other in
      the order of the selection, each turn starting where the turn
      before ended; the lines printed on the way tell how each file
      fared, one line a file, in that order; and the run is the same on
      any host that differs only in what the worker-count selector looks
      at (core count, resolution of paths);
    - the v7 DeepZoom batch has made, besides the one-slot pool of its
      driver, a pool whose size is the value of the selector, and has
      given it one job per file in the order of the selection;
    - the v8 DeepZoom batch has made one pool with one slot for its single
      worker, whatever the selector would say; the worker takes the
      selected files one after the other in the order of the selection,
      and the lines printed on the way tell how each file fared, in that
      order; and the run is the same on any host with another
      core count and another resolution of paths, as long as the selected
      files, whose URIs the worker builds, resolve alike. *)
Theorem jpeg_one_slot_deepzoom_pool_by_revision s (completion : list str)
  (Hfiles : input_files s <> []) (Hout : output_dir s <> [])
  (Hmk : snd (os_makedirs (output_dir s) (world s)) = Ok tt) :
  executors (snd (V7.press V7.save_jpeg completion s))
    = executors s ++ [one_slot jpeg_worker] /\
  executors (snd (V8.press V8.save_jpeg s))
    = executors s ++ [one_slot jpeg_worker] /\
  (exists locals s1 lines,
     in_turn V7.worker_turn (enumerate (input_files s) 1) (0, 0)%Z
       (snd (V7.save_jpeg s)) locals s1 /\
     stdout s1 = stdout s ++ lines /\
     Forall2 (jpeg_report (output_dir s)) (input_files s)
       (filter is_outcome lines) /\
     stdout (snd (V7.press V7.save_jpeg completion s))
       = stdout s1 ++ [JpegDone (fst locals) (snd locals)]) /\
  (exists locals s1 lines,
     in_turn V8.worker_turn (enumerate (input_files s) 1) (0, 0)%Z
       (snd (V8.save_jpeg s)) locals s1 /\
     stdout s1 = stdout s ++ lines /\
     Forall2 (jpeg_report (output_dir s)) (input_files s)
       (filter is_outcome lines) /\
     stdout (snd (V8.press V8.save_jpeg s))
       = stdout s1 ++ [JpegDone (fst locals) (snd locals)]) /\
  (forall cpu resolve,
     @V7.press World OP (with_selector_inputs cpu resolve O) U C P
       V7.save_jpeg completion s
     = V7.press V7.save_jpeg completion s) /\
  (forall cpu resolve,
     @V8.press World OP (with_selector_inputs cpu resolve O) U C P V8.save_jpeg s
     = V8.press V8.save_jpeg s) /\
  (HAS_DEEPZOOM = true ->
   let workers := V8._auto_workers (input_files s) (output_dir s) in
   (forall s', fst (V7._auto_workers (input_files s) (output_dir s) s') = Ok workers) /\
   executors (snd (V7.press V7.create_deepzoom completion s))
     = executors s
       ++ [one_slot (dz_run_parallel workers);
           {| max_workers := workers; submitted := map dz_job (input_files s) |}] /\
   executors (snd (V8.press V8.create_deepzoom s))
     = executors s ++ [one_slot dz_worker] /\
   (exists success s1 lines,
      in_turn (V8.dz_worker_turn V8._dz_make_creator)
        (enumerate (input_files s) 1) 0%Z (snd (V8.create_deepzoom s))
        success s1 /\
      stdout s1 = stdout s ++ lines /\
      Forall2 dzi_report (input_files s) (filter is_outcome lines) /\
      stdout (snd (V8.press V8.create_deepzoom s)) = stdout s1 ++ [DziDone success]) /\
   (forall cpu resolve,
      (forall f, In f (input_files s) -> resolve f = os_path_abspath f) ->
      @V8.press World OP (with_selector_inputs cpu resolve O) U C P
        V8.create_deepzoom s
      = V8.press V8.create_deepzoom s)).
Proof.
  destruct (v7_press_save_jpeg_is_worker s completion Hfiles Hout Hmk)
    as (s7 & E7 & X7 & P7).
  destruct (v8_press_save_jpeg_is_worker s Hfiles Hout Hmk)
    as (s8 & E8 & X8 & P8).
  split; [|split; [|split; [|split; [|split; [|split]]]]].
  - destruct (v7_jpeg_batch s completion Hfiles Hout Hmk)
      as (c & e & l & s1 & Ep & _ & _ & _ & _ & _ & _ & _ & _ & Hx).
    rewrite Ep. exact Hx.
  - rewrite (P8 O). pose proof (v8_worker_executors s8) as Hx.
    destruct (V8.worker s8) as [[[]|x] s2]; cbn [snd] in *; rewrite Hx; exact X8.
  - rewrite (P7 O), E7. cbn [snd].
    rewrite (v7_save_jpeg_starts s Hfiles Hout Hmk) in E7. injection E7 as <-.
    match goal with |- context [V7.worker ?st] =>
      destruct (v7_worker_report st) as (locals & s1 & lines & Ht & Hst & HF & Hend);
      destruct (V7.worker st) as [[[]|x] s2] end;
      exists locals, s1, lines; repeat split; assumption.
  - rewrite (P8 O), E8. cbn [snd].
    rewrite (v8_save_jpeg_starts s Hfiles Hout Hmk) in E8. injection E8 as <-.
    match goal with |- context [V8.worker ?st] =>
      destruct (v8_worker_report st) as (locals & s1 & lines & Ht & Hst & HF & Hend);
      destruct (V8.worker st) as [[[]|x] s2] end;
      exists locals, s1, lines; repeat split; assumption.
  - intros cpu resolve. rewrite (P7 (with_selector_inputs cpu resolve O)), (P7 O).
    reflexivity.
  - intros cpu resolve. rewrite (P8 (with_selector_inputs cpu resolve O)), (P8 O).
    reflexivity.
  - intros Hdz workers.
    pose proof (v8_create_deepzoom_starts s Hdz Hfiles Hout Hmk) as Hs.
    match type of Hs with _ = (_, ?st) => set (s0 := st) in * end.
    split; [|split; [|split; [|split]]].
    + intros s'. apply auto_workers_v7_v8.
    + destruct (v7_deepzoom_batch s completion Hdz Hfiles Hout Hmk)
        as (c & k & e & l & s1 & Ep & _ & _ & _ & _ & _ & _ & _ & _ & _ & Hx).
      rewrite Ep. exact Hx.
    + rewrite (@v8_press_one World OP O U C P V8.create_deepzoom s s0 dz_worker 1%Z
                 Hs eq_refl).
      cbn [V8.run_task].
      pose proof (v8_create_deepzoom_worker_executors s0) as Hx.
      destruct (V8.create_deepzoom_worker s0) as [[[]|x] s2]; cbn [snd] in *;
        rewrite Hx; reflexivity.
    + rewrite (@v8_press_one World OP O U C P V8.create_deepzoom s s0 dz_worker 1%Z
                 Hs eq_refl).
      cbn [V8.run_task].
      rewrite Hs. cbn [snd].
      destruct (v8_create_deepzoom_worker_report s0)
        as (n & s1 & lines & Ht & Hst & HF & Hend).
      destruct (V8.create_deepzoom_worker s0) as [[[]|x] s2];
        exists n, s1, lines; repeat split; assumption.
    + intros cpu resolve Hr.
      rewrite (@v8_press_one World OP O U C P V8.create_deepzoom s s0 dz_worker 1%Z
                 Hs eq_refl).
      rewrite (@v8_press_one World OP (with_selector_inputs cpu resolve O) U C P
                 V8.create_deepzoom s s0 dz_worker 1%Z Hs eq_refl).
      cbn [V8.run_task].
      rewrite (v8_create_deepzoom_worker_agree cpu resolve s0 Hr). reflexivity.
Qed.

End PoolClaims.

Lemma jpeg_one_slot_deepzoom_pool_by_revision_witness :
  let s := Sample.app Sample.files (lit "D:\out") in
  executors (snd (@V7.press Sample.Disk ntpath.os_path (Sample.os (Some 8%Z))
                    Sample.unicode Sample.pillow (Sample.platform true)
                    (@V7.save_jpeg Sample.Disk (Sample.platform true))
                    Sample.files s))
    = [one_slot jpeg_worker] /\
  executors (snd (@V7.press Sample.Disk ntpath.os_path (Sample.os (Some 8%Z))
                    Sample.unicode Sample.pillow (Sample.platform true)
                    (@V7.create_deepzoom Sample.Disk (Sample.os (Some 8%Z))
                       (Sample.platform true))
                    Sample.files s))
    = [one_slot (dz_run_parallel 3);
       {| max_workers := 3; submitted := map dz_job Sample.files |}].
Proof.
  intros s.
  destruct (@jpeg_one_slot_deepzoom_pool_by_revision Sample.Disk ntpath.os_path
              (Sample.os (Some 8%Z)) Sample.unicode Sample.pillow
              (Sample.platform true) s Sample.files
              ltac:(discriminate) ltac:(discriminate) eq_refl)
    as (J7 & _ & _ & _ & _ & _ & D).
  destruct (D eq_refl) as (_ & D7 & _).
  split; [exact J7 | exact D7].
Defined.

(** C5, as first stated, fails for the v8 DeepZoom batch: with three local
    files and eight cores the selector says 3, and the only thread pool of
    the batch has one slot, for the single worker that loops over the
    files. *)
Lemma v8_deepzoom_runs_on_one_slot :
  let s := Sample.app Sample.files (lit "D:\out") in
  executors (snd (@V8.press Sample.Disk ntpath.os_path (Sample.os (Some 8%Z))
                    Sample.unicode Sample.pillow (Sample.platform true)
                    (@V8.create_deepzoom Sample.Disk (Sample.platform true)) s))
    = [{| max_workers := 1; submitted := [dz_worker] |}] /\
  @V8._auto_workers (Sample.os (Some 8%Z)) Sample.files (lit "D:\out") = 3%Z.
Proof. split; vm_compute; reflexivity. Qed.

(** ** Revision 8 beside revision 7

    The v8 JPEG loop leaves a turn through [continue] when the file is
    missing, before the progress update of that turn: with [a.tif] present
    and [missing.tif] absent the tally still adds up to 2, and the progress
    count ends at 1. *)
Lemma v8_jpeg_progress_misses_skipped_file :
  let s := Sample.app [lit "C:\scans\a.tif"; lit "C:\scans\missing.tif"] (lit "D:\out") in
  let run := @V8.press Sample.Disk ntpath.os_path (Sample.os (Some 8%Z))
               Sample.unicode Sample.pillow (Sample.platform true)
               (@V8.save_jpeg Sample.Disk (Sample.platform true)) s in
  fst run = Ok tt /\
  dialogs (mainloop (snd run)) = [showinfo_jpeg 1 1] /\
  progress_writes (after_queue (snd run)) = [1%Z] /\
  progress_var (mainloop (snd run)) = 1%Z /\
  progress_max (mainloop (snd run)) = 2%Z.
Proof. vm_compute. repeat split. Qed.

(** The v8 DeepZoom loop does not look whether the file exists and keeps
    one counter, [success]. *)
Lemma v8_deepzoom_counts_successes_only :
  let s := Sample.app Sample.files (lit "D:\out") in
  let run := @V8.press Sample.Disk ntpath.os_path (Sample.os (Some 8%Z))
               Sample.unicode Sample.pillow (Sample.platform true)
               (@V8.create_deepzoom Sample.Disk (Sample.platform true)) s in
  fst run = Ok tt /\
  dialogs (mainloop (snd run)) = [showinfo_dzi 2] /\
  progress_var (mainloop (snd run)) = 3%Z.
Proof. vm_compute. repeat split. Qed.

(* ===================================================================== *)
(** * Further properties of the code *)

(** ** The guards of the two buttons *)

Section Guards.
Context {World : Type} `{OsPath} `{Os} `{Unicode} `{Image.Convert} `{Platform World}.
Implicit Type s : App World.

Lemma nothing_selected s :
  input_files s = [] \/ output_dir s = [] ->
  negb (truthy (input_files s)) || negb (truthy (output_dir s)) = true.
Proof.
  intros [E|E]; rewrite E; cbn; [reflexivity | apply orb_true_r].
Qed.

(** X1.  Pressing either button with no file selected or no output folder
    chosen shows the "Missing input" box and does nothing else: no folder
    is made, no pool is created, nothing is printed or scheduled, and the
    progress state stays as it was.  For the DeepZoom button this is the
    second guard, reached when the backend is there. *)
Theorem missing_selection_reports_once s (completion : list str)
  (Hmissing : input_files s = [] \/ output_dir s = []) :
  V7.press V7.save_jpeg completion s =
    (Ok tt, shown (showerror "Missing input"
                     "Select input image(s) and an output folder first.") s) /\
  V8.press V8.save_jpeg s =
    (Ok tt, shown (showerror "Missing input"
                     "Select image(s) and output folder first.") s) /\
  (HAS_DEEPZOOM = true ->
   V7.press V7.create_deepzoom completion s =
     (Ok tt, shown (showerror "Missing input"
                      "Select input image(s) and an output folder first.") s) /\
   V8.press V8.create_deepzoom s =
     (Ok tt, shown (showerror "Missing input" "Select files and output folder.") s)).
Proof.
  pose proof (nothing_selected s Hmissing) as G.
  split; [|split].
  - apply v7_press_none; [|reflexivity].
    unfold V7.save_jpeg. rewrite !bind_gets, G. reflexivity.
  - apply v8_press_none; [|reflexivity].
    unfold V8.save_jpeg. rewrite !bind_gets, G. reflexivity.
  - intros Hdz. split.
    + apply v7_press_none; [|reflexivity].
      unfold V7.create_deepzoom. rewrite Hdz. cbn [negb].
      rewrite !bind_gets, G. reflexivity.
    + apply v8_press_none; [|reflexivity].
      unfold V8.create_deepzoom. rewrite Hdz. cbn [negb].
      rewrite !bind_gets, G. reflexivity.
Qed.

Lemma press_raises_v7 (handler : M World unit) (completion : list str) s s1 e :
  handler s = (Raise e, s1) -> V7.press handler completion s = (Raise e, s1).
Proof.
  intros Hh. unfold V7.press. rewrite bind_gets. unfold bind at 1. rewrite Hh.
  reflexivity.
Qed.

Lemma press_raises_v8 (handler : M World unit) s s1 e :
  handler s = (Raise e, s1) -> V8.press handler s = (Raise e, s1).
Proof.
  intros Hh. unfold V8.press. rewrite bind_gets. unfold bind at 1. rewrite Hh.
  reflexivity.
Qed.

(** X2.  When the output folder cannot be made, [os.makedirs] raising [e],
    the press ends with that exception before anything else is done: no
    pool is created, nothing is printed, shown or scheduled, the progress
    state and the busy flag keep their values; only the world is as
    [os.makedirs] left it. *)
Theorem makedirs_failure_stops_the_press s (completion : list str)
  (w1 : World) (e : exn)
  (Hfiles : input_files s <> []) (Hout : output_dir s <> [])
  (Hmk : os_makedirs (output_dir s) (world s) = (w1, Raise e)) :
  V7.press V7.save_jpeg completion s = (Raise e, set_world w1 s) /\
  V8.press V8.save_jpeg s = (Raise e, set_world w1 s) /\
  (HAS_DEEPZOOM = true ->
   V7.press V7.create_deepzoom completion s = (Raise e, set_world w1 s) /\
   V8.press V8.create_deepzoom s = (Raise e, set_world w1 s)).
Proof.
  split; [|split].
  - apply press_raises_v7. unfold V7.save_jpeg. rewrite !bind_gets.
    rewrite (truthy_true Hfiles), (truthy_true Hout). cbn [negb orb].
    unfold bind at 1, syscall at 1. rewrite Hmk. reflexivity.
  - apply press_raises_v8. unfold V8.save_jpeg. rewrite !bind_gets.
    rewrite (truthy_true Hfiles), (truthy_true Hout). cbn [negb orb].
    unfold bind at 1, syscall at 1. rewrite Hmk. reflexivity.
  - intros Hdz. split.
    + apply press_raises_v7. unfold V7.create_deepzoom. rewrite Hdz. cbn [negb].
      rewrite !bind_gets.
      rewrite (truthy_true Hfiles), (truthy_true Hout). cbn [negb orb].
      unfold bind at 1, syscall at 1. rewrite Hmk. reflexivity.
    + apply press_raises_v8. unfold V8.create_deepzoom. rewrite Hdz. cbn [negb].
      rewrite !bind_gets.
      rewrite (truthy_true Hfiles), (truthy_true Hout). cbn [negb orb].
      unfold bind at 1, syscall at 1. rewrite Hmk. reflexivity.
Qed.

End Guards.

Lemma missing_selection_reports_once_witness :
  let s := Sample.app Sample.files [] in
  @V7.press Sample.Disk ntpath.os_path (Sample.os (Some 8%Z)) Sample.unicode
    Sample.pillow (Sample.platform true)
    (@V7.save_jpeg Sample.Disk (Sample.platform true)) Sample.files s
  = (Ok tt, shown (showerror "Missing input"
                     "Select input image(s) and an output folder first.") s) /\
  @V8.press Sample.Disk ntpath.os_path (Sample.os (Some 8%Z)) Sample.unicode
    Sample.pillow (Sample.platform true)
    (@V8.create_deepzoom Sample.Disk (Sample.platform true)) s
  = (Ok tt, shown (showerror "Missing input" "Select files and output folder.") s).
Proof.
  intros s.
  destruct (@missing_selection_reports_once Sample.Disk ntpath.os_path
              (Sample.os (Some 8%Z)) Sample.unicode Sample.pillow
              (Sample.platform true) s Sample.files (or_intror eq_refl))
    as (J7 & _ & D).
  split; [exact J7 | exact (proj2 (D eq_refl))].
Defined.

Lemma makedirs_failure_stops_the_press_witness :
  let s := Sample.app Sample.files (lit "D:\out") in
  @V7.press Sample.Disk ntpath.os_path (Sample.os (Some 8%Z)) Sample.unicode
    Sample.pillow (Fixtures.readonly true)
    (@V7.save_jpeg Sample.Disk (Fixtures.readonly true)) Sample.files s
  = (Raise (OSError "read-only file system"), s) /\
  @V7.press Sample.Disk ntpath.os_path (Sample.os (Some 8%Z)) Sample.unicode
    Sample.pillow (Fixtures.readonly true)
    (@V7.create_deepzoom Sample.Disk (Sample.os (Some 8%Z)) (Fixtures.readonly true))
    Sample.files s
  = (Raise (OSError "read-only file system"), s).
Proof.
  intros s.
  destruct (@makedirs_failure_stops_the_press Sample.Disk ntpath.os_path
              (Sample.os (Some 8%Z)) Sample.unicode Sample.pillow
              (Fixtures.readonly true) s Sample.files Sample.disk
              (OSError "read-only file system")
              ltac:(discriminate) ltac:(discriminate) eq_refl)
    as (J7 & _ & D).
  split; [exact J7 | exact (proj1 (D eq_refl))].
Defined.

(** ** The busy flag of revision 7 *)

Section Busy.
Context {World : Type} `{OsPath} `{Os} `{Unicode} `{Image.Convert} `{Platform World}.
Implicit Type s : App World.

Lemma run_callbacks_keep_queue (cbs : list callback) :
  forall s, after_queue (fold_left (fun s cb => run_callback cb s) cbs s)
            = after_queue s.
Proof.
  induction cbs as [|cb cbs IH]; intros s; cbn [fold_left]; [reflexivity|].
  rewrite IH. destruct cb; reflexivity.
Qed.

(** The event loop on a queue that ends with the three closing callbacks
    of a v7 batch. *)
Lemma mainloop_closing s (q : list callback) (d : dialog) :
  after_queue s = q ++ [elapsed_total_set; set_busy_cb false; messagebox d] ->
  busy (mainloop s) = false /\
  elapsed_total (mainloop s) = LastRunElapsed /\
  after_queue (mainloop s) = [].
Proof.
  intros Hq. unfold mainloop. split; [|split].
  - rewrite Hq, fold_left_app. reflexivity.
  - rewrite Hq, fold_left_app. reflexivity.
  - rewrite run_callbacks_keep_queue. reflexivity.
Qed.

(** X3.  A v7 batch, once started, holds the buttons disabled until its
    last callbacks run, whatever happens to the files: after the press the
    busy flag is set and the elapsed text is blank; when the event loop has
    run the callbacks, the buttons are released, the elapsed text is set
    and no callback is left.  The batch itself never raises. *)
Theorem v7_buttons_held_then_released s (completion : list str)
  (Hfiles : input_files s <> []) (Hout : output_dir s <> [])
  (Hmk : snd (os_makedirs (output_dir s) (world s)) = Ok tt) :
  (exists s1,
     V7.press V7.save_jpeg completion s = (Ok tt, s1) /\
     busy s1 = true /\ elapsed_total s1 = Blank /\
     busy (mainloop s1) = false /\
     elapsed_total (mainloop s1) = LastRunElapsed /\
     after_queue (mainloop s1) = []) /\
  (HAS_DEEPZOOM = true ->
   exists s1,
     V7.press V7.create_deepzoom completion s = (Ok tt, s1) /\
     busy s1 = true /\ elapsed_total s1 = Blank /\
     busy (mainloop s1) = false /\
     elapsed_total (mainloop s1) = LastRunElapsed /\
     after_queue (mainloop s1) = []).
Proof.
  split.
  - pose proof (v7_save_jpeg_starts s Hfiles Hout Hmk) as Hs.
    match type of Hs with _ = (_, ?st) => set (s0 := st) in * end.
    destruct (v7_worker_spec s0) as (w & lines & c & e & Ew & _).
    eexists. split.
    + rewrite (@v7_press_one _ _ _ _ _ _ V7.save_jpeg completion s s0 jpeg_worker
                 1%Z Hs eq_refl).
      cbn [V7.run_task]. rewrite Ew. reflexivity.
    + split; [reflexivity|]. split; [reflexivity|].
      eapply mainloop_closing. cbn [after_queue]. rewrite app_assoc. reflexivity.
  - intros Hdz.
    pose proof (v7_create_deepzoom_starts s Hdz Hfiles Hout Hmk) as Hs.
    cbn zeta in Hs.
    match type of Hs with _ = (_, ?st) => set (s0 := st) in * end.
    destruct (v7_run_parallel_spec
                (V8._auto_workers (input_files s) (output_dir s)) completion s0)
      as (w & lines & c & k & e & Ew & _).
    eexists. split.
    + rewrite (@v7_press_one _ _ _ _ _ _ V7.create_deepzoom completion s s0
                 (dz_run_parallel (V8._auto_workers (input_files s) (output_dir s)))
                 1%Z Hs eq_refl).
      cbn [V7.run_task]. rewrite Ew. reflexivity.
    + split; [reflexivity|]. split; [reflexivity|].
      eapply mainloop_closing. cbn [after_queue]. rewrite app_assoc. reflexivity.
Qed.

Lemma set_world_same s : set_world (world s) s = s.
Proof. destruct s. reflexivity. Qed.

(** X4.  [job(src)] of v7 never raises and touches nothing but the world:
    it returns a triple whose status is "ok", "skip" or "err" and whose
    source is [src]; the status is "skip" exactly when the file does not
    exist, and then the world is untouched and the info is "not found". *)
Theorem v7_job_returns_an_outcome (src : str) s :
  exists status info w,
    V7.job src s = (Ok (status, src, info), set_world w s) /\
    (status = "ok" \/ status = "skip" \/ status = "err")%string /\
    (status = "skip"%string <-> os_path_exists src (world s) = false) /\
    (os_path_exists src (world s) = false -> w = world s /\ info = lit "not found").
Proof.
  unfold V7.job, V7._dz_convert_one, try_except, bind, V7.exists_, gets, ret,
    syscall, lift.
  destruct (os_path_exists src (world s)) eqn:Ex; cbn [negb].
  - destruct (path_to_file_uri src) as [uri|e] eqn:Eu.
    + destruct (ImageCreator_create V7._dz_make_creator uri
                  (os_path_join (output_dir s) (_basename_no_ext src ++ lit ".dzi"))
                  (world s)) as [w1 [[]|e]] eqn:Ec.
      * exists "ok"%string. eexists. exists w1. split; [reflexivity|].
        split; [auto|]. split; [split; discriminate | discriminate].
      * exists "err"%string. eexists. exists w1. split; [reflexivity|].
        split; [auto|]. split; [split; discriminate | discriminate].
    + exists "err"%string. eexists. exists (world s).
      split; [rewrite set_world_same; reflexivity|].
      split; [auto|]. split; [split; discriminate | discriminate].
  - exists "skip"%string, (lit "not found"), (world s).
    split; [rewrite set_world_same; reflexivity|].
    split; [auto|]. split; [split; reflexivity | auto].
Qed.

End Busy.

Lemma v7_buttons_held_then_released_witness :
  let s := Sample.app Sample.files (lit "D:\out") in
  exists s1,
    @V7.press Sample.Disk ntpath.os_path (Sample.os (Some 8%Z)) Sample.unicode
      Sample.pillow (Sample.platform true)
      (@V7.save_jpeg Sample.Disk (Sample.platform true)) Sample.files s
    = (Ok tt, s1) /\
    busy s1 = true /\ busy (mainloop s1) = false.
Proof.
  intros s.
  destruct (@v7_buttons_held_then_released Sample.Disk ntpath.os_path
              (Sample.os (Some 8%Z)) Sample.unicode Sample.pillow
              (Sample.platform true) s Sample.files
              ltac:(discriminate) ltac:(discriminate) eq_refl)
    as ((s1 & E & Hb & _ & Hr & _) & _).
  exists s1. repeat split; assumption.
Defined.

Lemma v7_job_returns_an_outcome_witness :
  let s := Sample.app Sample.files (lit "D:\out") in
  exists status info w,
    @V7.job Sample.Disk ntpath.os_path (Sample.os (Some 8%Z)) (Sample.platform true)
      (lit "C:\scans\missing.tif") s
    = (Ok (status, lit "C:\scans\missing.tif", info), set_world w s) /\
    status = "skip"%string /\ info = lit "not found".
Proof.
  intros s.
  destruct (@v7_job_returns_an_outcome Sample.Disk ntpath.os_path
              (Sample.os (Some 8%Z)) (Sample.platform true)
              (lit "C:\scans\missing.tif") s)
    as (status & info & w & E & _ & Hskip & Hm).
  exists status, info, w. split; [exact E|].
  split; [apply Hskip; reflexivity | apply Hm; reflexivity].
Defined.

(** ** The workers of revision 8 *)

Section Revision8.
Context {World : Type} `{OsPath} `{Os} `{Unicode} `{Image.Convert} `{Platform World}.
Implicit Type s : App World.

Lemma v8_worker_turn_progress (i : Z) (src : str) (converted errors : Z) s :
  exists w lines converted' errors',
    V8.worker_turn (i, src) (converted, errors) s =
      (Ok (converted', errors'),
       advance w lines (map progress_var_set (v8_update i src s)) s) /\
    converted' = (converted + tally reports_ok lines)%Z /\
    errors' = (errors + tally reports_skipped lines + tally reports_error lines)%Z /\
    (tally reports_ok lines + tally reports_error lines
     = len (v8_update i src s))%Z /\
    (tally reports_skipped lines = 1 - len (v8_update i src s))%Z.
Proof.
  unfold V8.worker_turn, try_except, bind, V8.exists_, gets, print, modify, ret,
    syscall, lift, root_after, v8_update.
  destruct (os_path_exists src (world s)) eqn:Ex; cbn [negb].
  - cbn -[safe V8._ensure_rgb].
    destruct (Image_open src (world s)) as [w1 [im|e]] eqn:Eo; cbn -[safe V8._ensure_rgb].
    + destruct (V8._ensure_rgb im) as [im'|e] eqn:En; cbn -[safe V8._ensure_rgb].
      * destruct (Image_save im' _ V8.jpeg_options w1) as [w2 [[]|e]] eqn:Es;
          cbn -[safe V8._ensure_rgb].
        -- exists w2. eexists. exists (converted + 1)%Z, errors.
           split; [unfold advance; cbn; reflexivity|]. cbn. repeat split; lia.
        -- exists w2. eexists. exists converted, (errors + 1)%Z.
           split; [unfold advance; cbn; reflexivity|]. cbn. repeat split; lia.
      * exists w1. eexists. exists converted, (errors + 1)%Z.
        split; [unfold advance; cbn; reflexivity|]. cbn. repeat split; lia.
    + exists w1. eexists. exists converted, (errors + 1)%Z.
      split; [unfold advance; cbn; reflexivity|]. cbn. repeat split; lia.
  - exists (world s), [JpegSkipped src], converted, (errors + 1)%Z.
    split; [unfold advance; cbn; rewrite app_nil_r; destruct s; reflexivity|].
    cbn. repeat split; lia.
Qed.

Lemma len_app {A} (a b : list A) : len (a ++ b) = (len a + len b)%Z.
Proof. unfold len. rewrite length_app. lia. Qed.

Lemma v8_worker_loop_progress (files : list str) :
  forall (k converted errors : Z) s,
  exists w lines writes converted' errors',
    for_each (enumerate files k) V8.worker_turn (converted, errors) s =
      (Ok (converted', errors'), advance w lines (map progress_var_set writes) s) /\
    converted' = (converted + tally reports_ok lines)%Z /\
    errors' = (errors + tally reports_skipped lines + tally reports_error lines)%Z /\
    (tally reports_ok lines + tally reports_error lines = len writes)%Z /\
    (tally reports_skipped lines = len files - len writes)%Z /\
    Forall (fun v => (k <= v < k + len files)%Z) writes.
Proof.
  induction files as [|src files IH]; intros k converted errors s.
  - exists (world s), [], [], converted, errors. cbn [enumerate for_each map].
    unfold ret. rewrite advance_nil. cbn. repeat split; try lia. constructor.
  - cbn [enumerate for_each]. unfold bind at 1.
    destruct (v8_worker_turn_progress k src converted errors s)
      as (w1 & l1 & c1 & e1 & E1 & Hc1 & He1 & Hd1 & Hs1).
    rewrite E1.
    destruct (IH (k + 1)%Z c1 e1
                (advance w1 l1 (map progress_var_set (v8_update k src s)) s))
      as (w2 & l2 & q2 & c2 & e2 & E2 & Hc2 & He2 & Hd2 & Hs2 & Hb2).
    rewrite E2, advance_advance, <- map_app.
    exists w2, (l1 ++ l2), (v8_update k src s ++ q2), c2, e2.
    split; [reflexivity|].
    rewrite !tally_app, len_app.
    assert (Hlen : len (src :: files) = (1 + len files)%Z)
      by (unfold len; cbn [length]; lia).
    rewrite Hlen.
    repeat split; try lia.
    apply Forall_app. split.
    + unfold v8_update. destruct (os_path_exists src (world s)); constructor;
        [pose proof (len_cons_pos src files); unfold len in *; lia | constructor].
    + eapply Forall_impl; [|exact Hb2]. cbv beta. intros; lia.
Qed.

(** X5.  The JPEG loop of v8, for every list of files: the tally adds up
    to the number of files, as in v7, but a progress update is scheduled
    only for the files that were not skipped, since a missing file leaves
    its turn through [continue]: the number of updates is the number of
    files less the number of skipped lines, and each update lies between 1
    and the number of files. *)
Theorem v8_jpeg_loop_updates_progress_for_found_files s :
  exists w lines writes converted errors,
    for_each (enumerate (input_files s) 1) V8.worker_turn (0, 0)%Z s =
      (Ok (converted, errors), advance w lines (map progress_var_set writes) s) /\
    (converted + errors = len (input_files s))%Z /\
    (len writes = len (input_files s) - tally reports_skipped lines)%Z /\
    Forall (fun v => (1 <= v <= len (input_files s))%Z) writes.
Proof.
  destruct (v8_worker_loop_progress (input_files s) 1 0 0 s)
    as (w & lines & writes & c & e & E & Hc & He & Hd & Hs & Hb).
  exists w, lines, writes, c, e. split; [exact E|].
  repeat split; try lia.
  eapply Forall_impl; [|exact Hb]. cbv beta. intros; lia.
Qed.

(** X6.  [save_jpeg.worker] of v8 hands the whole transcript to the log
    file, the lines printed before this run included, and opens the
    closing box only if that write succeeds: when it raises, the worker
    ends with the exception after all files were handled, and no box is
    scheduled. *)
Theorem v8_jpeg_worker_logs_then_reports s :
  exists w lines writes converted errors,
    let transcript := (stdout s ++ lines) ++ [JpegDone converted errors] in
    (converted + errors = len (input_files s))%Z /\
    V8.worker s =
      (match snd (write_log transcript w) with
       | Ok _ => Ok tt
       | Raise x => Raise x
       end,
       advance (fst (write_log transcript w)) (lines ++ [JpegDone converted errors])
         (map progress_var_set writes
          ++ match snd (write_log transcript w) with
             | Ok _ => [messagebox (showinfo_jpeg converted errors)]
             | Raise _ => []
             end) s).
Proof.
  destruct (v8_worker_loop_progress (input_files s) 1 0 0 s)
    as (w & lines & writes & c & e & E & Hc & He & Hd & Hs & Hb).
  exists w, lines, writes, c, e. cbv zeta. split; [lia|].
  unfold V8.worker. rewrite bind_gets. unfold bind at 1. rewrite E.
  cbv beta iota. rewrite bind_print.
  unfold advance at 1. unfold set_stdout at 1. read_state.
  rewrite bind_gets. read_state.
  unfold bind at 1, syscall at 1. read_state.
  destruct (write_log ((stdout s ++ lines) ++ [JpegDone c e]) w) as [w' [[]|x]];
    cbn [fst snd].
  - unfold root_after, modify. read_state. rewrite <- !app_assoc. reflexivity.
  - read_state. rewrite <- !app_assoc, app_nil_r. reflexivity.
Qed.

Lemma v8_dz_worker_turn_tally (creator : ImageCreator) (i : Z) (src : str)
  (success : Z) s :
  exists w lines success',
    V8.dz_worker_turn creator (i, src) success s =
      (Ok success', advance w lines [progress_var_set i] s) /\
    success' = (success + tally reports_ok lines)%Z /\
    (tally reports_ok lines + tally reports_error lines = 1)%Z /\
    tally reports_skipped lines = 0%Z.
Proof.
  unfold V8.dz_worker_turn, V8._dz_convert_one, try_except, bind, gets, print,
    modify, ret, syscall, lift, root_after.
  destruct (path_to_file_uri src) as [uri|e] eqn:Eu.
  - destruct (ImageCreator_create creator uri
                (os_path_join (output_dir s) (_basename_no_ext src ++ lit ".dzi"))
                (world s)) as [w1 [[]|e]] eqn:Ec.
    + exists w1. eexists. exists (success + 1)%Z.
      split; [unfold advance; cbn; reflexivity|]. cbn. repeat split; lia.
    + exists w1. eexists. exists success.
      split; [unfold advance; cbn; reflexivity|]. cbn. repeat split; lia.
  - exists (world s). eexists. exists success.
    split; [unfold advance; cbn; destruct s; reflexivity|]. cbn. repeat split; lia.
Qed.

Lemma v8_dz_worker_loop_tally (creator : ImageCreator) (files : list str) :
  forall (k success : Z) s,
  exists w lines success',
    for_each (enumerate files k) (V8.dz_worker_turn creator) success s =
      (Ok success',
       advance w lines (map progress_var_set (upto k (length files))) s) /\
    success' = (success + tally reports_ok lines)%Z /\
    (tally reports_ok lines + tally reports_error lines = len files)%Z /\
    tally reports_skipped lines = 0%Z.
Proof.
  induction files as [|src files IH]; intros k success s.
  - exists (world s), [], success. cbn [enumerate for_each length upto map].
    unfold ret. rewrite advance_nil. cbn. repeat split; lia.
  - cbn [enumerate for_each length upto map]. unfold bind at 1.
    destruct (v8_dz_worker_turn_tally creator k src success s)
      as (w1 & l1 & n1 & E1 & Hn1 & Ho1 & Hs1).
    rewrite E1.
    destruct (IH (k + 1)%Z n1 (advance w1 l1 [progress_var_set k] s))
      as (w2 & l2 & n2 & E2 & Hn2 & Ho2 & Hs2).
    rewrite E2, advance_advance. exists w2, (l1 ++ l2), n2.
    split; [reflexivity|]. rewrite !tally_app.
    unfold len in *. cbn [length]. repeat split; lia.
Qed.

(** X7.  [create_deepzoom.worker] of v8, for every list of files: each
    file ends as a created line or an error line, never as a skipped one
    (the loop does not look whether the file exists); [success] counts the
    created lines, so the failures are the files less [success]; progress
    is written 1, 2, .., n; the whole transcript goes to the log file, and
    the closing box with [success] is scheduled only if that write
    succeeds. *)
Theorem v8_deepzoom_worker_counts_and_reports s :
  exists w lines success,
    let transcript := (stdout s ++ lines) ++ [DziDone success] in
    success = tally reports_ok lines /\
    (success + tally reports_error lines = len (input_files s))%Z /\
    tally reports_skipped lines = 0%Z /\
    V8.create_deepzoom_worker s =
      (match snd (write_log transcript w) with
       | Ok _ => Ok tt
       | Raise x => Raise x
       end,
       advance (fst (write_log transcript w)) (lines ++ [DziDone success])
         (map progress_var_set (upto 1 (length (input_files s)))
          ++ match snd (write_log transcript w) with
             | Ok _ => [messagebox (showinfo_dzi success)]
             | Raise _ => []
             end) s).
Proof.
  destruct (v8_dz_worker_loop_tally V8._dz_make_creator (input_files s) 1 0 s)
    as (w & lines & n & E & Hn & Ho & Hs).
  exists w, lines, n. cbv zeta.
  split; [lia|]. split; [lia|]. split; [exact Hs|].
  unfold V8.create_deepzoom_worker. rewrite bind_gets. unfold bind at 1. rewrite E.
  rewrite bind_print.
  unfold advance at 1. unfold set_stdout at 1. read_state.
  rewrite bind_gets. read_state.
  unfold bind at 1, syscall at 1. read_state.
  destruct (write_log ((stdout s ++ lines) ++ [DziDone n]) w) as [w' [[]|x]];
    cbn [fst snd].
  - unfold root_after, modify. read_state. rewrite <- !app_assoc. reflexivity.
  - read_state. rewrite <- !app_assoc, app_nil_r. reflexivity.
Qed.

End Revision8.

(** ** More on the sanitised stem *)

Lemma lstrip_head chars s :
  match lstrip chars s with
  | c :: _ => char_in c chars = false
  | [] => True
  end.
Proof.
  induction s as [|c t IH]; cbn [lstrip]; [exact I|].
  destruct (char_in c chars) eqn:E; [exact IH | exact E].
Qed.

Lemma lstrip_length chars s : (length (lstrip chars s) <= length s)%nat.
Proof.
  induction s as [|c t IH]; cbn [lstrip]; [lia|].
  destruct (char_in c chars); cbn [length]; lia.
Qed.

Lemma safe_is_map `{OsPath} `{Unicode} (src : str) :
  safe src = map (fun c => if kept c then c else 95%N) (base src).
Proof.
  unfold safe. change (lit "_") with [95%N].
  rewrite join_singletons. apply map_ext. intros c. rewrite kept_char_in. reflexivity.
Qed.

Lemma kept_underscore `{Unicode} : kept 95%N = true.
Proof. reflexivity. Qed.

Lemma kept_not_period_or_space `{Unicode} (c : char) :
  char_in c (lit ". ") = false ->
  char_in (if kept c then c else 95%N) (lit ". ") = false.
Proof. intros Hc. destruct (kept c); [exact Hc | reflexivity]. Qed.

(** X8.  The stem [save_jpeg.worker] builds has as many characters as the
    name it was made from once trailing periods and spaces are stripped,
    and no more than the name without extension; it never ends in a period
    or a space; each of its characters is one the sanitiser keeps; and it
    is the stripped name itself exactly when that name held kept
    characters only. *)
Theorem safe_shape `{OsPath} `{Unicode} (src : str) :
  length (safe src) = length (base src) /\
  (length (safe src) <= length (_basename_no_ext src))%nat /\
  ends_in_period_or_space (safe src) = false /\
  forallb kept (safe src) = true /\
  (safe src = base src <-> forallb kept (base src) = true).
Proof.
  rewrite safe_is_map.
  split; [apply length_map|].
  split.
  { rewrite length_map. unfold base, rstrip.
    rewrite length_rev, <- (length_rev (_basename_no_ext src)). apply lstrip_length. }
  split.
  { unfold ends_in_period_or_space. rewrite <- map_rev. unfold base, rstrip.
    rewrite rev_involutive.
    pose proof (lstrip_head (lit ". ") (rev (_basename_no_ext src))) as Hh.
    destruct (lstrip (lit ". ") (rev (_basename_no_ext src))) as [|c t];
      [reflexivity|].
    cbn [map]. apply kept_not_period_or_space. exact Hh. }
  split.
  { apply forallb_forall. intros c Hin. apply in_map_iff in Hin.
    destruct Hin as (d & <- & _). destruct (kept d) eqn:K; [exact K|].
    apply kept_underscore. }
  induction (base src) as [|c l IH]; cbn [map forallb]; [tauto|].
  rewrite andb_true_iff. split.
  - intros E. injection E as Ec El. split; [|apply IH; exact El].
    destruct (kept c) eqn:K; [reflexivity|]. subst c. rewrite kept_underscore in K.
    discriminate.
  - intros [K Hl]. rewrite K. f_equal. apply IH. exact Hl.
Qed.

(** ** Where the outputs land *)

Lemma str_eqb_eq (a b : str) : str_eqb a b = true -> a = b.
Proof.
  revert b. induction a as [|x a IH]; intros [|y b]; cbn; try discriminate;
    [reflexivity|].
  rewrite andb_true_iff. intros [Hx Ha]. apply N.eqb_eq in Hx. subst.
  f_equal. apply IH. exact Ha.
Qed.

Lemma rfind_from_app (c : char) (a b : str) :
  forall i acc,
    rfind_from c (a ++ b) i acc = rfind_from c b (i + len a) (rfind_from c a i acc).
Proof.
  induction a as [|x a IH]; intros i acc; cbn [app rfind_from].
  - unfold len. cbn. rewrite Z.add_0_r. reflexivity.
  - rewrite IH. f_equal. unfold len. cbn [length]. lia.
Qed.

Lemma rfind_from_absent (c : char) (s : str) :
  free_of [c] s = true -> forall i acc, rfind_from c s i acc = acc.
Proof.
  unfold free_of. induction s as [|x s IH]; intros Hf i acc; cbn [rfind_from];
    [reflexivity|].
  cbn [forallb] in Hf. apply andb_true_iff in Hf. destruct Hf as [Hx Hs].
  rewrite IH by exact Hs.
  unfold char_in in Hx. cbn in Hx. rewrite orb_false_r in Hx.
  apply negb_true_iff in Hx. rewrite Hx. reflexivity.
Qed.

(** What [rfind] returns: its default when the character does not occur,
    else the place of the last occurrence. *)
Lemma rfind_from_last (c : char) (s : str) :
  forall i acc,
    (free_of [c] s = true /\ rfind_from c s i acc = acc) \/
    exists pre post,
      s = pre ++ c :: post /\ free_of [c] post = true /\
      rfind_from c s i acc = (i + len pre)%Z.
Proof.
  induction s as [|x s IH]; intros i acc; cbn [rfind_from]; [left; auto|].
  destruct (IH (i + 1)%Z (if chr_eqb x c then i else acc))
    as [[Hf E]|(pre & post & -> & Hf & E)].
  - rewrite E. destruct (chr_eqb x c) eqn:Hx.
    + right. exists [], s. apply N.eqb_eq in Hx. subst x.
      split; [reflexivity|]. split; [exact Hf|]. unfold len. cbn. lia.
    + left. split; [|reflexivity]. unfold free_of in *. cbn [forallb].
      rewrite Hf. unfold char_in. cbn. rewrite Hx. reflexivity.
  - right. exists (x :: pre), post. split; [reflexivity|]. split; [exact Hf|].
    rewrite E. unfold len. cbn [length]. lia.
Qed.

Lemma skipn_len_app {A} (a b : list A) (n : Z) :
  n = len a -> skipn (Z.to_nat n) (a ++ b) = b.
Proof.
  intros ->. unfold len. rewrite Nat2Z.id. apply skipn_length_app.
Qed.

Lemma posix_basename_after_slash (a t : str) :
  free_of [47%N] t = true -> posixpath.basename (a ++ 47%N :: t) = t.
Proof.
  intros Ht. unfold posixpath.basename, rfind, slice_from.
  change (a ++ 47%N :: t) with (a ++ [47%N] ++ t).
  rewrite app_assoc, rfind_from_app, (@rfind_from_absent 47%N t Ht), rfind_from_app.
  cbn [rfind_from chr_eqb]. rewrite N.eqb_refl.
  apply skipn_len_app. rewrite len_app. unfold len. cbn [length]. lia.
Qed.

Lemma posix_basename_plain (t : str) :
  free_of [47%N] t = true -> posixpath.basename t = t.
Proof.
  intros Ht. unfold posixpath.basename, rfind, slice_from.
  rewrite (@rfind_from_absent 47%N t Ht). reflexivity.
Qed.

(** Under [posixpath], a name without a slash joined to a folder is the
    basename of the result. *)
Lemma posix_basename_join (out name : str) :
  free_of [47%N] name = true ->
  posixpath.basename (posixpath.join out name) = name.
Proof.
  intros Hn. unfold posixpath.join.
  assert (Hs : startswith name (lit "/") = false).
  { destruct name as [|c name]; [reflexivity|].
    unfold free_of in Hn. cbn [forallb] in Hn. apply andb_true_iff in Hn.
    destruct Hn as [Hc _]. unfold char_in in Hc. cbn in Hc.
    rewrite orb_false_r in Hc. apply negb_true_iff in Hc.
    cbn. rewrite Hc. reflexivity. }
  rewrite Hs.
  destruct out as [|o out']; [cbn [str_eqb orb app]; apply posix_basename_plain; exact Hn|].
  cbn [str_eqb orb].
  destruct (str_eqb (slice_from (o :: out') (len (o :: out') - 1)) (lit "/")) eqn:E.
  - apply str_eqb_eq in E. unfold slice_from in E.
    rewrite <- (firstn_skipn (Z.to_nat (len (o :: out') - 1)) (o :: out')), E.
    rewrite <- app_assoc. apply posix_basename_after_slash. exact Hn.
  - apply posix_basename_after_slash. exact Hn.
Qed.

Lemma free_of_app seps a b : free_of seps (a ++ b) = free_of seps a && free_of seps b.
Proof. unfold free_of. apply forallb_app. Qed.

Lemma safe_free_of_slash `{OsPath} `{Unicode} (src : str) :
  free_of [47%N] (safe src) = true.
Proof.
  rewrite safe_tidy. pose proof (tidy_clean (_basename_no_ext src)) as Hc.
  unfold free_of. apply forallb_forall. intros c Hin.
  destruct (char_in c [47%N]) eqn:E; [|reflexivity].
  unfold char_in in E. cbn in E. rewrite orb_false_r in E.
  assert (Hf : existsb forbidden (tidy (_basename_no_ext src)) = true).
  { apply existsb_exists. exists c. split; [exact Hin|].
    unfold forbidden. unfold chr_eqb in *. rewrite E. reflexivity. }
  rewrite Hc in Hf. discriminate.
Qed.

(** X9.  Under [posixpath], the path [save_jpeg.worker] writes to,
    [os.path.join(out_dir, safe + ".jpg")], names the file [safe + ".jpg"]
    itself: whatever the source path holds, the last component of the
    output path is the sanitised stem with its extension, so the file is
    not written under another name or into a folder the source path
    names. *)
Theorem posix_jpeg_lands_on_its_stem (U : Unicode) (out_dir src : str) :
  posixpath.basename
    (posixpath.join out_dir (@safe posixpath.os_path U src ++ lit ".jpg"))
  = @safe posixpath.os_path U src ++ lit ".jpg".
Proof.
  apply posix_basename_join. rewrite free_of_app, safe_free_of_slash. reflexivity.
Qed.

Lemma rfind_lower (p : str) (c : char) : (-1 <= rfind p c)%Z.
Proof.
  unfold rfind. destruct (rfind_from_last c p 0 (-1)) as [[_ E]|(pre & post & _ & _ & E)];
    rewrite E; [lia|]. unfold len. lia.
Qed.

Lemma free_of_prefix seps (a b : str) :
  free_of seps (a ++ b) = true -> free_of seps a = true.
Proof. rewrite free_of_app, andb_true_iff. tauto. Qed.

(** [_splitext] cuts its argument in two, and what it cuts off is empty
    or begins with the extension separator. *)
Lemma splitext_parts (p : str) (sep : char) (altsep : option char) (extsep : char) :
  let '(root, ext) := genericpath._splitext p sep altsep extsep in
  root ++ ext = p /\ (ext = [] \/ exists rest, ext = extsep :: rest).
Proof.
  unfold genericpath._splitext.
  set (sepIndex := match altsep with
                   | Some a => Z.max (rfind p sep) (rfind p a)
                   | None => rfind p sep
                   end).
  assert (Hlow : (-1 <= sepIndex)%Z).
  { unfold sepIndex. pose proof (rfind_lower p sep). destruct altsep; lia. }
  destruct ((sepIndex <? rfind p extsep)%Z
            && existsb (fun c => negb (chr_eqb c extsep))
                 (slice p (sepIndex + 1) (rfind p extsep))) eqn:E.
  - apply andb_true_iff in E. destruct E as [Hlt _]. apply Z.ltb_lt in Hlt.
    split; [apply firstn_skipn|]. right.
    unfold rfind in *.
    destruct (rfind_from_last extsep p 0 (-1)) as [[_ E]|(pre & post & Hp & _ & E)];
      [lia|].
    exists post. rewrite E. unfold slice_from. rewrite Hp at 1.
    apply skipn_len_app. lia.
  - split; [apply app_nil_r | left; reflexivity].
Qed.

Lemma posix_basename_free (p : str) : free_of [47%N] (posixpath.basename p) = true.
Proof.
  unfold posixpath.basename, rfind, slice_from.
  destruct (rfind_from_last 47%N p 0 (-1)) as [[Hf E]|(pre & post & Hp & Hf & E)];
    rewrite E.
  - exact Hf.
  - rewrite Hp. change (pre ++ 47%N :: post) with (pre ++ [47%N] ++ post).
    rewrite app_assoc, skipn_len_app; [exact Hf|].
    rewrite len_app. unfold len. cbn [length]. lia.
Qed.

Lemma last_component_free (r : str) :
  free_of ntpath.seps (fst (ntpath.last_component r)) = true.
Proof.
  induction r as [|c t IH]; cbn [ntpath.last_component]; [reflexivity|].
  destruct (char_in c ntpath.seps) eqn:E; [reflexivity|].
  destruct (ntpath.last_component t) as [tail head]. cbn [fst] in *.
  unfold free_of in *. cbn [forallb]. rewrite E, IH. reflexivity.
Qed.

Lemma free_of_rev seps (s : str) : free_of seps (rev s) = free_of seps s.
Proof.
  unfold free_of. induction s as [|c s IH]; [reflexivity|].
  cbn [rev forallb]. rewrite forallb_app, IH. cbn [forallb].
  rewrite andb_true_r. apply andb_comm.
Qed.

Lemma nt_basename_free (p : str) : free_of ntpath.seps (ntpath.basename p) = true.
Proof.
  unfold ntpath.basename, ntpath.split.
  destruct (ntpath.splitroot p) as [[d r] rest].
  pose proof (last_component_free (rev rest)) as Hf.
  destruct (ntpath.last_component (rev rest)) as [tail head]. cbn [fst snd] in *.
  rewrite free_of_rev. exact Hf.
Qed.

(** X10.  [_basename_no_ext] under either flavour of [os.path]: the stem
    is the basename less an extension that is empty or begins with a
    period, and it holds no path separator of the flavour (no slash under
    [posixpath]; neither slash nor backslash under [ntpath]).  With
    [posixpath] it follows that [_dz_convert_one] writes its descriptor to
    the file [<stem>.dzi] of the output folder itself. *)
Theorem basename_no_ext_is_a_plain_stem (path out_dir : str) :
  (exists ext,
     posixpath.basename path = @_basename_no_ext posixpath.os_path path ++ ext /\
     (ext = [] \/ exists rest, ext = 46%N :: rest)) /\
  free_of [47%N] (@_basename_no_ext posixpath.os_path path) = true /\
  (exists ext,
     ntpath.basename path = @_basename_no_ext ntpath.os_path path ++ ext /\
     (ext = [] \/ exists rest, ext = 46%N :: rest)) /\
  free_of [92; 47]%N (@_basename_no_ext ntpath.os_path path) = true /\
  posixpath.basename
    (posixpath.join out_dir (@_basename_no_ext posixpath.os_path path ++ lit ".dzi"))
  = @_basename_no_ext posixpath.os_path path ++ lit ".dzi".
Proof.
  unfold _basename_no_ext.
  cbn [os_path_basename os_path_splitext posixpath.os_path ntpath.os_path].
  pose proof (splitext_parts (posixpath.basename path) 47%N None 46%N) as Hp.
  pose proof (splitext_parts (ntpath.basename path) ntpath.sep
                (Some ntpath.altsep) 46%N) as Hn.
  unfold posixpath.splitext, ntpath.splitext.
  destruct (genericpath._splitext (posixpath.basename path) 47%N None 46%N)
    as [rp ep].
  destruct (genericpath._splitext (ntpath.basename path) ntpath.sep
              (Some ntpath.altsep) 46%N) as [rn en].
  cbn [fst]. destruct Hp as [Hp1 Hp2]. destruct Hn as [Hn1 Hn2].
  assert (Fp : free_of [47%N] rp = true).
  { apply free_of_prefix with (b := ep). rewrite Hp1. apply posix_basename_free. }
  assert (Fn : free_of [92; 47]%N rn = true).
  { apply free_of_prefix with (b := en). rewrite Hn1. apply nt_basename_free. }
  split; [exists ep; split; [symmetry; exact Hp1 | exact Hp2]|].
  split; [exact Fp|].
  split; [exists en; split; [symmetry; exact Hn1 | exact Hn2]|].
  split; [exact Fn|].
  apply posix_basename_join. rewrite free_of_app, Fp. reflexivity.
Qed.

(** ** The stem against the written steps *)

Lemma after_last_separator_parts (seps p : str) :
  (free_of seps p = true /\ after_last_separator seps p = p) \/
  exists pre c,
    p = pre ++ c :: after_last_separator seps p /\ char_in c seps = true /\
    free_of seps (after_last_separator seps p) = true.
Proof.
  induction p as [|c t IH]; cbn [after_last_separator].
  - left. split; reflexivity.
  - destruct (free_of seps t) eqn:Ft; cbn [negb].
    + destruct (char_in c seps) eqn:Ec.
      * right. exists [], c. repeat split; assumption.
      * left. split; [|reflexivity].
        unfold free_of in *. cbn [forallb]. rewrite Ec, Ft. reflexivity.
    + destruct IH as [[Hf _]|(pre & d & Hp & Hd & Hf)]; [congruence|].
      right. exists (c :: pre), d. split; [|split; assumption].
      cbn [app]. f_equal. exact Hp.
Qed.

Lemma posix_basename_is_filename (p : str) :
  posixpath.basename p = filename Posix p.
Proof.
  unfold filename. change (lit "/") with [47%N].
  destruct (after_last_separator_parts [47%N] p) as [[Hf E]|(pre & c & Hp & Hc & Hf)].
  - rewrite E. apply posix_basename_plain. exact Hf.
  - unfold char_in in Hc. cbn in Hc. rewrite orb_false_r in Hc.
    apply N.eqb_eq in Hc. subst c.
    remember (after_last_separator [47%N] p) as t eqn:Et. clear Et.
    subst p. apply posix_basename_after_slash. exact Hf.
Qed.

Lemma last_component_app (a r : str) :
  free_of ntpath.seps a = true ->
  fst (ntpath.last_component (a ++ r)) = a ++ fst (ntpath.last_component r).
Proof.
  induction a as [|c a IH]; intros Hf; [reflexivity|].
  unfold free_of in Hf. cbn [forallb] in Hf. apply andb_true_iff in Hf.
  destruct Hf as [Hc Ha]. apply negb_true_iff in Hc.
  cbn [app ntpath.last_component]. rewrite Hc.
  specialize (IH Ha).
  destruct (ntpath.last_component (a ++ r)) as [tail head]. cbn [fst] in *.
  rewrite IH. reflexivity.
Qed.

Lemma nt_basename_is_filename (p : str) :
  ntpath.basename p = filename Windows p.
Proof.
  unfold ntpath.basename, ntpath.split, filename.
  destruct (ntpath.splitroot p) as [[d r] rest].
  assert (E : rev (fst (ntpath.last_component (rev rest)))
              = after_last_separator ntpath.seps rest).
  { destruct (after_last_separator_parts ntpath.seps rest)
      as [[Hf Ea]|(pre & c & Hp & Hc & Hf)].
    - rewrite Ea. rewrite <- (app_nil_r (rev rest)).
      rewrite last_component_app by (rewrite free_of_rev; exact Hf).
      cbn [ntpath.last_component fst]. rewrite app_nil_r. apply rev_involutive.
    - remember (after_last_separator ntpath.seps rest) as t eqn:Et. clear Et.
      subst rest. rewrite rev_app_distr. cbn [rev]. rewrite <- app_assoc.
      rewrite last_component_app by (rewrite free_of_rev; exact Hf).
      cbn [app ntpath.last_component]. rewrite Hc. cbn [fst].
      rewrite app_nil_r. apply rev_involutive. }
  destruct (ntpath.last_component (rev rest)) as [tail head]. exact E.
Qed.

(** Where [rfind] finds the last period, [before_last_period] ends. *)
Lemma rfind_from_before_last_period (name : str) :
  forall i acc,
    rfind_from 46%N name i acc =
    match before_last_period name with
    | Some front => (i + len front)%Z
    | None => acc
    end.
Proof.
  induction name as [|c t IH]; intros i acc;
    cbn [rfind_from before_last_period]; [reflexivity|].
  rewrite IH. destruct (before_last_period t) as [front|].
  - unfold len. cbn [length]. lia.
  - destruct (chr_eqb c 46%N); [unfold len; cbn; lia | reflexivity].
Qed.

Lemma before_last_period_front (name front : str) :
  before_last_period name = Some front ->
  firstn (length front) name = front.
Proof.
  revert front. induction name as [|c t IH]; intros front;
    cbn [before_last_period]; [discriminate|].
  destruct (before_last_period t) as [front'|].
  - intros E. injection E as <-. cbn [length firstn]. f_equal. apply IH. reflexivity.
  - destruct (chr_eqb c 46%N); [|discriminate].
    intros E. injection E as <-. reflexivity.
Qed.

Lemma free_of_each (a b : char) (s : str) :
  free_of [a; b] s = true -> free_of [a] s = true /\ free_of [b] s = true.
Proof.
  unfold free_of. induction s as [|c s IH]; cbn [forallb]; [split; reflexivity|].
  rewrite !andb_true_iff. intros [Hc Hs]. destruct (IH Hs) as [Ha Hb].
  unfold char_in in *. cbn in *. rewrite orb_false_r in *.
  apply negb_true_iff, orb_false_iff in Hc. destruct Hc as [Hca Hcb].
  rewrite Hca, Hcb, Ha, Hb. repeat split.
Qed.

(** On a name that holds no separator, [_splitext] drops the extension
    the written step speaks of. *)
Lemma splitext_of_name (name : str) (sep : char) (altsep : option char) :
  free_of [sep] name = true ->
  match altsep with Some a => free_of [a] name = true | None => True end ->
  fst (genericpath._splitext name sep altsep 46%N) = without_extension name.
Proof.
  intros Hs Ha. unfold genericpath._splitext.
  assert (Es : rfind name sep = (-1)%Z).
  { unfold rfind. apply rfind_from_absent. exact Hs. }
  assert (Ei : match altsep with
               | Some a => Z.max (rfind name sep) (rfind name a)
               | None => rfind name sep
               end = (-1)%Z).
  { destruct altsep as [a|]; [|exact Es].
    rewrite Es. unfold rfind. rewrite (@rfind_from_absent a name Ha). reflexivity. }
  rewrite Ei. unfold rfind at 1 2 3 4.
  rewrite rfind_from_before_last_period. unfold without_extension.
  destruct (before_last_period name) as [front|] eqn:E; [|reflexivity].
  assert (Hlt : (-1 <? 0 + len front)%Z = true) by (apply Z.ltb_lt; unfold len; lia).
  rewrite Hlt. cbn [andb].
  assert (Hsl : slice name (-1 + 1) (0 + len front) = front).
  { unfold slice, len. cbn [Z.add Z.to_nat skipn]. rewrite Z.sub_0_r, Nat2Z.id.
    apply before_last_period_front. exact E. }
  rewrite Hsl.
  destruct (existsb (fun c => negb (chr_eqb c 46%N)) front); [|reflexivity].
  cbn [fst]. unfold slice_to, len. cbn [Z.add]. rewrite Nat2Z.id.
  apply before_last_period_front. exact E.
Qed.

(** [_basename_no_ext] takes the file name without its extension. *)
Lemma basename_no_ext_is_stem (f : flavour) (path : str) :
  @_basename_no_ext (os_path_of f) path = without_extension (filename f path).
Proof.
  unfold _basename_no_ext. destruct f;
    cbn [os_path_of os_path_basename os_path_splitext posixpath.os_path
         ntpath.os_path].
  - unfold posixpath.splitext.
    rewrite splitext_of_name; [|apply posix_basename_free | exact I].
    rewrite posix_basename_is_filename. reflexivity.
  - unfold ntpath.splitext.
    destruct (@free_of_each ntpath.sep ntpath.altsep (ntpath.basename path)
                (nt_basename_free path)) as [Hs Ha].
    rewrite splitext_of_name; [|exact Hs | exact Ha].
    rewrite nt_basename_is_filename. reflexivity.
Qed.

Lemma norm_sep (a : char) :
  chr_eqb (if chr_eqb a ntpath.altsep then ntpath.sep else a) ntpath.sep
  = char_in a ntpath.seps.
Proof.
  unfold char_in, ntpath.seps, ntpath.sep, ntpath.altsep, chr_eqb. cbn [existsb].
  rewrite orb_false_r.
  destruct (N.eqb_spec a 47); [subst; reflexivity|].
  destruct (N.eqb_spec a 92); reflexivity.
Qed.

Lemma norm_colon (a : char) :
  chr_eqb (if chr_eqb a ntpath.altsep then ntpath.sep else a) ntpath.colon = true ->
  char_in a ntpath.seps = false.
Proof.
  unfold ntpath.sep, ntpath.altsep, ntpath.colon, chr_eqb.
  destruct (N.eqb_spec a 47); [discriminate|].
  intros E. apply N.eqb_eq in E. subst. reflexivity.
Qed.

Lemma first_is_sep (a : char) (t : str) :
  str_eqb (slice_to (replace (a :: t) ntpath.altsep ntpath.sep) 1) [ntpath.sep]
  = char_in a ntpath.seps.
Proof.
  unfold slice_to, replace. change (Z.to_nat 1) with 1%nat. cbn [map firstn str_eqb].
  rewrite andb_true_r. apply norm_sep.
Qed.

Lemma second_is (a b x : char) (t : str) :
  str_eqb (slice (replace (a :: b :: t) ntpath.altsep ntpath.sep) 1 2) [x]
  = chr_eqb (if chr_eqb b ntpath.altsep then ntpath.sep else b) x.
Proof.
  unfold slice, replace. change (Z.to_nat (2 - 1)) with 1%nat.
  change (Z.to_nat 1) with 1%nat. cbn [map firstn skipn str_eqb].
  apply andb_true_r.
Qed.

Lemma third_is_sep (a b c : char) (t : str) :
  str_eqb (slice (replace (a :: b :: c :: t) ntpath.altsep ntpath.sep) 2 3) [ntpath.sep]
  = char_in c ntpath.seps.
Proof.
  unfold slice, replace. change (Z.to_nat (3 - 2)) with 1%nat.
  change (Z.to_nat 2) with 2%nat. cbn [map firstn skipn str_eqb].
  rewrite andb_true_r. apply norm_sep.
Qed.

Lemma after_last_separator_free (seps p : str) :
  free_of seps p = true -> after_last_separator seps p = p.
Proof.
  destruct (after_last_separator_parts seps p) as [[_ E]|(pre & c & Hp & Hc & _)];
    [intros _; exact E|].
  intros Hf. rewrite Hp in Hf. rewrite free_of_app in Hf.
  apply andb_true_iff in Hf. destruct Hf as [_ Hf].
  unfold free_of in Hf. cbn [forallb] in Hf. rewrite Hc in Hf. discriminate.
Qed.

Lemma after_last_separator_cons (seps : str) (a : char) (t : str) :
  free_of seps t = false \/ char_in a seps = true ->
  after_last_separator seps (a :: t) = after_last_separator seps t.
Proof.
  intros Hc. cbn [after_last_separator].
  destruct (free_of seps t) eqn:Ft; cbn [negb]; [|reflexivity].
  destruct Hc as [Hc|Hc]; [discriminate|]. rewrite Hc.
  symmetry. apply after_last_separator_free. exact Ft.
Qed.

Lemma free_of_cons seps a t : free_of seps (a :: t) = negb (char_in a seps) && free_of seps t.
Proof. reflexivity. Qed.

(** On a Windows path that holds a separator and does not start with
    two, the file name is what follows the last separator: the drive
    takes nothing from it. *)
Lemma nt_filename_plain (p : str) :
  network_path p = false -> free_of ntpath.seps p = false ->
  filename Windows p = after_last_separator ntpath.seps p.
Proof.
  intros Hn Hs. unfold filename, ntpath.splitroot. cbv zeta.
  destruct p as [|a t]; [discriminate|].
  rewrite first_is_sep.
  destruct (char_in a ntpath.seps) eqn:Ea.
  - destruct t as [|b t].
    + change (str_eqb (slice (replace [a] ntpath.altsep ntpath.sep) 1 2) [ntpath.sep])
        with false.
      cbv iota. unfold slice_from. change (Z.to_nat 1) with 1%nat. cbn [skipn].
      symmetry. apply after_last_separator_cons. right. exact Ea.
    + rewrite second_is, norm_sep.
      cbn [network_path] in Hn. rewrite Ea in Hn. cbn [andb] in Hn. rewrite Hn.
      unfold slice_from. change (Z.to_nat 1) with 1%nat. cbn [skipn].
      symmetry. apply after_last_separator_cons. right. exact Ea.
  - rewrite free_of_cons, Ea in Hs. cbn [negb andb] in Hs.
    destruct t as [|b t]; [discriminate|].
    rewrite second_is.
    destruct (chr_eqb (if chr_eqb b ntpath.altsep then ntpath.sep else b) ntpath.colon)
      eqn:Eb.
    + apply norm_colon in Eb. rewrite free_of_cons, Eb in Hs. cbn [negb andb] in Hs.
      destruct t as [|c t]; [discriminate|].
      rewrite third_is_sep.
      destruct (char_in c ntpath.seps) eqn:Ec;
        unfold slice_from; [change (Z.to_nat 3) with 3%nat | change (Z.to_nat 2) with 2%nat]; cbn [skipn].
      * rewrite (@after_last_separator_cons ntpath.seps a (b :: c :: t))
          by (left; rewrite !free_of_cons, Ec, andb_false_r; reflexivity).
        rewrite (@after_last_separator_cons ntpath.seps b (c :: t))
          by (left; rewrite !free_of_cons, Ec; reflexivity).
        rewrite (@after_last_separator_cons ntpath.seps c t) by (right; exact Ec).
        reflexivity.
      * rewrite (@after_last_separator_cons ntpath.seps a (b :: c :: t))
          by (left; rewrite free_of_cons, Eb; exact Hs).
        rewrite (@after_last_separator_cons ntpath.seps b (c :: t)) by (left; exact Hs).
        reflexivity.
    + reflexivity.
Qed.

(** C7.  The stem [save_jpeg.worker] computes is the one the written steps
    describe: the file name of the path (what follows its last separator)
    without its extension, trailing periods and spaces stripped, every
    character that is not alphanumeric, a period, an underscore, a hyphen
    or a space replaced by an underscore; this under [posixpath] and
    under [ntpath], for every path.  On a Windows path that holds a
    separator and is not a network path the drive plays no part: the file
    name is what follows the last backslash or slash of the whole path.
    And the stem holds no slash, no backslash and no control character,
    whatever the path and whatever [os.path] makes of it. *)
Theorem safe_follows_steps_and_is_clean (f : flavour) (U : Unicode) (src : str) :
  @safe (os_path_of f) U src = sanitize f src /\
  (network_path src = false -> free_of ntpath.seps src = false ->
   @safe ntpath.os_path U src
   = tidy (without_extension (after_last_separator ntpath.seps src))) /\
  forall P : OsPath, existsb forbidden (@safe P U src) = false.
Proof.
  split; [|split].
  - rewrite safe_tidy, basename_no_ext_is_stem. reflexivity.
  - intros Hn Hs. rewrite safe_tidy, (basename_no_ext_is_stem Windows).
    rewrite (nt_filename_plain src Hn Hs). reflexivity.
  - intros P. rewrite safe_tidy. apply tidy_clean.
Qed.

Lemma safe_follows_steps_and_is_clean_witness :
  @safe ntpath.os_path Sample.unicode (lit "C:\scans\cell#7.v2.tif") = lit "cell_7.v2" /\
  @sanitize Windows Sample.unicode (lit "C:\scans\cell#7.v2.tif") = lit "cell_7.v2".
Proof.
  destruct (safe_follows_steps_and_is_clean Windows Sample.unicode
              (lit "C:\scans\cell#7.v2.tif")) as (E & Eplain & _).
  split; [|rewrite <- E; change (os_path_of Windows) with ntpath.os_path];
    rewrite (Eplain eq_refl eq_refl); reflexivity.
Defined.

(** ** The file URI *)

Lemma replace_free (s : str) (a b : char) :
  chr_eqb b a = false -> free_of [a] (replace s a b) = true.
Proof.
  intros Hab. unfold free_of, replace.
  apply forallb_forall. intros d Hin. apply in_map_iff in Hin.
  destruct Hin as (c & <- & _). unfold char_in. cbn [existsb].
  rewrite orb_false_r. destruct (chr_eqb c a) eqn:E; [rewrite Hab | rewrite E];
    reflexivity.
Qed.

Lemma replace_pointwise (s : str) (a b : char) :
  Forall2 (fun c d => d = if chr_eqb c a then b else c) s (replace s a b).
Proof.
  unfold replace. induction s as [|c s IH]; cbn [map]; constructor;
    [reflexivity | exact IH].
Qed.

Lemma startswith_two (a : str) (x y : char) :
  startswith a [x; y] = true -> a = x :: y :: slice_from a 2.
Proof.
  destruct a as [|c [|d a]]; cbn [startswith]; try discriminate.
  - rewrite andb_false_r. discriminate.
  - rewrite !andb_true_iff. unfold chr_eqb. rewrite !N.eqb_eq.
    intros [-> [-> _]]. reflexivity.
Qed.

(** X11.  [path_to_file_uri] takes the network branch exactly for the
    paths [_is_unc] classifies as network paths.  There the absolute path
    is two backslashes followed by some [rest], and the answer is
    "file://" followed by the quoted [t], where [t] is [rest] character by
    character with every backslash turned into a slash, so [t] holds no
    backslash; for other paths it answers what [Path.as_uri] gives for the
    absolute path; and where [os.path.abspath] raises, it raises the same
    exception, while [_is_unc] answers [False]. *)
Theorem path_to_file_uri_by_kind `{Os} (p : str) :
  match os_path_abspath p with
  | Raise e => path_to_file_uri p = Raise e /\ _is_unc p = Ok false
  | Ok a =>
      if startswith a (lit "\\") then
        _is_unc p = Ok true /\
        exists rest t,
          a = 92%N :: 92%N :: rest /\
          path_to_file_uri p = Ok (lit "file://" ++ quote t) /\
          Forall2 (fun c d => d = if (c =? 92)%N then 47%N else c) rest t /\
          free_of [92%N] t = true
      else
        _is_unc p = Ok false /\ path_to_file_uri p = Path_as_uri a
  end.
Proof.
  unfold path_to_file_uri, _is_unc.
  destruct (os_path_abspath p) as [a|e]; cbn [result_bind]; [|split; reflexivity].
  destruct (startswith a (lit "\\")) eqn:E; [|split; reflexivity].
  split; [reflexivity|].
  exists (slice_from a 2), (replace (slice_from a 2) 92%N 47%N).
  split; [apply startswith_two; exact E|].
  split; [reflexivity|].
  split; [apply replace_pointwise | apply replace_free; reflexivity].
Qed.

(** ** More on the worker-count selector *)

(** X12.  The selector never hands out more than half the cores (one at
    the least), and a single file always gets one worker; the line v7
    prints reports the value it returns, and for an empty list v7 prints
    nothing. *)
Theorem auto_workers_leaves_half_the_cores {World} `{Os} (files : list str)
  (out_dir : str) (s : App World) :
  let w := V8._auto_workers files out_dir in
  (w <= Z.max 1 (cores / 2))%Z /\
  (forall f, V8._auto_workers [f] out_dir = 1%Z) /\
  V7._auto_workers files out_dir s =
    (Ok w,
     match files with
     | [] => s
     | _ => set_stdout
              (stdout s ++ [AutoWorkersLine w (any_unc files out_dir) os_cpu_count]) s
     end).
Proof.
  cbv zeta. split; [|split].
  - unfold V8._auto_workers. destruct (truthy files); cbn [negb]; [|lia].
    destruct (any_unc files out_dir); lia.
  - intros f. unfold V8._auto_workers. cbn [truthy negb].
    destruct (any_unc [f] out_dir); [reflexivity|].
    unfold len. cbn [length]. lia.
  - destruct files as [|f files]; [reflexivity|].
    apply v7_auto_workers_run. discriminate.
Qed.

(** ** More on the format normaliser *)

Section Blend.
Import Image Normaliser.
Context `{Convert}.

Lemma DIV255_round (a : Z) :
  (0 <= a <= 65025)%Z -> DIV255 a = ((a + 127) / 255)%Z.
Proof.
  intros Ha. unfold DIV255. cbv zeta.
  rewrite !Z.shiftr_div_pow2 by lia. change (2 ^ 8)%Z with 256%Z.
  Z.div_mod_to_equations. lia.
Qed.

Lemma BLEND_over_white (a v : Z) :
  (0 <= a <= 255)%Z -> (0 <= v <= 255)%Z ->
  BLEND a 255 v = over_white_exact a v /\ (0 <= over_white_exact a v <= 255)%Z.
Proof.
  intros Ha Hv. unfold BLEND, over_white_exact.
  assert (Hr : (0 <= 255 * (255 - a) + v * a <= 65025)%Z) by nia.
  rewrite DIV255_round by exact Hr.
  assert (Hq : (0 <= (255 * (255 - a) + v * a + 127) / 255 <= 255)%Z).
  { split; [apply Z.div_pos; lia|].
    assert ((255 * (255 - a) + v * a + 127) / 255 < 256)%Z
      by (apply Z.div_lt_upper_bound; lia).
    lia. }
  split; [apply Z.mod_small; lia | exact Hq].
Qed.

Lemma band_byte (i : nat) (px : list Z) :
  bytes px = true -> (0 <= band i px <= 255)%Z.
Proof.
  intros Hb. unfold band, bytes in *.
  destruct (nth_in_or_default i px 0%Z) as [Hin|E]; [|rewrite E; lia].
  rewrite forallb_forall in Hb. specialize (Hb _ Hin).
  apply andb_true_iff in Hb. destruct Hb as [H0 H1].
  apply Z.leb_le in H0. apply Z.leb_le in H1. lia.
Qed.

Lemma alpha_byte (m : string) (px : list Z) :
  bytes px = true -> (0 <= alpha m px <= 255)%Z.
Proof.
  intros Hb. unfold alpha. destruct (m =? "LA")%string; apply band_byte; exact Hb.
Qed.

Lemma over_white_is_exact (m : string) (px : list Z) :
  bytes px = true ->
  over_white m px = map (over_white_exact (alpha m px)) (rgb_bytes m px) /\
  bytes (over_white m px) = true.
Proof.
  intros Hb. pose proof (@alpha_byte m px Hb) as Ha.
  pose proof (@band_byte 0 px Hb) as H0. pose proof (@band_byte 1 px Hb) as H1.
  pose proof (@band_byte 2 px Hb) as H2.
  unfold over_white, rgb_bytes, bytes.
  destruct ((m =? "LA")%string || (m =? "La")%string); cbn [map forallb];
    repeat match goal with
           | |- context [BLEND (alpha m px) 255 ?v] =>
               let E := fresh "E" in
               let B := fresh "B" in
               destruct (@BLEND_over_white (alpha m px) v Ha ltac:(assumption))
                 as [E B];
               rewrite E; clear E
           end;
    (split; [reflexivity|]);
    repeat (apply andb_true_iff; split); try reflexivity;
    try (apply Z.leb_le; lia).
Qed.

Lemma over_white_exact_opaque (v : Z) : over_white_exact 255 v = v.
Proof.
  unfold over_white_exact. replace (255 * (255 - 255) + v * 255 + 127)%Z
    with (127 + v * 255)%Z by lia.
  rewrite Z.div_add by lia. reflexivity.
Qed.

(** X13.  For an [RGBA] or [LA] image whose pixel at [(x, y)] holds bytes,
    both revisions of [_ensure_rgb] return the same image, whose pixel
    there is, band by band, the nearest integer to the source value
    weighted by alpha/255 plus white weighted by the rest; its bands are
    bytes again; and a fully opaque pixel keeps its colour. *)
Theorem ensure_rgb_blends_to_nearest (img : Image) (x y : Z)
  (Hw : (0 <= fst (size img))%Z) (Hh : (0 <= snd (size img))%Z)
  (Ha : has_alpha (mode img) = true)
  (Hin : inside (size img) x y = true)
  (Hpx : bytes (getpixel img x y) = true) :
  exists bg,
    V7._ensure_rgb img = Ok bg /\ V8._ensure_rgb img = Ok bg /\
    getpixel bg x y =
      map (over_white_exact (alpha (mode img) (getpixel img x y)))
          (rgb_bytes (mode img) (getpixel img x y)) /\
    bytes (getpixel bg x y) = true /\
    (alpha (mode img) (getpixel img x y) = 255%Z ->
     getpixel bg x y = rgb_bytes (mode img) (getpixel img x y)).
Proof.
  destruct (composite_alpha img Hw Hh Ha) as (bg & E & _ & _ & Hp).
  exists bg.
  assert (E7 : V7._ensure_rgb img = Ok bg).
  { unfold V7._ensure_rgb. fold (has_alpha (mode img)). rewrite Ha. exact E. }
  assert (E8 : V8._ensure_rgb img = Ok bg).
  { unfold V8._ensure_rgb. fold (has_alpha (mode img)). rewrite Ha. exact E. }
  destruct (@over_white_is_exact (mode img) _ Hpx) as [Hx Hb].
  rewrite (Hp x y Hin).
  split; [exact E7|]. split; [exact E8|]. split; [exact Hx|]. split; [exact Hb|].
  intros H255. rewrite Hx, H255.
  erewrite map_ext; [apply map_id|]. intros v. apply over_white_exact_opaque.
Qed.

End Blend.

Lemma ensure_rgb_blends_to_nearest_witness :
  exists bg,
    @V7._ensure_rgb Sample.pillow Sample.picture = Ok bg /\
    @V8._ensure_rgb Sample.pillow Sample.picture = Ok bg /\
    Image.getpixel bg 1 0 = [0; 0; 255]%Z.
Proof.
  destruct (@ensure_rgb_blends_to_nearest Sample.pillow Sample.picture 1%Z 0%Z
              ltac:(discriminate) ltac:(discriminate) eq_refl eq_refl eq_refl)
    as (bg & E7 & E8 & _ & _ & Ho).
  exists bg. split; [exact E7|]. split; [exact E8|].
  rewrite (Ho eq_refl). reflexivity.
Defined.
